(** * T21C/tuf-backend: the score engine of [parser_module]

    A shallow embedding of [src/parser_module/Core.py] and
    [src/parser_module/Search.py].

    Python values are embedded as the inductive type [pyval]; a Python
    expression that may raise is a computation in the error monad [res].
    Python floats are idealised as exact rationals ([Q]): rounding, NaN,
    infinities and overflow are outside the model.  Library functions whose
    result is not fixed by this repository ([math.pow], [datetime.strptime],
    [datetime.today]) are parameters of the development.  The [print]
    calls and the [perf_counter] timings of [Search.py] do not affect what
    the functions return and are left out, as is the reading of the cache
    files: the searches take the [DataScraper] they work on. *)

From Stdlib Require Import ZArith QArith Qround Qpower Qabs Qminmax.
From Stdlib Require Import List String Ascii Bool.
From Stdlib Require Import Lia Lqa Psatz Permutation Sorted.
From Stdlib Require Import DecimalString.
From Stdlib Require OrderedTypeEx.
Import ListNotations.

Set Implicit Arguments.

(* ================================================================== *)
(** * Python values, exceptions and operators                          *)
(* ================================================================== *)

Module Py.

(** The exceptions the two modules can raise. [ValueError] carries its
    message, [KeyError] the missing key. *)
Inductive exn : Type :=
| ValueError (msg : string)
| KeyError (key : string)
| TypeError
| ZeroDivisionError
| IndexError.

Inductive res (A : Type) : Type :=
| Ret (a : A)
| Raise (e : exn).
Arguments Ret {A} a.
Arguments Raise {A} e.

Definition bind {A B} (c : res A) (k : A -> res B) : res B :=
  match c with
  | Ret a => k a
  | Raise e => Raise e
  end.

Declare Scope py_scope.
Delimit Scope py_scope with py.
Notation "x <- c ;; k" := (bind c (fun x => k))
  (at level 61, c at next level, right associativity) : py_scope.
Notation "' pat <- c ;; k" := (bind c (fun x => match x with pat => k end))
  (at level 61, pat pattern, c at next level, right associativity) : py_scope.
Open Scope py_scope.

Definition raises {A} (c : res A) : bool :=
  match c with Ret _ => false | Raise _ => true end.

(** JSON values plus [datetime] (seconds on some fixed time line).  A JSON
    object is a [dict] with string keys, kept in insertion order. *)
#[warnings="-register-all"]
Inductive pyval : Type :=
| VNone
| VBool (b : bool)
| VInt (z : Z)
| VFloat (q : Q)
| VStr (s : string)
| VDate (t : Z)
| VList (l : list pyval)
| VDict (d : list (string * pyval)).

Definition dict : Type := list (string * pyval).

(** ** Dictionaries *)

Fixpoint dict_get (d : dict) (k : string) : option pyval :=
  match d with
  | [] => None
  | (k', v) :: d' => if String.eqb k' k then Some v else dict_get d' k
  end.

Definition dict_mem (d : dict) (k : string) : bool :=
  match dict_get d k with Some _ => true | None => false end.

(** [d[k] = v]: an existing key keeps its position, a new key goes last. *)
Fixpoint dict_set (d : dict) (k : string) (v : pyval) : dict :=
  match d with
  | [] => [(k, v)]
  | (k', v') :: d' =>
      if String.eqb k' k then (k', v) :: d' else (k', v') :: dict_set d' k v
  end.

Definition dict_keys (d : dict) : list string := map fst d.
Definition dict_values (d : dict) : list pyval := map snd d.

(** [d.update(inp)] *)
Definition dict_update (d inp : dict) : dict :=
  fold_left (fun acc kv => dict_set acc (fst kv) (snd kv)) inp d.

(** A dict display [{k1: v1, ...}]. *)
Definition dict_of (kvs : list (string * pyval)) : dict := dict_update [] kvs.

Definition str_mem (k : string) (ks : list string) : bool :=
  existsb (String.eqb k) ks.

(** ** Numbers: [bool] is a subtype of [int]; mixed arithmetic is float. *)

Definition as_int (v : pyval) : option Z :=
  match v with
  | VBool b => Some (if b then 1 else 0)%Z
  | VInt z => Some z
  | _ => None
  end.

Definition as_num (v : pyval) : option Q :=
  match v with
  | VBool b => Some (if b then 1 else 0)
  | VInt z => Some (inject_Z z)
  | VFloat q => Some q
  | _ => None
  end.

(** [isinstance(v, int)] and [type(v) == int] *)
Definition isinstance_int (v : pyval) : bool :=
  match v with VBool _ | VInt _ => true | _ => false end.

Definition type_is_int (v : pyval) : bool :=
  match v with VInt _ => true | _ => false end.

Definition Qltb (x y : Q) : bool := negb (Qle_bool y x).

(** Truth value of an object. *)
Definition truthy (v : pyval) : bool :=
  match v with
  | VNone => false
  | VBool b => b
  | VInt z => negb (z =? 0)%Z
  | VFloat q => negb (Qeq_bool q 0)
  | VStr s => negb (String.eqb s "")
  | VDate _ => true
  | VList l => match l with [] => false | _ => true end
  | VDict d => match d with [] => false | _ => true end
  end.

Definition is_none (v : pyval) : bool :=
  match v with VNone => true | _ => false end.

(** [s * n] for a sequence [s] *)
Definition str_repeat (s : string) (n : Z) : string :=
  Nat.iter (Z.to_nat n) (String.append s) EmptyString.

Definition list_repeat {A} (l : list A) (n : Z) : list A :=
  Nat.iter (Z.to_nat n) (app l) [].

(** [a + b] *)
Definition py_add (a b : pyval) : res pyval :=
  match as_int a, as_int b with
  | Some x, Some y => Ret (VInt (x + y))
  | _, _ =>
      match as_num a, as_num b with
      | Some x, Some y => Ret (VFloat (x + y))
      | _, _ =>
          match a, b with
          | VStr s, VStr t => Ret (VStr (s ++ t))
          | VList l, VList m => Ret (VList (l ++ m))
          | _, _ => Raise TypeError
          end
      end
  end.

(** [a - b] *)
Definition py_sub (a b : pyval) : res pyval :=
  match as_int a, as_int b with
  | Some x, Some y => Ret (VInt (x - y))
  | _, _ =>
      match as_num a, as_num b with
      | Some x, Some y => Ret (VFloat (x - y))
      | _, _ => Raise TypeError
      end
  end.

(** [a * b] *)
Definition py_mul (a b : pyval) : res pyval :=
  match as_int a, as_int b with
  | Some x, Some y => Ret (VInt (x * y))
  | _, _ =>
      match as_num a, as_num b with
      | Some x, Some y => Ret (VFloat (x * y))
      | _, _ =>
          match a, as_int b, as_int a, b with
          | VStr s, Some n, _, _ => Ret (VStr (str_repeat s n))
          | VList l, Some n, _, _ => Ret (VList (list_repeat l n))
          | _, _, Some n, VStr s => Ret (VStr (str_repeat s n))
          | _, _, Some n, VList l => Ret (VList (list_repeat l n))
          | _, _, _, _ => Raise TypeError
          end
      end
  end.

(** [a / b], true division *)
Definition py_div (a b : pyval) : res pyval :=
  match as_num a, as_num b with
  | Some x, Some y =>
      if Qeq_bool y 0 then Raise ZeroDivisionError else Ret (VFloat (x / y))
  | _, _ => Raise TypeError
  end.

(** [a ** n] for a float base and a non-negative int exponent, the only
    use in the source ([0.9 ** n]). *)
Definition py_pow_nat (a : Q) (n : nat) : pyval := VFloat (a ^ Z.of_nat n).

(** [a == b]; never raises. *)
Fixpoint py_eqb (a b : pyval) : bool :=
  match as_num a, as_num b with
  | Some x, Some y => Qeq_bool x y
  | _, _ =>
      match a, b with
      | VNone, VNone => true
      | VStr s, VStr t => String.eqb s t
      | VDate s, VDate t => (s =? t)%Z
      | VList l, VList m =>
          (fix go (l m : list pyval) : bool :=
             match l, m with
             | [], [] => true
             | x :: l', y :: m' => py_eqb x y && go l' m'
             | _, _ => false
             end) l m
      | VDict d, VDict e =>
          (Nat.eqb (List.length d) (List.length e))
          && (fix go (d : dict) : bool :=
                match d with
                | [] => true
                | (k, v) :: d' =>
                    match dict_get e k with
                    | Some w => py_eqb v w && go d'
                    | None => false
                    end
                end) d
      | _, _ => false
      end
  end.

(** [a < b]; raises [TypeError] on operands that are not ordered. *)
Fixpoint py_lt (a b : pyval) : res bool :=
  match as_num a, as_num b with
  | Some x, Some y => Ret (Qltb x y)
  | _, _ =>
      match a, b with
      | VStr s, VStr t => Ret (String.ltb s t)
      | VDate s, VDate t => Ret (s <? t)%Z
      | VList l, VList m =>
          (fix go (l m : list pyval) : res bool :=
             match l, m with
             | [], [] => Ret false
             | [], _ :: _ => Ret true
             | _ :: _, [] => Ret false
             | x :: l', y :: m' =>
                 if py_eqb x y then go l' m' else py_lt x y
             end) l m
      | _, _ => Raise TypeError
      end
  end.

Definition py_gt (a b : pyval) : res bool := py_lt b a.

(** [a <= b] on numbers (the source compares only numbers with [<=]). *)
Definition py_le (a b : pyval) : res bool :=
  match as_num a, as_num b with
  | Some x, Some y => Ret (Qle_bool x y)
  | _, _ => Raise TypeError
  end.

(** [max(a, b)]: the first argument unless the second is greater. *)
Definition py_max (a b : pyval) : res pyval :=
  g <- py_gt b a ;; Ret (if g then b else a).

(** [sum(l)] for a list [l] *)
Definition py_sum_list (l : list pyval) : res pyval :=
  fold_left (fun acc x => a <- acc ;; py_add a x) l (Ret (VInt 0)).

(** [v[k]] with a string key *)
Definition getitem (v : pyval) (k : string) : res pyval :=
  match v with
  | VDict d =>
      match dict_get d k with
      | Some x => Ret x
      | None => Raise (KeyError k)
      end
  | _ => Raise TypeError
  end.

Definition str_of_ascii (c : ascii) : string := String c EmptyString.

(** [v[i]] with an int index; negative indices count from the end. *)
Definition getidx (v : pyval) (i : Z) : res pyval :=
  match v with
  | VList l =>
      let n := Z.of_nat (List.length l) in
      let j := if (i <? 0)%Z then (i + n)%Z else i in
      if ((j <? 0) || (n <=? j))%Z then Raise IndexError
      else match nth_error l (Z.to_nat j) with
           | Some x => Ret x
           | None => Raise IndexError
           end
  | VStr s =>
      let n := Z.of_nat (String.length s) in
      let j := if (i <? 0)%Z then (i + n)%Z else i in
      if ((j <? 0) || (n <=? j))%Z then Raise IndexError
      else match String.get (Z.to_nat j) s with
           | Some c => Ret (VStr (str_of_ascii c))
           | None => Raise IndexError
           end
  | VDict _ => Raise (KeyError "")
  | _ => Raise TypeError
  end.

(** Iteration: a list yields its elements, a dict its keys, a string its
    characters; anything else is not iterable. *)
Definition py_iter (v : pyval) : res (list pyval) :=
  match v with
  | VList l => Ret l
  | VDict d => Ret (map VStr (dict_keys d))
  | VStr s => Ret (map (fun c => VStr (str_of_ascii c)) (list_ascii_of_string s))
  | _ => Raise TypeError
  end.

(** [sum(v)] *)
Definition py_sum (v : pyval) : res pyval :=
  l <- py_iter v ;; py_sum_list l.

(** [v[1:-1]] *)
Definition slice_1_m1 (v : pyval) : res pyval :=
  match v with
  | VList l => Ret (VList (removelast (tl l)))
  | VStr s =>
      Ret (VStr (String.substring 1 (String.length s - 2) s))
  | _ => Raise TypeError
  end.

(** [x in l] / [x not in l] for a list [l] *)
Definition py_in (x : pyval) (l : list pyval) : bool := existsb (py_eqb x) l.

Fixpoint mapM {A B} (f : A -> res B) (l : list A) : res (list B) :=
  match l with
  | [] => Ret []
  | x :: l' => y <- f x ;; ys <- mapM f l' ;; Ret (y :: ys)
  end.

End Py.
Import Py.

(** Lifted operators: the operands are evaluated left to right, as Python
    does, and the first exception wins. *)
Definition lift2 {A} (op : pyval -> pyval -> res A) (a b : res pyval) : res A :=
  x <- a ;; y <- b ;; op x y.

Notation "a .+ b" := (lift2 py_add a b) (at level 50, left associativity) : py_scope.
Notation "a .- b" := (lift2 py_sub a b) (at level 50, left associativity) : py_scope.
Notation "a .* b" := (lift2 py_mul a b) (at level 40, left associativity) : py_scope.
Notation "a ./ b" := (lift2 py_div a b) (at level 40, left associativity) : py_scope.
Notation "a .< b" := (lift2 py_lt a b) (at level 55, no associativity) : py_scope.
Notation "a .> b" := (lift2 py_gt a b) (at level 55, no associativity) : py_scope.
Notation "a .<= b" := (lift2 py_le a b) (at level 55, no associativity) : py_scope.

Definition int (z : Z) : res pyval := Ret (VInt z).
Definition flt (q : Q) : res pyval := Ret (VFloat q).

(** [try: c except (handled exceptions): h] *)
Definition try_except {A} (c : res A) (handled : exn -> bool) (h : res A) : res A :=
  match c with
  | Ret a => Ret a
  | Raise e => if handled e then h else Raise e
  end.

(* ================================================================== *)
(** * Core.py                                                          *)
(* ================================================================== *)

Definition gmConst : pyval := VInt 315.
Definition start : pyval := VInt 1.
Definition end' : pyval := VInt 50.
Definition startDeduc : pyval := VInt 10.
Definition endDeduc : pyval := VInt 50.
Definition pwr : pyval := VFloat 0.7.

(** [updateParams] of both record classes: every key of [inp] is checked
    against the keys of [params] before [params.update(inp)] runs.  The
    result is the record's parameters afterwards, and the outcome. *)
Definition updateParams_params (params inp : dict) : dict * res unit :=
  match find (fun key => negb (str_mem key (dict_keys params))) (dict_keys inp) with
  | Some key => (params, Raise (ValueError ("Incorrect key! " ++ key)))
  | None => (dict_update params inp, Ret tt)
  end.

Module PlayerObj.

Record t : Type := mk { params : dict; allScores : pyval }.

Definition schema : dict :=
  [ ("player", VStr ""); ("playerId", VInt 0); ("rankedScore", VInt 0);
    ("generalScore", VInt 0); ("ppScore", VInt 0); ("wfScore", VInt 0);
    ("12kScore", VInt 0); ("avgXacc", VInt 0); ("totalPasses", VInt 0);
    ("universalPasses", VInt 0); ("WFPasses", VInt 0); ("topDiff", VStr "");
    ("top12kDiff", VStr ""); ("country", VStr "") ]%string.

Definition init : t := mk schema VNone.

Definition updateParams (self : t) (inp : dict) : t * res unit :=
  let (p, r) := updateParams_params (params self) inp in
  (mk p (allScores self), r).

Definition addScores (self : t) (scores : pyval) : t :=
  mk (params self) scores.

Definition get (self : t) : dict :=
  let ret := params self in
  if truthy (allScores self)
  then dict_update ret [("allScores"%string, allScores self)]
  else ret.

Definition getitem (self : t) (arg : string) : res pyval :=
  Py.getitem (VDict (params self)) arg.

Definition setitem (self : t) (key : string) (value : pyval) : t :=
  mk (dict_set (params self) key value) (allScores self).

End PlayerObj.

Module ResultObj.

Record t : Type := mk { params : dict }.

Definition schema : dict :=
  [ ("player", VStr ""); ("playerId", VInt 0); ("song", VStr "");
    ("artist", VStr ""); ("score", VStr ""); ("pguDiff", VInt 0);
    ("Xacc", VInt 0); ("speed", VFloat 1.0); ("isWorldsFirst", VBool false);
    ("vidLink", VStr ""); ("feelingRating", VStr ""); ("date", VNone);
    ("is12K", VBool false); ("is16K", VBool false); ("isNoHold", VBool false);
    ("judgements", VList []); ("pdnDiff", VInt 0); ("levelId", VInt 0);
    ("passId", VInt 0); ("baseScore", VInt 0); ("isDeleted", VBool false) ]%string.

Definition init : t := mk schema.

Definition updateParams (self : t) (inp : dict) : t * res unit :=
  let (p, r) := updateParams_params (params self) inp in (mk p, r).

Definition get (self : t) : dict := params self.

Definition keys (self : t) : list string := dict_keys (params self).

Definition getitem (self : t) (arg : string) : res pyval :=
  Py.getitem (VDict (params self)) arg.

Definition setitem (self : t) (key : string) (value : pyval) : t :=
  mk (dict_set (params self) key value).

End ResultObj.

(** ** class Utils *)

Module Utils.

Definition allPassSortPriority : list string :=
  [ "rankedScore"; "generalScore"; "universalPasses"; "avgXacc"; "ppScore";
    "12kScore"; "WFPasses"; "totalPasses"; "topDiff"; "top12kDiff";
    "player" ]%string.

Definition allClearSortPriority : list string :=
  [ "score"; "Xacc"; "pdnDiff"; "date" ]%string.

(** [math.floor] *)
Definition m_floor (v : pyval) : res pyval :=
  match v with
  | VFloat q => Ret (VInt (Qfloor q))
  | VInt z => Ret (VInt z)
  | VBool b => Ret (VInt (if b then 1 else 0))
  | _ => Raise TypeError
  end.

Section MathPow.

(** [math.pow] on floats; its arguments are non-negative wherever the
    source calls it. *)
Variable pow : Q -> Q -> Q.

Definition m_pow (x y : pyval) : res pyval :=
  match as_num x, as_num y with
  | Some a, Some b => Ret (VFloat (pow a b))
  | _, _ => Raise TypeError
  end.

Definition getScoreV2Mtp (tiles inputs : pyval) : res pyval :=
  misses <- getidx inputs 0 ;;
  if negb (truthy misses) then flt 1.1 else
  tp <- (Ret start .+ Ret end') ./ int 2 ;;
  tpDeduc <- (Ret startDeduc .+ Ret endDeduc) ./ int 2 ;;
  f <- (q <- Ret tiles ./ Ret gmConst ;; m_floor q) ;;
  am <- (d <- Ret misses .- Ret f ;; py_max (VInt 0) d) ;;
  c1 <- Ret am .<= int 0 ;;
  if c1 then int 1 else
  c2 <- Ret am .<= Ret start ;;
  if c2 then int 1 .- Ret startDeduc ./ int 100 else
  c3 <- Ret am .<= Ret tp ;;
  if c3 then
    kOne <- (b <- (Ret am .- Ret start) ./ (Ret tp .- Ret start) ;;
             p <- m_pow b pwr ;;
             Ret p .* (Ret tpDeduc .- Ret startDeduc) ./ int 100) ;;
    int 1 .- Ret startDeduc ./ int 100 .- Ret kOne
  else
  c4 <- Ret am .<= Ret end' ;;
  if c4 then
    kTwo <- (b <- (Ret end' .- Ret am) ./ (Ret end' .- Ret tp) ;;
             p <- m_pow b pwr ;;
             Ret p .* (Ret endDeduc .- Ret tpDeduc) ./ int 100) ;;
    int 1 .+ Ret kTwo .- Ret endDeduc ./ int 100
  else
    int 1 .- Ret endDeduc ./ int 100.

Definition handled_getXacc (e : exn) : bool :=
  match e with
  | KeyError _ | TypeError | ZeroDivisionError => true
  | _ => false
  end.

Definition getXacc (judgements : pyval) : res pyval :=
  match judgements with
  | VDict _ =>
      let j := judgements in
      try_except
        (total <- getitem j "perfect"
                  .+ (getitem j "ePerfect" .+ getitem j "lPerfect") .* flt 0.75
                  .+ (getitem j "earlySingle" .+ getitem j "lateSingle") .* flt 0.4
                  .+ (getitem j "earlyDouble" .+ getitem j "lateDouble") .* flt 0.2 ;;
         count <- (l <- mapM (getitem j)
                          [ "perfect"; "ePerfect"; "lPerfect"; "earlySingle";
                            "lateSingle"; "earlyDouble"; "lateDouble" ]%string ;;
                   py_sum_list l) ;;
         c <- Ret count .> int 0 ;;
         if c then Ret total ./ Ret count else flt 0.95)
        handled_getXacc
        (flt 0.95)
  | _ =>
      elems <- py_iter judgements ;;
      if negb (forallb isinstance_int elems) then flt 0.95 else
      (getidx judgements 3
       .+ (getidx judgements 2 .+ getidx judgements 4) .* flt 0.75
       .+ (getidx judgements 1 .+ getidx judgements 5) .* flt 0.4
       .+ (getidx judgements 0 .+ getidx judgements 6) .* flt 0.2)
      ./ py_sum judgements
  end.

(** Falling off the end of the function returns [None]. *)
Definition getXaccMtp (inp : pyval) : res pyval :=
  xacc <- getXacc inp ;;
  xacc_percentage <- Ret xacc .* int 100 ;;
  c1 <- Ret xacc_percentage .< int 95 ;;
  if c1 then int 1 else
  c2 <- Ret xacc_percentage .< int 100 ;;
  if c2 then flt (-0.027) ./ (Ret xacc .- flt 1.0054) .+ flt 0.513 else
  if py_eqb xacc_percentage (VInt 100) then int 10 else
  Ret VNone.

Definition getSpeedMtp (SPEED : pyval) (isDesBus : bool) : res pyval :=
  let general :=
    if is_none SPEED || py_eqb SPEED (VInt 1) then int 1 else
    c1 <- Ret SPEED .< int 1 ;;
    if c1 then int 0 else
    c2 <- Ret SPEED .< flt 1.1 ;;
    if c2 then flt (-3.5) .* Ret SPEED .+ flt 4.5 else
    c3 <- Ret SPEED .< flt 1.5 ;;
    if c3 then flt 0.65 else
    c4 <- Ret SPEED .< int 2 ;;
    if c4 then (flt 0.7 .* Ret SPEED) .- flt 0.4 else
    int 1 in
  if isDesBus then
    if negb (truthy SPEED) || py_eqb SPEED (VInt 1) then int 1 else
    c <- Ret SPEED .> int 1 ;;
    if c then int 2 .- Ret SPEED else general
  else general.

Definition getScore (passData chartData : pyval) : res pyval :=
  speed <- getitem passData "speed" ;;
  legacyDiff <- getitem chartData "diff" ;;
  judgements <- getitem passData "judgements" ;;
  inputs <- mapM (getitem judgements)
              [ "earlyDouble"; "earlySingle"; "ePerfect"; "perfect";
                "lPerfect"; "lateSingle"; "lateDouble" ]%string ;;
  base <- getitem chartData "baseScore" ;;
  xaccMtp <- getXaccMtp (VList inputs) ;;
  if py_eqb legacyDiff (VInt 64) then
    speedMtp <- getSpeedMtp speed true ;;
    p <- Ret base .* Ret xaccMtp .* Ret speedMtp ;;
    py_max p (VInt 1)
  else
    speedMtp <- getSpeedMtp speed false ;;
    Ret base .* Ret xaccMtp .* Ret speedMtp.

Definition getScoreV2 (passData chartData : pyval) : res pyval :=
  inputs <- getitem passData "judgements" ;;
  scoreOrig <- getScore passData chartData ;;
  elems <- py_iter inputs ;;
  mtp <- (if forallb type_is_int elems then
            tilecount <- (s <- slice_1_m1 inputs ;; py_sum s) ;;
            getScoreV2Mtp tilecount inputs
          else int 1) ;;
  noHold <- getitem passData "isNoHoldTap" ;;
  mtp <- (if truthy noHold then Ret mtp .* flt 0.9 else Ret mtp) ;;
  Ret scoreOrig .* Ret mtp.

End MathPow.

Definition getRankedScore (scores : list pyval) (top : nat) : res pyval :=
  let top := if (List.length scores <? top)%nat then List.length scores else top in
  fold_left
    (fun acc n =>
       rankedScore <- acc ;;
       Ret rankedScore .+ Ret (py_pow_nat 0.9 n) .* getidx (VList scores) (Z.of_nat n))
    (seq 0 top) (int 0).

(** The four running sums of [calculateScores] and the 12K counter. *)
Record sums : Type := mkSums {
  generalScore : pyval; ppScore : pyval; wfScore : pyval; TvwKScore : pyval;
  tvwkCounter : nat }.

Definition calculateScores (scores : list dict) : res (pyval * pyval * pyval * pyval) :=
  r <- fold_left
         (fun acc score =>
            r <- acc ;;
            let score := VDict score in
            g <- Ret (generalScore r) .+ getitem score "score" ;;
            xacc <- getitem score "Xacc" ;;
            pp <- (if py_eqb xacc (VFloat 1.0)
                   then Ret (ppScore r) .+ getitem score "score"
                   else Ret (ppScore r)) ;;
            wf1 <- getitem score "isWorldsFirst" ;;
            wf <- (if truthy wf1
                   then Ret (wfScore r) .+ getitem score "baseScore"
                   else Ret (wfScore r)) ;;
            k12 <- getitem score "is12K" ;;
            if truthy k12 && (tvwkCounter r <? 20)%nat then
              tv <- Ret (TvwKScore r)
                    .+ Ret (py_pow_nat 0.9 (tvwkCounter r)) .* getitem score "score" ;;
              Ret (mkSums g pp wf tv (S (tvwkCounter r)))
            else Ret (mkSums g pp wf (TvwKScore r) (tvwkCounter r)))
         scores
         (Ret (mkSums (VInt 0) (VInt 0) (VInt 0) (VInt 0) 0)) ;;
  Ret (generalScore r, ppScore r, wfScore r, TvwKScore r).

End Utils.

(* ================================================================== *)
(** * Search.py                                                        *)
(* ================================================================== *)

Module Search.

(** What [DataScraper] hands to the searches: [charts] is the dict built by
    [readLevels], keyed by chart id, [passes] and [players] are the decoded
    JSON lists.  [pguSort] is the constant of [DataScraper.__init__]. *)
Record DataScraper : Type := mkData {
  charts : list (pyval * pyval);
  passes : list pyval;
  players : list pyval }.

Definition pguSort (tier : string) : option Z :=
  if String.eqb tier "P" then Some 1%Z
  else if String.eqb tier "G" then Some 2%Z
  else if String.eqb tier "U" then Some 3%Z
  else None.

(** Lists and dicts are unhashable: using one as a dict key raises. *)
Definition hashable (v : pyval) : bool :=
  match v with VList _ | VDict _ => false | _ => true end.

(** [charts.get(k)] *)
Definition charts_get (cs : list (pyval * pyval)) (k : pyval) : res (option pyval) :=
  if hashable k
  then Ret (option_map snd (find (fun c => py_eqb (fst c) k) cs))
  else Raise TypeError.

(** [charts[k] = v]: a key already present keeps its place and its first
    spelling, a new key goes last. *)
Fixpoint charts_set (cs : list (pyval * pyval)) (k v : pyval) : list (pyval * pyval) :=
  match cs with
  | [] => [(k, v)]
  | (k', v') :: cs' =>
      if py_eqb k' k then (k', v) :: cs' else (k', v') :: charts_set cs' k v
  end.

(** [DataScraper.readLevels], from the decoded JSON list on: the dict
    comprehension [{chart['id']: chart for chart in file}] and
    [chartsCount = len(file)]. *)
Definition readLevels (file : list pyval) : res (list (pyval * pyval) * nat) :=
  charts <- fold_left
              (fun acc chart =>
                 cs <- acc ;;
                 id <- getitem chart "id" ;;
                 if hashable id then Ret (charts_set cs id chart) else Raise TypeError)
              file (Ret []) ;;
  Ret (charts, List.length file).

(** [d.get(k, default)] on a JSON object *)
Definition get_default (v : pyval) (k : string) (default : pyval) : res pyval :=
  match v with
  | VDict d => Ret (match dict_get d k with Some x => x | None => default end)
  | _ => Raise TypeError
  end.

(** A dict display: the values are evaluated in the order written. *)
Definition display (kvs : list (string * res pyval)) : res dict :=
  vs <- mapM (fun kv => v <- snd kv ;; Ret (fst kv, v)) kvs ;;
  Ret (dict_of vs).

(** [a or b] *)
Definition py_or (a b : pyval) : pyval := if truthy a then a else b.

(** [s.split(".")[0]]: the part of [s] before the first dot. *)
Fixpoint before_dot (s : string) : string :=
  match s with
  | EmptyString => EmptyString
  | String c s' => if Ascii.eqb c "."%char then EmptyString else String c (before_dot s')
  end.

(** [int(s)] for a string of decimal digits with an optional minus sign;
    [None] stands for [ValueError].  The other spellings [int] accepts
    (surrounding blanks, a plus sign, underscores) are read as failures;
    the one call is inside a bare [except]. *)
Definition int_of_str (s : string) : option Z :=
  option_map Z.of_int (NilZero.int_of_string s).

(** [str(n)] for an int *)
Definition str_of_int (n : Z) : string := NilZero.string_of_int (Z.to_int n).

(** ** [sorted]

    [sorted(l, key=f)] computes every key once, in order, and then sorts
    stably, comparing keys with [<] only.  The model is a stable insertion
    sort; an exception raised by a key or by a comparison aborts it. *)
Fixpoint insert {A} (kx : pyval * A) (l : list (pyval * A)) : res (list (pyval * A)) :=
  match l with
  | [] => Ret [kx]
  | ky :: l' =>
      c <- py_lt (fst ky) (fst kx) ;;
      if c then r <- insert kx l' ;; Ret (ky :: r)
      else Ret (kx :: ky :: l')
  end.

Fixpoint sort_keyed {A} (l : list (pyval * A)) : res (list (pyval * A)) :=
  match l with
  | [] => Ret []
  | kx :: l' => s <- sort_keyed l' ;; insert kx s
  end.

Definition sorted {A} (key : A -> res pyval) (l : list A) : res (list A) :=
  ks <- mapM key l ;;
  s <- sort_keyed (combine ks l) ;;
  Ret (map snd s).

(** ** Objects

    [searchByChart] keeps the same [ResultObj] objects in several lists and
    mutates one of them, so its records live in a heap and the lists hold
    addresses. *)
Definition heap : Type := list ResultObj.t.
Definition addr : Type := nat.

Definition deref (h : heap) (a : addr) : ResultObj.t := nth a h ResultObj.init.

Definition alloc (h : heap) (o : ResultObj.t) : heap * addr := (h ++ [o], List.length h).

Fixpoint store (h : heap) (a : addr) (o : ResultObj.t) : heap :=
  match h, a with
  | [], _ => []
  | _ :: h', O => o :: h'
  | x :: h', S a' => x :: store h' a' o
  end.

Section Library.

Variable pow : Q -> Q -> Q.
(** [datetime.strptime(s, "%Y-%m-%dT%H:%M:%S")], [None] when it raises. *)
Variable strptime : string -> option Z.
(** The clock reading of [datetime.today()], taken as one instant for
    the whole call. *)
Variable today : Z.

(** The [try]/[except] around the date of a pass.  The handler formats
    [Pass['vidUploadTime']] again, so a missing key escapes it. *)
Definition parse_date (Pass : pyval) (fallback : Z) : res pyval :=
  v <- getitem Pass "vidUploadTime" ;;
  match v with
  | VStr s =>
      match strptime (before_dot s) with
      | Some t => Ret (VDate t)
      | None => Ret (VDate fallback)
      end
  | _ => Ret (VDate fallback)
  end.

Definition judgement_names : list string :=
  [ "earlyDouble"; "earlySingle"; "ePerfect"; "perfect"; "lPerfect";
    "lateSingle"; "lateDouble" ]%string.

(** *** searchByChart *)

(** The body of [for Pass in validPasses]: the argument of
    [updateParams], then the call on a fresh [ResultObj]. *)
Definition chart_fields (chart Pass : pyval) : res dict :=
  date <- parse_date Pass today ;;
  judgements_array <-
    (l <- mapM (fun n => j <- getitem Pass "judgements" ;; getitem j n) judgement_names ;;
     Ret (VList l)) ;;
  display
    [ ("player", getitem Pass "player");
      ("playerId", getitem Pass "playerId");
      ("song", getitem chart "song");
      ("artist", getitem chart "artist");
      ("score", Utils.getScoreV2 pow Pass chart);
      ("pguDiff", getitem chart "pguDiff");
      ("Xacc", Utils.getXacc judgements_array);
      ("speed", s <- getitem Pass "speed" ;; Ret (py_or s (VFloat 1.0)));
      ("isWorldsFirst", Ret (VBool false));
      ("vidLink", getitem Pass "vidLink");
      ("feelingRating", getitem Pass "feelingRating");
      ("date", Ret date);
      ("is12K", getitem Pass "is12K");
      ("is16K", get_default Pass "is16K" (VBool false));
      ("isNoHold", getitem Pass "isNoHoldTap");
      ("judgements", Ret judgements_array);
      ("pdnDiff", getitem chart "pdnDiff");
      ("chartId", getitem chart "id");
      ("passId", getitem Pass "id");
      ("baseScore", getitem chart "baseScore");
      ("isDeleted", getitem Pass "isDeleted") ]%string.

Definition chart_record (chart Pass : pyval) : res ResultObj.t :=
  inp <- chart_fields chart Pass ;;
  let (o, r) := ResultObj.updateParams ResultObj.init inp in
  _ <- r ;; Ret o.

(** [Scores = []; for Pass in validPasses: Scores.append(...)] *)
Fixpoint chart_records (chart : pyval) (validPasses : list pyval)
    (h : heap) (Scores : list addr) : res (heap * list addr) :=
  match validPasses with
  | [] => Ret (h, Scores)
  | Pass :: rest =>
      o <- chart_record chart Pass ;;
      let (h', a) := alloc h o in
      chart_records chart rest h' (Scores ++ [a])
  end.

Definition key_of (h : heap) (field : string) (a : addr) : res pyval :=
  ResultObj.getitem (deref h a) field.

(** The dedup loop of [searchByChart]: the first record of each player. *)
Fixpoint chart_dedup (h : heap) (Scores : list addr)
    (usedIds : list pyval) (validScores : list addr) : res (list addr) :=
  match Scores with
  | [] => Ret validScores
  | score :: rest =>
      pid <- key_of h "playerId" score ;;
      if negb (py_in pid usedIds)
      then chart_dedup h rest (usedIds ++ [pid]) (validScores ++ [score])
      else chart_dedup h rest usedIds validScores
  end.

(** Lines 108-128: from the records to the returned list.  The result is
    read through the heap on return, so it shows the world-first mark. *)
Definition chart_leaderboard (h : heap) (Scores : list addr) (getDates : bool)
  : res (list dict) :=
  Scores <- (s <- sorted (key_of h "score") Scores ;; Ret (rev s)) ;;
  datedScores <- sorted (key_of h "date") Scores ;;
  match datedScores with
  | [] => Raise IndexError
  | first :: _ =>
      let h := store h first (ResultObj.setitem (deref h first) "isWorldsFirst" (VBool true)) in
      if getDates then Ret (map (fun a => ResultObj.get (deref h a)) datedScores) else
      validScores <- chart_dedup h Scores [] [] ;;
      Ret (map (fun a => ResultObj.get (deref h a)) validScores)
  end.

(** [[Pass for Pass in data.passes if Pass["levelId"] == chartId]] *)
Definition valid_passes (chartId : pyval) (data : DataScraper) : res (list pyval) :=
  keep <- mapM (fun Pass => l <- getitem Pass "levelId" ;; Ret (py_eqb l chartId))
            (passes data) ;;
  Ret (map snd (filter fst (combine keep (passes data)))).

Definition searchByChart (chartId : pyval) (data : DataScraper) (getDates : bool)
  : res (list dict) :=
  chart <- charts_get (charts data) chartId ;;
  match chart with
  | None => Ret []
  | Some chart =>
      if negb (truthy chart) then Ret [] else
      validPasses <- valid_passes chartId data ;;
      match validPasses with
      | [] => Ret []
      | _ :: _ =>
          '(h, Scores) <- chart_records chart validPasses [] [] ;;
          chart_leaderboard h Scores getDates
      end
  end.

(** *** searchByPlayer *)

(** One record of the per-player loop.  [date] falls back to
    [datetime(2022, 1, 1)], whose reading of the time line is [epoch2022]. *)
Variable epoch2022 : Z.

Definition player_fields (player chart Pass isWorldsFirst : pyval) : res dict :=
  date <- parse_date Pass epoch2022 ;;
  speed <- (s <- getitem Pass "speed" ;;
            Ret (if negb (truthy s) then VFloat 1.0 else s)) ;;
  display
    [ ("player", getitem Pass "player");
      ("playerId", getitem player "id");
      ("song", getitem chart "song");
      ("artist", getitem chart "artist");
      ("score", Utils.getScoreV2 pow Pass chart);
      ("pguDiff", getitem chart "pguDiff");
      ("Xacc", j <- getitem Pass "judgements" ;; Utils.getXacc j);
      ("speed", Ret speed);
      ("isWorldsFirst", Ret isWorldsFirst);
      ("vidLink", getitem Pass "vidLink");
      ("feelingRating", getitem Pass "feelingRating");
      ("date", Ret date);
      ("is12K", getitem Pass "is12K");
      ("is16K", getitem Pass "is16K");
      ("isNoHold", getitem Pass "isNoHoldTap");
      ("judgements", getitem Pass "judgements");
      ("pdnDiff", getitem chart "pdnDiff");
      ("chartId", getitem chart "id");
      ("passId", getitem Pass "id");
      ("baseScore", getitem chart "baseScore");
      ("isDeleted", getitem Pass "isDeleted") ]%string.

Definition player_record (player chart Pass isWorldsFirst : pyval) : res ResultObj.t :=
  inp <- player_fields player chart Pass isWorldsFirst ;;
  let (o, r) := ResultObj.updateParams ResultObj.init inp in
  _ <- r ;; Ret o.

(** [topDiff] and [top12kDiff]: a tier letter and a number. *)
Definition diff : Type := (string * Z)%type.

Definition rank (d : diff) : Z :=
  match pguSort (fst d) with Some r => r | None => 0%Z end.

(** The [try: ... except: pass] block that tracks the top difficulties.
    An exception leaves the assignments made before it in place. *)
Definition track_tops (chart Pass : pyval) (topDiff top12kDiff : diff) : diff * diff :=
  match getitem Pass "isDeleted" with
  | Raise _ => (topDiff, top12kDiff)
  | Ret deleted =>
      if truthy deleted then (topDiff, top12kDiff) else
      match getitem chart "pguDiff" with
      | Ret (VStr (String c rest)) =>
          let pgu := str_of_ascii c in
          match int_of_str rest, pguSort pgu with
          | Some num, Some r =>
              let topDiff :=
                if (rank topDiff <? r)%Z then (pgu, num) else topDiff in
              match (if (rank top12kDiff <? r)%Z
                     then k <- getitem Pass "is12K" ;; Ret (truthy k)
                     else Ret false) with
              | Raise _ => (topDiff, top12kDiff)
              | Ret b =>
                  let top12kDiff := if b then (pgu, num) else top12kDiff in
                  let topDiff :=
                    if (rank topDiff =? r)%Z && (snd topDiff <? num)%Z
                    then (fst topDiff, num) else topDiff in
                  match (if (rank top12kDiff =? r)%Z && (snd top12kDiff <? num)%Z
                         then k <- getitem Pass "is12K" ;; Ret (truthy k)
                         else Ret false) with
                  | Raise _ => (topDiff, top12kDiff)
                  | Ret b' =>
                      (topDiff, if b' then (fst top12kDiff, num) else top12kDiff)
                  end
              end
          | _, _ => (topDiff, top12kDiff)
          end
      | _ => (topDiff, top12kDiff)
      end
  end.

(** The state of [for Pass in playerPasses]. *)
Record loop_state : Type := mkLoop {
  Scores : list ResultObj.t;
  firstPasses : Z;
  topDiff : diff;
  top12kDiff : diff }.

Fixpoint player_records (player : pyval) (data : DataScraper)
    (playerPasses : list pyval) (st : loop_state) : res loop_state :=
  match playerPasses with
  | [] => Ret st
  | Pass :: rest =>
      chartId <- getitem Pass "levelId" ;;
      chart <- charts_get (charts data) chartId ;;
      match chart with
      | None => player_records player data rest st
      | Some chart =>
          isWorldsFirst <- getitem Pass "isWorldsFirst" ;;
          let firstPasses :=
            if truthy isWorldsFirst then (firstPasses st + 1)%Z else firstPasses st in
          o <- player_record player chart Pass isWorldsFirst ;;
          let (t, t12) := track_tops chart Pass (topDiff st) (top12kDiff st) in
          player_records player data rest (mkLoop (Scores st ++ [o]) firstPasses t t12)
      end
  end.

(** The dedup loop of [searchByPlayer]: the first record of each chart,
    among the 12K records only when [TwvKOnly]. *)
Record dedup_state : Type := mkDedup {
  usedIds : list pyval;
  validScores : list ResultObj.t;
  uPasses : Z;
  XaccList : list pyval }.

Fixpoint player_dedup (TwvKOnly : bool) (Scores : list ResultObj.t)
    (st : dedup_state) : res dedup_state :=
  match Scores with
  | [] => Ret st
  | Score :: rest =>
      cid <- ResultObj.getitem Score "chartId" ;;
      keep <- (if negb (py_in cid (usedIds st))
               then if negb TwvKOnly then Ret true
                    else k <- ResultObj.getitem Score "is12K" ;; Ret (truthy k)
               else Ret false) ;;
      if keep : bool then
        tier <- (d <- ResultObj.getitem Score "pguDiff" ;; getidx d 0) ;;
        let uPasses := if py_eqb tier (VStr "U") then (uPasses st + 1)%Z else uPasses st in
        cid' <- ResultObj.getitem Score "chartId" ;;
        xacc <- ResultObj.getitem Score "Xacc" ;;
        player_dedup TwvKOnly rest
          (mkDedup (usedIds st ++ [cid']) (validScores st ++ [Score]) uPasses
                   (XaccList st ++ [xacc]))
      else player_dedup TwvKOnly rest st
  end.

(** Lines 239-248: sort by score, descending, then dedup by chart. *)
Definition player_valid (TwvKOnly : bool) (Scores : list ResultObj.t) : res dedup_state :=
  Scores <- (s <- sorted (fun x => ResultObj.getitem x "score") Scores ;; Ret (rev s)) ;;
  player_dedup TwvKOnly Scores (mkDedup [] [] 0 []).

(** [player_passes_dict] and its lookup: the passes of the player, in the
    order of [data.passes]. *)
Definition player_passes (player : pyval) (data : DataScraper) : res (list pyval) :=
  ids <- mapM (fun p => i <- getitem p "playerId" ;;
                        if hashable i then Ret i else Raise TypeError)
              (passes data) ;;
  pid <- (i <- getitem player "id" ;; if hashable i then Ret i else Raise TypeError) ;;
  Ret (map snd (filter (fun ip => py_eqb (fst ip) pid) (combine ids (passes data)))).

Definition searchByPlayer (player : pyval) (data : DataScraper)
    (TwvKOnly showCharts : bool) : res dict :=
  playerPasses <- player_passes player data ;;
  st <- player_records player data playerPasses
          (mkLoop [] 0 ("P"%string, 1%Z) ("P"%string, 1%Z)) ;;
  v <- player_valid TwvKOnly (Scores st) ;;
  notDeletedScores <-
    (keep <- mapM (fun Score => d <- ResultObj.getitem Score "isDeleted" ;;
                                Ret (negb (truthy d))) (validScores v) ;;
     Ret (map snd (filter fst (combine keep (validScores v))))) ;;
  rankedScore <-
    (l <- mapM (fun Score => ResultObj.getitem Score "score") notDeletedScores ;;
     Utils.getRankedScore l 20) ;;
  '(general, ppScore, wfScore, tvwKScore) <-
     Utils.calculateScores (map ResultObj.params notDeletedScores) ;;
  let topDiff := (fst (topDiff st) ++ str_of_int (snd (topDiff st)))%string in
  let top12kDiff := (fst (top12kDiff st) ++ str_of_int (snd (top12kDiff st)))%string in
  let scoresNew := map (fun Score => VDict (ResultObj.get Score)) (validScores v) in
  avgAcc <-
    (match XaccList v with
     | [] => int 0
     | _ :: _ =>
         py_sum_list (firstn 20 (XaccList v))
         ./ int (Z.of_nat (List.length (firstn 20 (XaccList v))))
     end) ;;
  inp <- display
    [ ("player", getitem player "name");
      ("playerId", getitem player "id");
      ("rankedScore", Ret rankedScore);
      ("generalScore", Ret general);
      ("ppScore", Ret ppScore);
      ("wfScore", Ret wfScore);
      ("12kScore", Ret tvwKScore);
      ("avgXacc", Ret avgAcc);
      ("totalPasses", int (Z.of_nat (List.length (validScores v))));
      ("universalPasses", int (uPasses v));
      ("WFPasses", int (firstPasses st));
      ("topDiff", Ret (VStr topDiff));
      ("top12kDiff", Ret (VStr top12kDiff));
      ("country", getitem player "country") ]%string ;;
  let (Player, r) := PlayerObj.updateParams PlayerObj.init inp in
  _ <- r ;;
  let Player := if showCharts then PlayerObj.addScores Player (VList scoresNew) else Player in
  Ret (PlayerObj.get Player).

(** *** searchAllPlayers *)

(** [priority = allPassSortPriority.copy(); priority.remove(sortBy)] *)
Fixpoint list_remove (x : string) (l : list string) : res (list string) :=
  match l with
  | [] => Raise (ValueError "list.remove(x): x not in list")
  | y :: l' => if String.eqb y x then Ret l' else r <- list_remove x l' ;; Ret (y :: r)
  end.

(** The sort key [[x[criteria] for criteria in sortCriteria]] *)
Definition sort_key (sortCriteria : list string) (x : dict) : res pyval :=
  l <- mapM (getitem (VDict x)) sortCriteria ;; Ret (VList l).

Definition sort_leaderboard (sortBy : string) (reverse : bool)
    (playerLeaderboard : list dict) : res (list dict) :=
  priority <- list_remove sortBy Utils.allPassSortPriority ;;
  let sortCriteria := sortBy :: priority in
  result <- sorted (sort_key sortCriteria) playerLeaderboard ;;
  Ret (if reverse then rev result else result).

Fixpoint player_loop (data : DataScraper) (disableCharts TwvKOnly : bool)
    (ps : list pyval) (playerLeaderboard : list dict) : res (list dict) :=
  match ps with
  | [] => Ret playerLeaderboard
  | player :: rest =>
      banned <- getitem player "isBanned" ;;
      if truthy banned then player_loop data disableCharts TwvKOnly rest playerLeaderboard else
      search <- searchByPlayer player data TwvKOnly true ;;
      avg <- getitem (VDict search) "avgXacc" ;;
      if truthy avg then
        let search :=
          if disableCharts then dict_set search "allScores" (VStr "") else search in
        player_loop data disableCharts TwvKOnly rest (playerLeaderboard ++ [search])
      else player_loop data disableCharts TwvKOnly rest playerLeaderboard
  end.

Definition searchAllPlayers (sortBy : string) (data : DataScraper)
    (disableCharts TwvKOnly reverse : bool) : res (list dict) :=
  playerLeaderboard <- player_loop data disableCharts TwvKOnly (players data) [] ;;
  sort_leaderboard sortBy reverse playerLeaderboard.

End Library.

(** *** searchAllClears

    [leaderboard] is the decoded content of the player-list cache file,
    which the function reads itself; [minScore] is not used. *)

(** [chart is not None], for the result of [charts.get]. *)
Definition is_not_none (chart : option pyval) : bool :=
  match chart with
  | Some c => negb (is_none c)
  | None => false
  end.

(** [for clear in allClears].  A [clear] that is not a mapping raises at
    [clear["chartId"]], so [updateParams] only ever sees a mapping. *)
Fixpoint player_clears (data : DataScraper) (TwvKOnly : bool) (player : pyval)
    (allClears : list pyval) (Clears : list ResultObj.t) : res (list ResultObj.t) :=
  match allClears with
  | [] => Ret Clears
  | clear :: rest =>
      chart <- (cid <- getitem clear "chartId" ;; charts_get (charts data) cid) ;;
      c <- (if negb TwvKOnly then Ret true
            else k <- getitem clear "is12K" ;; Ret (truthy k)) ;;
      if c && is_not_none chart then
        name <- getitem player "player" ;;
        let (Result, r) := ResultObj.updateParams ResultObj.init [("player"%string, name)] in
        _ <- r ;;
        match clear with
        | VDict inp =>
            let (Result, r) := ResultObj.updateParams Result inp in
            _ <- r ;;
            player_clears data TwvKOnly player rest (Clears ++ [Result])
        | _ => Raise TypeError
        end
      else player_clears data TwvKOnly player rest Clears
  end.

(** [for player in leaderboard] *)
Fixpoint all_clears (data : DataScraper) (TwvKOnly : bool)
    (leaderboard : list pyval) (Clears : list ResultObj.t) : res (list ResultObj.t) :=
  match leaderboard with
  | [] => Ret Clears
  | player :: rest =>
      allClears <- (a <- getitem player "allScores" ;; py_iter a) ;;
      Clears <- player_clears data TwvKOnly player allClears Clears ;;
      all_clears data TwvKOnly rest Clears
  end.

Definition searchAllClears (sortBy : string) (data : DataScraper)
    (leaderboard : list pyval) (TwvKOnly reverse : bool) : res (list dict) :=
  Clears <- all_clears data TwvKOnly leaderboard [] ;;
  priority <- list_remove sortBy Utils.allClearSortPriority ;;
  let sortCriteria := sortBy :: priority in
  result <- sorted (fun x => l <- mapM (ResultObj.getitem x) sortCriteria ;; Ret (VList l))
              Clears ;;
  Ret (map ResultObj.get (if reverse then rev result else result)).

End Search.

Import Search.
Local Open Scope string_scope.
Local Open Scope list_scope.

(* ================================================================== *)
(** * Definitions for the statements                                   *)
(* ================================================================== *)

(** ** Scores *)

(** The exceptions the dict branch of [getXacc] catches. *)
Definition caught {A} (c : res A) : Prop :=
  match c with
  | Ret _ => True
  | Raise e => Utils.handled_getXacc e = true
  end.

(** Seven judgement counts, all zero. *)
Definition zero_judgements : dict :=
  [ ("earlyDouble", VInt 0); ("earlySingle", VInt 0); ("ePerfect", VInt 0);
    ("perfect", VInt 0); ("lPerfect", VInt 0); ("lateSingle", VInt 0);
    ("lateDouble", VInt 0) ].

(** The positional form of seven judgement counts. *)
Definition judgements_of (l : list Z) : pyval := VList (map VInt l).

(** The speed curve of a chart that is not the special variant, in the
    words of the specification; [None] is an absent speed. *)
Definition speedMultiplier_spec (speed : option Q) : Q :=
  match speed with
  | None => 1
  | Some s =>
      if Qeq_bool s 1 then 1
      else if Qltb s 1 then 0
      else if Qltb s 1.1 then -3.5 * s + 4.5
      else if Qltb s 1.5 then 0.65
      else if Qltb s 2 then 0.7 * s - 0.4
      else 1
  end.

(** A speed that is absent ([None]) or a number. *)
Definition speed_arg (speed : pyval) : option (option Q) :=
  match speed with
  | VNone => Some None
  | _ => option_map Some (as_num speed)
  end.

(** The pass and chart of the self-test at the end of [Core.py], which is
    also the reference example of the specification. *)
Definition ref_judgements : dict :=
  [ ("earlyDouble", VInt 15); ("earlySingle", VInt 0); ("ePerfect", VInt 0);
    ("perfect", VInt 2000); ("lPerfect", VInt 0); ("lateSingle", VInt 0);
    ("lateDouble", VInt 0) ].

Definition ref_inputs : pyval := VList (dict_values ref_judgements).

Definition ref_chart : pyval :=
  VDict [ ("id", VInt 63); ("diff", VFloat 21.15); ("legacyDiff", VFloat 21.15);
          ("baseScore", VInt 1600) ].

Definition ref_pass (judgements : pyval) : pyval :=
  VDict [ ("speed", VInt 1); ("judgements", judgements);
          ("isNoHoldTap", VBool false) ].




(** An instance of [math.pow] to run the model with: for [0 <= x <= 1] and
    [y >= 0] it is [x ** y] rounded down to a multiple of [2 ** -64], found
    by bisection on the root. *)
Fixpoint bisect (n : positive) (y lo step : Q) (fuel : nat) : Q :=
  match fuel with
  | O => lo
  | S fuel' =>
      let mid := Qred (lo + step) in
      bisect n y (if Qle_bool (mid ^ Zpos n) y then mid else lo)
             (Qred (step / 2)) fuel'
  end.

Definition pow_approx (x y : Q) : Q :=
  let y' := Qred y in
  bisect (Qden y') (Qred (x ^ Qnum y')) 0 (1 # 2) 64.

(** The accuracy multiplier [getXaccMtp] returns for the reference
    judgements, as the arithmetic leaves it (it is [22047651 / 7627000]). *)
Definition ref_xaccMtp : Q := 6614295300000000 # 2288100000000000.

(** No string occurs twice. *)
Fixpoint nodupb (l : list string) : bool :=
  match l with
  | [] => true
  | x :: l' => negb (str_mem x l') && nodupb l'
  end.

(** What [updateParams] raises for the key ["chartId"]. *)
Definition incorrect_chartId : exn := ValueError "Incorrect key! chartId".

(** ** Stable sorting, without exceptions

    The pure counterpart of [sorted], to which it reduces when no key and
    no comparison raises. *)

Fixpoint pinsert {E} (ltb : E -> E -> bool) (x : E) (l : list E) : list E :=
  match l with
  | [] => [x]
  | y :: l' => if ltb y x then y :: pinsert ltb x l' else x :: y :: l'
  end.

Fixpoint psort {E} (ltb : E -> E -> bool) (l : list E) : list E :=
  match l with
  | [] => []
  | x :: l' => pinsert ltb x (psort ltb l')
  end.

(** [a < b] as a boolean, [false] when the comparison raises. *)
Definition py_ltb (a b : pyval) : bool :=
  match py_lt a b with Ret c => c | Raise _ => false end.

(** ** Readings of values and records *)

(** The number a value holds, [0] when it holds none. *)
Definition num_of (v : pyval) : Q :=
  match as_num v with Some q => q | None => 0 end.

(** The world's-first flag of a returned record. *)
Definition flagged (d : dict) : bool :=
  match dict_get d "isWorldsFirst" with Some v => truthy v | None => false end.

(** ** Sample data *)

(** An instance of [strptime] to run the model with: the fourteen digits
    of a nineteen-character timestamp, read as one number, which orders
    well-formed timestamps as time does. *)
Definition is_digit (c : ascii) : bool :=
  let n := nat_of_ascii c in ((48 <=? n) && (n <=? 57))%nat.

Fixpoint digits_of (s : string) : string :=
  match s with
  | EmptyString => EmptyString
  | String c s' => if is_digit c then String c (digits_of s') else digits_of s'
  end.

Definition strptime_digits (s : string) : option Z :=
  if ((String.length s =? 19) && (String.length (digits_of s) =? 14))%nat
  then int_of_str (digits_of s) else None.

Definition sample_chart : pyval :=
  VDict [ ("id", VInt 63); ("song", VStr "Gender and a Metal Bat");
          ("artist", VStr "Frums"); ("diff", VFloat 21.15);
          ("legacyDiff", VFloat 21.15); ("pguDiff", VStr "U7");
          ("pdnDiff", VFloat 21.15); ("baseScore", VInt 1600) ].

Definition sample_pass (judgements : dict) : pyval :=
  VDict [ ("id", VInt 1); ("player", VStr "A"); ("playerId", VInt 7);
          ("levelId", VInt 63); ("speed", VInt 1);
          ("judgements", VDict judgements); ("isNoHoldTap", VBool false);
          ("vidUploadTime", VStr "2023-05-01T10:00:00.000Z");
          ("vidLink", VStr ""); ("feelingRating", VStr "");
          ("is12K", VBool false); ("is16K", VBool false);
          ("isDeleted", VBool false); ("isWorldsFirst", VBool true) ].

Definition sample_player : pyval :=
  VDict [ ("id", VInt 7); ("name", VStr "A"); ("country", VStr "KR");
          ("isBanned", VBool false) ].

Definition sample_data (judgements : dict) : DataScraper :=
  mkData [(VInt 63, sample_chart)] [sample_pass judgements] [sample_player].

(** Two passes of player 7 on chart 63 with the same judgement counts,
    and so the same score, uploaded a day apart; the later upload comes
    first in the list. *)
Definition tie_pass (id : Z) (uploaded : string) : pyval :=
  VDict [ ("id", VInt id); ("player", VStr "A"); ("playerId", VInt 7);
          ("levelId", VInt 63); ("speed", VInt 1);
          ("judgements", VDict ref_judgements); ("isNoHoldTap", VBool false);
          ("vidUploadTime", VStr uploaded);
          ("vidLink", VStr ""); ("feelingRating", VStr "");
          ("is12K", VBool false); ("is16K", VBool false);
          ("isDeleted", VBool false); ("isWorldsFirst", VBool false) ].

Definition tie_data : DataScraper :=
  mkData [(VInt 63, sample_chart)]
         [ tie_pass 1 "2023-05-02T10:00:00.000Z";
           tie_pass 2 "2023-05-01T10:00:00.000Z" ]
         [sample_player].

(** The pass is a pass of the chart: [Pass["levelId"] == chartId]. *)
Definition pass_of (chartId Pass : pyval) : Prop :=
  exists l, getitem Pass "levelId" = Ret l /\ py_eqb l chartId = true.

(** The arguments of [updateParams] for the sample pass. *)
Definition sample_chart_fields : dict :=
  Eval vm_compute in
    match chart_fields pow_approx strptime_digits 0 sample_chart
            (sample_pass ref_judgements) with
    | Ret d => d
    | Raise _ => []
    end.

Definition sample_player_fields : dict :=
  Eval vm_compute in
    match player_fields pow_approx strptime_digits 0 sample_player sample_chart
            (sample_pass ref_judgements) (VBool true) with
    | Ret d => d
    | Raise _ => []
    end.

(** ** The composite sort key *)

(** Two values the key can hold in one position: two numbers or two
    strings. *)
Definition comparable (a b : pyval) : Prop :=
  (exists p q, as_num a = Some p /\ as_num b = Some q)
  \/ (exists s t, a = VStr s /\ b = VStr t).

(** Exactly one of [a < b], [b < a], [a == b]. *)
Definition trichotomy (lt gt eq : bool) : Prop :=
  (lt = true /\ gt = false /\ eq = false)
  \/ (lt = false /\ gt = true /\ eq = false)
  \/ (lt = false /\ gt = false /\ eq = true).

(** A leaderboard entry whose key fields are populated: numbers in the
    eight numeric fields, strings in [topDiff], [top12kDiff], [player]. *)
Definition numeric_keys : list string :=
  [ "rankedScore"; "generalScore"; "universalPasses"; "avgXacc"; "ppScore";
    "12kScore"; "WFPasses"; "totalPasses" ].

Definition string_keys : list string := [ "topDiff"; "top12kDiff"; "player" ].

Definition populated (x : dict) : Prop :=
  Forall (fun k => exists v q, dict_get x k = Some v /\ as_num v = Some q)
    numeric_keys
  /\ Forall (fun k => exists s, dict_get x k = Some (VStr s)) string_keys.

Definition key_field (x : dict) (k : string) : pyval :=
  match dict_get x k with Some v => v | None => VNone end.

(** Two players with the same name and the same statistics. *)
Definition sample_entry (playerId : Z) : dict :=
  dict_update PlayerObj.schema
    [ ("player", VStr "A"); ("playerId", VInt playerId);
      ("rankedScore", VFloat 1000); ("avgXacc", VFloat 0.99);
      ("topDiff", VStr "U7"); ("top12kDiff", VStr "P1") ].

(** The composite key of an entry under the default criteria, when all
    its key fields are there. *)
Definition entry_key (x : dict) : pyval :=
  VList (map (key_field x) Utils.allPassSortPriority).

(** The key of [x] equals the key of [y], and the key of [x] is smaller
    than the key of [y], as the sort computes and compares them; [false]
    when a key or the comparison raises. *)
Definition same_key (x y : dict) : bool :=
  match sort_key Utils.allPassSortPriority x, sort_key Utils.allPassSortPriority y with
  | Ret kx, Ret ky => py_eqb kx ky
  | _, _ => false
  end.

Definition key_lt (x y : dict) : bool :=
  match sort_key Utils.allPassSortPriority x, sort_key Utils.allPassSortPriority y with
  | Ret kx, Ret ky => py_ltb kx ky
  | _, _ => false
  end.

(** Three values the key can hold in one position. *)
Definition comparable3 (u v w : pyval) : Prop :=
  (exists p q r, as_num u = Some p /\ as_num v = Some q /\ as_num w = Some r)
  \/ (exists s t x, u = VStr s /\ v = VStr t /\ w = VStr x).

(** ** Further definitions *)

(** The weighted total of seven counts, in the positional order
    [earlyDouble, earlySingle, ePerfect, perfect, lPerfect, lateSingle,
    lateDouble]. *)
Definition weighted (d0 s1 e2 p3 l4 s5 d6 : Z) : Q :=
  inject_Z p3 + inject_Z (e2 + l4) * 0.75 + inject_Z (s1 + s5) * 0.4
  + inject_Z (d0 + d6) * 0.2.

(** The named counts of a judgement mapping, all integers. *)
Definition named_counts (d : dict) (eD eS eP p lP lS lD : Z) : Prop :=
  dict_get d "earlyDouble" = Some (VInt eD)
  /\ dict_get d "earlySingle" = Some (VInt eS)
  /\ dict_get d "ePerfect" = Some (VInt eP)
  /\ dict_get d "perfect" = Some (VInt p)
  /\ dict_get d "lPerfect" = Some (VInt lP)
  /\ dict_get d "lateSingle" = Some (VInt lS)
  /\ dict_get d "lateDouble" = Some (VInt lD).

(** The misses that count, [max(0, misses - floor(tiles / gmConst))]:
    those beyond one per [gmConst = 315] tiles. *)
Definition effective_misses (misses tiles : Z) : Z :=
  Z.max 0 (misses - tiles / 315).

(** A [math.pow] that keeps the unit interval at the exponent [pwr], as
    the real one does. *)
Definition pow_unit (pow : Q -> Q -> Q) : Prop :=
  forall x, 0 <= x <= 1 -> 0 <= pow x 0.7 <= 1.

(** The weighted sum of a score list: the term at position [n] is the
    score times [0.9 ** n]. *)
Fixpoint ranked_sum (l : list Q) (n : nat) : Q :=
  match l with
  | [] => 0
  | s :: l' => 0.9 ^ Z.of_nat n * s + ranked_sum l' (S n)
  end.

(** [v] is a number equal to [q]. *)
Definition num_eq (v : pyval) (q : Q) : Prop :=
  exists r, as_num v = Some r /\ r == q.

(** Readings of a score record as [calculateScores] takes it. *)
Definition score_q (d : dict) : Q := num_of (key_field d "score").
Definition base_q (d : dict) : Q := num_of (key_field d "baseScore").
Definition is_pp (d : dict) : bool := py_eqb (key_field d "Xacc") (VFloat 1.0).
Definition is_wf (d : dict) : bool := truthy (key_field d "isWorldsFirst").
Definition is_12k (d : dict) : bool := truthy (key_field d "is12K").

(** The sum of a list of rationals. *)
Definition total (l : list Q) : Q := fold_right Qplus 0 l.

(** A record [calculateScores] can read: a numeric score, the three
    flags, and a numeric base score when it is a world's first. *)
Definition scored (d : dict) : Prop :=
  (exists s q, dict_get d "score" = Some s /\ as_num s = Some q)
  /\ (exists x, dict_get d "Xacc" = Some x)
  /\ (exists w, dict_get d "isWorldsFirst" = Some w)
  /\ (exists k, dict_get d "is12K" = Some k)
  /\ (is_wf d = true ->
      exists b q, dict_get d "baseScore" = Some b /\ as_num b = Some q).

(** One round of the loop of [calculateScores], named so that the rounds
    can be taken one at a time; it is the function's own loop body
    ([calculateScores_steps]). *)
Definition score_step (acc : res Utils.sums) (score : dict) : res Utils.sums :=
  r <- acc ;;
  let score := VDict score in
  g <- Ret (Utils.generalScore r) .+ getitem score "score" ;;
  xacc <- getitem score "Xacc" ;;
  pp <- (if py_eqb xacc (VFloat 1.0)
         then Ret (Utils.ppScore r) .+ getitem score "score"
         else Ret (Utils.ppScore r)) ;;
  wf1 <- getitem score "isWorldsFirst" ;;
  wf <- (if truthy wf1
         then Ret (Utils.wfScore r) .+ getitem score "baseScore"
         else Ret (Utils.wfScore r)) ;;
  k12 <- getitem score "is12K" ;;
  if truthy k12 && (Utils.tvwkCounter r <? 20)%nat then
    tv <- Ret (Utils.TvwKScore r)
          .+ Ret (py_pow_nat 0.9 (Utils.tvwkCounter r)) .* getitem score "score" ;;
    Ret (Utils.mkSums g pp wf tv (S (Utils.tvwkCounter r)))
  else Ret (Utils.mkSums g pp wf (Utils.TvwKScore r) (Utils.tvwkCounter r)).

(** A score record with the five fields [calculateScores] reads. *)
Definition sample_scored (score : Q) (xacc : Q) (wf k12 : bool) : dict :=
  [ ("score", VFloat score); ("Xacc", VFloat xacc); ("isWorldsFirst", VBool wf);
    ("is12K", VBool k12); ("baseScore", VInt 100) ].

(** The chart has the integer id [i]. *)
Definition has_id (i : Z) (chart : pyval) : bool :=
  match getitem chart "id" with
  | Ret (VInt j) => (j =? i)%Z
  | _ => false
  end.

(** The summary [searchByPlayer] builds for a player none of whose passes
    resolves to a chart. *)
Definition empty_summary (name pid country : pyval) : dict :=
  [ ("player", name); ("playerId", pid); ("rankedScore", VInt 0);
    ("generalScore", VInt 0); ("ppScore", VInt 0); ("wfScore", VInt 0);
    ("12kScore", VInt 0); ("avgXacc", VInt 0); ("totalPasses", VInt 0);
    ("universalPasses", VInt 0); ("WFPasses", VInt 0); ("topDiff", VStr "P1");
    ("top12kDiff", VStr "P1"); ("country", country) ].

(** Data with a chart but no pass. *)
Definition no_pass_data : DataScraper :=
  mkData [(VInt 63, sample_chart)] [] [sample_player].

(** The pass names a level that is not among the charts. *)
Definition unresolved (data : DataScraper) (Pass : pyval) : Prop :=
  exists c, getitem Pass "levelId" = Ret c /\ charts_get (charts data) c = Ret None.

(** An entry of the cached player list, with its list of clears. *)
Definition sample_board_entry (allScores : pyval) : pyval :=
  VDict [ ("player", VStr "A"); ("allScores", allScores) ].

(** A clear as [searchByPlayer] would list it. *)
Definition sample_clear : pyval :=
  VDict [ ("chartId", VInt 63); ("score", VFloat 100); ("is12K", VBool false) ].

(** Difficulties ordered by tier, then by number. *)
Definition diff_lt (a b : diff) : Prop :=
  (rank a < rank b)%Z \/ (rank a = rank b /\ snd a < snd b)%Z.

Definition diff_le (a b : diff) : Prop :=
  (rank a < rank b)%Z \/ (rank a = rank b /\ snd a <= snd b)%Z.

(** The difficulty a chart's ["pguDiff"] spells: a tier letter and a
    number. *)
Definition spelled (chart : pyval) (d : diff) : Prop :=
  exists c rest,
    getitem chart "pguDiff" = Ret (VStr (String c rest))
    /\ fst d = str_of_ascii c
    /\ int_of_str rest = Some (snd d)
    /\ pguSort (fst d) <> None.

(* ================================================================== *)
(** * Properties                                                       *)
(* ================================================================== *)

(** ** The error monad *)

Lemma bind_ret {A B} (c : res A) (k : A -> res B) (b : B) :
  bind c k = Ret b -> exists a, c = Ret a /\ k a = Ret b.
Proof. destruct c as [a|e]; simpl; intros H; [eauto | discriminate]. Qed.

Lemma mapM_pure {A B} (f : A -> res B) (g : A -> B) l :
  (forall x, In x l -> f x = Ret (g x)) -> mapM f l = Ret (map g l).
Proof.
  induction l as [|x l IH]; simpl; intros H; [reflexivity|].
  rewrite (H x) by auto. cbn [bind]. rewrite IH by auto. reflexivity.
Qed.

(** ** Dictionaries *)

Lemma str_mem_In k ks : str_mem k ks = true <-> In k ks.
Proof.
  unfold str_mem; rewrite existsb_exists; split.
  - intros [x [Hin Heq]]. apply String.eqb_eq in Heq; subst; exact Hin.
  - intros Hin; exists k; split; [exact Hin | apply String.eqb_refl].
Qed.

Lemma dict_get_set d k v k' :
  dict_get (dict_set d k v) k' = if String.eqb k k' then Some v else dict_get d k'.
Proof.
  induction d as [|[k0 v0] d IH]; simpl.
  - reflexivity.
  - destruct (String.eqb_spec k0 k) as [->|Hne]; simpl.
    + destruct (String.eqb k k'); reflexivity.
    + rewrite IH. destruct (String.eqb_spec k0 k') as [->|Hne']; [|reflexivity].
      destruct (String.eqb_spec k k') as [->|]; [congruence | reflexivity].
Qed.

Lemma dict_keys_set_in d k v :
  In k (dict_keys d) -> dict_keys (dict_set d k v) = dict_keys d.
Proof.
  induction d as [|[k0 v0] d IH]; simpl; intros Hin; [contradiction|].
  destruct (String.eqb_spec k0 k) as [->|Hne]; simpl; [reflexivity|].
  f_equal; apply IH. destruct Hin; [contradiction | assumption].
Qed.

Lemma dict_keys_update_in inp : forall d,
  (forall k, In k (dict_keys inp) -> In k (dict_keys d)) ->
  dict_keys (dict_update d inp) = dict_keys d.
Proof.
  unfold dict_update.
  induction inp as [|[k v] inp IH]; simpl; intros d H; [reflexivity|].
  rewrite IH.
  - apply dict_keys_set_in; auto.
  - intros k' Hk'. rewrite dict_keys_set_in by auto. auto.
Qed.

(** After [d.update(inp)] a key maps to its last value in [inp], and to
    its value in [d] when [inp] does not mention it. *)
Lemma dict_get_update inp : forall d k,
  dict_get (dict_update d inp) k =
  match dict_get (rev inp) k with
  | Some v => Some v
  | None => dict_get d k
  end.
Proof.
  unfold dict_update.
  induction inp as [|[k0 v0] inp IH]; simpl; intros d k; [reflexivity|].
  rewrite IH, dict_get_set.
  assert (Happ : forall l, dict_get (l ++ [(k0, v0)]) k =
            match dict_get l k with
            | Some v => Some v
            | None => if String.eqb k0 k then Some v0 else None
            end).
  { induction l as [|[k1 v1] l IHl]; simpl; [reflexivity|].
    destruct (String.eqb k1 k); [reflexivity | apply IHl]. }
  rewrite Happ. destruct (dict_get (rev inp) k); [reflexivity|].
  destruct (String.eqb k0 k); reflexivity.
Qed.

(** ** updateParams *)

Lemma updateParams_params_spec (params inp : dict) :
  let (params', r) := updateParams_params params inp in
  (raises r = true <->
     exists k, In k (dict_keys inp) /\ ~ In k (dict_keys params))
  /\ (raises r = true -> params' = params)
  /\ (raises r = false ->
        r = Ret tt
        /\ params' = dict_update params inp
        /\ dict_keys params' = dict_keys params).
Proof.
  unfold updateParams_params.
  destruct (find _ (dict_keys inp)) as [key|] eqn:Hfind; simpl.
  - apply find_some in Hfind as [Hin Hbad].
    apply negb_true_iff in Hbad.
    repeat split; try discriminate; auto.
    exists key; split; [exact Hin|].
    intros Hmem; apply str_mem_In in Hmem; congruence.
  - assert (Hall : forall k, In k (dict_keys inp) -> In k (dict_keys params)).
    { intros k Hin. apply (find_none _ _ Hfind) in Hin.
      apply negb_false_iff in Hin. apply str_mem_In; exact Hin. }
    repeat split; try discriminate; auto.
    + intros [k [Hin Hout]]. exfalso; apply Hout; auto.
    + apply dict_keys_update_in; exact Hall.
Qed.

Lemma find_first {A} (f : A -> bool) l x :
  find f l = Some x ->
  exists pre post, l = pre ++ x :: post /\ f x = true
                   /\ Forall (fun y => f y = false) pre.
Proof.
  induction l as [|y l IH]; simpl; intros H; [discriminate|].
  destruct (f y) eqn:Hy.
  - injection H as <-. exists [], l. auto.
  - destruct (IH H) as (pre & post & -> & Hx & Hp).
    exists (y :: pre), post. auto.
Qed.

(** What [updateParams] raises and what it writes: the exception names
    the first key of the map outside the parameters, and after an update
    that returns every key reads the last value the map holds for it, or
    its previous value when the map does not hold it. *)
Lemma updateParams_params_full (params inp : dict) :
  let (params', r) := updateParams_params params inp in
  (raises r = true <->
     exists k, In k (dict_keys inp) /\ ~ In k (dict_keys params))
  /\ (raises r = true ->
        params' = params
        /\ exists pre k post,
             dict_keys inp = pre ++ k :: post
             /\ Forall (fun k' => In k' (dict_keys params)) pre
             /\ ~ In k (dict_keys params)
             /\ r = Raise (ValueError ("Incorrect key! " ++ k)))
  /\ (raises r = false ->
        r = Ret tt
        /\ params' = dict_update params inp
        /\ dict_keys params' = dict_keys params
        /\ forall k, dict_get params' k =
                     match dict_get (rev inp) k with
                     | Some v => Some v
                     | None => dict_get params k
                     end).
Proof.
  pose proof (updateParams_params_spec params inp) as S.
  unfold updateParams_params in *.
  destruct (find _ (dict_keys inp)) as [key|] eqn:Hfind; simpl in *.
  - destruct S as (S1 & S2 & S3).
    split; [exact S1|]. split; [|discriminate].
    intros _. split; [reflexivity|].
    apply find_first in Hfind as (pre & post & Hl & Hbad & Hpre).
    exists pre, key, post. split; [exact Hl|]. split; [|split; [|reflexivity]].
    + eapply Forall_impl; [|exact Hpre]. cbv beta. intros k' Hk'.
      apply negb_false_iff in Hk'. apply str_mem_In. exact Hk'.
    + apply negb_true_iff in Hbad. intros Hin. apply str_mem_In in Hin. congruence.
  - destruct S as (S1 & S2 & S3).
    split; [exact S1|]. split; [discriminate|].
    intros _. destruct (S3 eq_refl) as (E1 & E2 & E3).
    repeat split; auto. intros k. apply dict_get_update.
Qed.

(** C10. [updateParams] of [PlayerObj] and of [ResultObj] raises exactly
    when the update map has a key outside the keys of the record's
    parameters; it then raises the [ValueError] that names the first such
    key, and the record is unchanged.  Otherwise it returns normally, with
    the same keys, and every key reads the last value the map holds for
    it, or its previous value when the map does not hold it. *)
Theorem updateParams_fail_fast :
  (forall (self : ResultObj.t) (inp : dict),
     let (self', r) := ResultObj.updateParams self inp in
     (raises r = true <->
        exists k, In k (dict_keys inp) /\ ~ In k (ResultObj.keys self))
     /\ (raises r = true ->
           self' = self
           /\ exists pre k post,
                dict_keys inp = pre ++ k :: post
                /\ Forall (fun k' => In k' (ResultObj.keys self)) pre
                /\ ~ In k (ResultObj.keys self)
                /\ r = Raise (ValueError ("Incorrect key! " ++ k)))
     /\ (raises r = false ->
           r = Ret tt
           /\ ResultObj.params self' = dict_update (ResultObj.params self) inp
           /\ ResultObj.keys self' = ResultObj.keys self
           /\ forall k, ResultObj.getitem self' k =
                        match dict_get (rev inp) k with
                        | Some v => Ret v
                        | None => ResultObj.getitem self k
                        end))
  /\
  (forall (self : PlayerObj.t) (inp : dict),
     let (self', r) := PlayerObj.updateParams self inp in
     (raises r = true <->
        exists k, In k (dict_keys inp) /\ ~ In k (dict_keys (PlayerObj.params self)))
     /\ (raises r = true ->
           self' = self
           /\ exists pre k post,
                dict_keys inp = pre ++ k :: post
                /\ Forall (fun k' => In k' (dict_keys (PlayerObj.params self))) pre
                /\ ~ In k (dict_keys (PlayerObj.params self))
                /\ r = Raise (ValueError ("Incorrect key! " ++ k)))
     /\ (raises r = false ->
           r = Ret tt
           /\ PlayerObj.params self' = dict_update (PlayerObj.params self) inp
           /\ dict_keys (PlayerObj.params self') = dict_keys (PlayerObj.params self)
           /\ PlayerObj.allScores self' = PlayerObj.allScores self
           /\ forall k, PlayerObj.getitem self' k =
                        match dict_get (rev inp) k with
                        | Some v => Ret v
                        | None => PlayerObj.getitem self k
                        end)).
Proof.
  split; intros self inp.
  - unfold ResultObj.updateParams, ResultObj.keys, ResultObj.getitem, getitem.
    pose proof (updateParams_params_full (ResultObj.params self) inp) as H.
    destruct (updateParams_params (ResultObj.params self) inp) as [p r].
    destruct H as (H1 & H2 & H3). cbn [ResultObj.params].
    split; [exact H1|]. split.
    + intros Hr. destruct (H2 Hr) as (-> & Hk). split; [destruct self; reflexivity|].
      exact Hk.
    + intros Hr. destruct (H3 Hr) as (E1 & E2 & E3 & E4).
      repeat split; auto. intros k. rewrite E4.
      destruct (dict_get (rev inp) k); reflexivity.
  - unfold PlayerObj.updateParams, PlayerObj.getitem, getitem.
    pose proof (updateParams_params_full (PlayerObj.params self) inp) as H.
    destruct (updateParams_params (PlayerObj.params self) inp) as [p r].
    destruct H as (H1 & H2 & H3). cbn [PlayerObj.params PlayerObj.allScores].
    split; [exact H1|]. split.
    + intros Hr. destruct (H2 Hr) as (-> & Hk). split; [destruct self; reflexivity|].
      exact Hk.
    + intros Hr. destruct (H3 Hr) as (E1 & E2 & E3 & E4).
      repeat split; auto. intros k. rewrite E4.
      destruct (dict_get (rev inp) k); reflexivity.
Qed.

(** On a fresh [ResultObj]: ["levelId"] is in the schema and is updated;
    ["chartId"] is not, and the record is left as it was. *)
Example updateParams_examples :
  (let (o, r) := ResultObj.updateParams ResultObj.init [("levelId", VInt 63)] in
   r = Ret tt /\ ResultObj.getitem o "levelId" = Ret (VInt 63)
   /\ ResultObj.keys o = ResultObj.keys ResultObj.init)
  /\ ResultObj.updateParams ResultObj.init [("song", VStr "x"); ("chartId", VInt 63)]
     = (ResultObj.init, Raise incorrect_chartId).
Proof. split; [repeat split|]; reflexivity. Qed.

(** ** Rational comparisons *)

Lemma Qltb_lt x y : Qltb x y = true <-> x < y.
Proof.
  unfold Qltb. rewrite negb_true_iff. split.
  - intros H. apply Qnot_le_lt. intros Hle. apply Qle_bool_iff in Hle. congruence.
  - intros H. destruct (Qle_bool y x) eqn:E; [|reflexivity].
    apply Qle_bool_iff in E. exfalso. exact (Qlt_not_le _ _ H E).
Qed.

Lemma Qltb_ge x y : Qltb x y = false <-> y <= x.
Proof.
  unfold Qltb. rewrite negb_false_iff. apply Qle_bool_iff.
Qed.

Lemma Qeq_bool_false x y : Qeq_bool x y = false <-> ~ x == y.
Proof.
  split.
  - apply Qeq_bool_neq.
  - intros H. destruct (Qeq_bool x y) eqn:E; [|reflexivity].
    apply Qeq_bool_iff in E. contradiction.
Qed.

Lemma py_eqb_int a b : py_eqb (VInt a) (VInt b) = (a =? b)%Z.
Proof.
  simpl. destruct (Z.eqb_spec a b) as [->|Hne].
  - apply Qeq_bool_iff. reflexivity.
  - apply Qeq_bool_false. intros E. apply Hne.
    unfold Qeq in E. simpl in E. lia.
Qed.

(** ** getXacc *)

Lemma caught_bind {A B} (c : res A) (k : A -> res B) :
  caught c -> (forall a, caught (k a)) -> caught (bind c k).
Proof. destruct c; simpl; auto. Qed.

Lemma caught_lift2 {A} (op : pyval -> pyval -> res A) a b :
  (forall x y, caught (op x y)) -> caught a -> caught b -> caught (lift2 op a b).
Proof.
  intros Hop Ha Hb. unfold lift2.
  apply caught_bind; [exact Ha|]. intros x.
  apply caught_bind; [exact Hb|]. intros y. apply Hop.
Qed.

Lemma caught_getitem d k : caught (getitem (VDict d) k).
Proof. simpl. destruct (dict_get d k); simpl; auto. Qed.

Lemma caught_add x y : caught (py_add x y).
Proof.
  unfold py_add.
  destruct (as_int x), (as_int y), (as_num x), (as_num y); simpl; auto;
    destruct x; simpl; auto; destruct y; simpl; auto.
Qed.

Lemma caught_mul x y : caught (py_mul x y).
Proof.
  unfold py_mul.
  destruct (as_int x), (as_int y), (as_num x), (as_num y); simpl; auto;
    destruct x; simpl; auto; destruct y; simpl; auto.
Qed.

Lemma caught_div x y : caught (py_div x y).
Proof.
  unfold py_div.
  destruct (as_num x), (as_num y); simpl; auto.
  destruct (Qeq_bool q0 0); simpl; auto.
Qed.

Lemma caught_gt_int x z : caught (py_gt x (VInt z)).
Proof. unfold py_gt. destruct x; simpl; auto. Qed.

Lemma caught_mapM {A} (f : A -> res pyval) l :
  (forall x, caught (f x)) -> caught (mapM f l).
Proof.
  intros Hf. induction l as [|x l IH]; simpl; auto.
  apply caught_bind; [apply Hf|]. intros y.
  apply caught_bind; [exact IH|]. intros ys. exact I.
Qed.

Lemma caught_sum_list l : forall acc, caught acc ->
  caught (fold_left (fun acc x => a <- acc ;; py_add a x) l acc).
Proof.
  induction l as [|x l IH]; simpl; intros acc Hacc; [exact Hacc|].
  apply IH. apply caught_bind; [exact Hacc|]. intros a. apply caught_add.
Qed.

Create HintDb caught.
#[local] Hint Resolve caught_getitem caught_add caught_mul caught_div
  caught_gt_int : caught.

(** On a named-field mapping [getXacc] never raises and returns a float:
    the guard [count > 0] and the handler cover every failure. *)
Lemma getXacc_dict_total (d : dict) :
  exists q, Utils.getXacc (VDict d) = Ret (VFloat q).
Proof.
  unfold Utils.getXacc.
  match goal with |- context [try_except ?c _ _] => set (body := c) end.
  assert (Hc : caught body).
  { subst body.
    apply caught_bind.
    { repeat (apply caught_lift2; auto with caught); simpl; auto. }
    intros total. apply caught_bind.
    { apply caught_bind; [apply caught_mapM; auto with caught|].
      intros l. apply caught_sum_list. exact I. }
    intros count. apply caught_bind.
    { unfold lift2, int; simpl. apply caught_gt_int. }
    intros [|]; [|exact I].
    apply caught_lift2; simpl; auto with caught. }
  assert (Hf : forall v, body = Ret v -> exists q, v = VFloat q).
  { subst body. intros v Hv.
    apply bind_ret in Hv as (total & _ & Hv).
    apply bind_ret in Hv as (count & _ & Hv).
    apply bind_ret in Hv as (c & _ & Hv).
    destruct c.
    - unfold lift2 in Hv; simpl in Hv. unfold py_div in Hv.
      destruct (as_num total), (as_num count); try discriminate.
      destruct (Qeq_bool q0 0); try discriminate.
      injection Hv as <-. eauto.
    - injection Hv as <-. eauto. }
  destruct body as [v|e]; simpl.
  - destruct (Hf v eq_refl) as [q ->]. eauto.
  - simpl in Hc. rewrite Hc. unfold flt. eauto.
Qed.

(** The fallbacks of the dict branch: all counts zero, a field missing, a
    field that is not a number. *)
Example getXacc_dict_fallbacks :
  Utils.getXacc (VDict zero_judgements) = Ret (VFloat 0.95)
  /\ Utils.getXacc (VDict (tl zero_judgements)) = Ret (VFloat 0.95)
  /\ Utils.getXacc (VDict (dict_set zero_judgements "perfect" (VStr "12")))
     = Ret (VFloat 0.95)
  /\ Utils.getXacc (VDict (dict_set zero_judgements "perfect" VNone))
     = Ret (VFloat 0.95).
Proof. repeat split; vm_compute; reflexivity. Qed.

(** C4 (the code departs from the claim).  On the positional form of the
    judgements, which is what [getScore] and [searchByChart] pass to it,
    [getXacc] divides by [sum(judgements)] without the guard of the dict
    branch: the all-zero vector raises [ZeroDivisionError], and a vector
    of fewer than seven integers raises [IndexError]. *)
Theorem getXacc_list_zero_raises :
  Utils.getXacc (VList (dict_values zero_judgements)) = Raise ZeroDivisionError
  /\ Utils.getXacc (VList [VInt 1; VInt 2; VInt 3]) = Raise IndexError.
Proof. split; vm_compute; reflexivity. Qed.

(** ** getXaccMtp *)

Lemma getXaccMtp_unfold inp a : Utils.getXacc inp = Ret (VFloat a) ->
  Utils.getXaccMtp inp =
    if Qltb (a * inject_Z 100) (inject_Z 95) then Ret (VInt 1)
    else if Qltb (a * inject_Z 100) (inject_Z 100) then
      if Qeq_bool (a - 1.0054) 0 then Raise ZeroDivisionError
      else Ret (VFloat (-0.027 / (a - 1.0054) + 0.513))
    else if Qeq_bool (a * inject_Z 100) (inject_Z 100) then Ret (VInt 10)
    else Ret VNone.
Proof.
  unfold Utils.getXaccMtp. intros ->. cbn -[Qltb Qeq_bool Qmult Qminus Qdiv Qplus inject_Z].
  destruct (Qltb (a * inject_Z 100) (inject_Z 95)); [reflexivity|].
  destruct (Qltb (a * inject_Z 100) (inject_Z 100)); [|reflexivity].
  cbn -[Qltb Qeq_bool Qmult Qminus Qdiv Qplus inject_Z].
  destruct (Qeq_bool (a - 1.0054) 0); reflexivity.
Qed.

Lemma xacc_curve_mono (a b : Q) :
  a <= b -> b < 1 ->
  -0.027 / (a - 1.0054) + 0.513 <= -0.027 / (b - 1.0054) + 0.513.
Proof.
  intros Hab Hb.
  set (u := a - 1.0054). set (w := b - 1.0054).
  assert (Hu : u < 0) by (unfold u; lra).
  assert (Hw : w < 0) by (unfold w; lra).
  assert (Huw : u <= w) by (unfold u, w; lra).
  assert (Hpos : 0 < u * w).
  { setoid_replace (u * w) with ((- u) * (- w)) by ring.
    apply Qmult_lt_0_compat; lra. }
  apply Qle_minus_iff.
  setoid_replace (-0.027 / w + 0.513 + - (-0.027 / u + 0.513))
    with (0.027 * (w - u) * / (u * w)).
  - apply Qmult_le_0_compat.
    + apply Qmult_le_0_compat; lra.
    + apply Qinv_le_0_compat. lra.
  - field. split; intros E; rewrite E in *; lra.
Qed.

Lemma xacc_curve_below_10 (a : Q) :
  a < 1 -> ~ -0.027 / (a - 1.0054) + 0.513 == 10.
Proof.
  intros Ha E.
  set (u := a - 1.0054) in *.
  assert (Hu : u < 0) by (unfold u; lra).
  assert (E1 : -0.027 / u * u == -0.027).
  { field. intros E0; rewrite E0 in Hu; lra. }
  assert (E2 : -0.027 / u == 9.487) by lra.
  rewrite E2 in E1. unfold u in *. lra.
Qed.

(** C7. With [a] the accuracy of the judgements: the multiplier is [1]
    below [0.95]; on [[0.95, 1)] it is the curve, which does not decrease;
    and it equals [10] exactly when [a] is [1]. *)
Theorem getXaccMtp_curve (inp inp' : pyval) (a b : Q) :
  Utils.getXacc inp = Ret (VFloat a) ->
  Utils.getXacc inp' = Ret (VFloat b) ->
  (a < 0.95 -> Utils.getXaccMtp inp = Ret (VInt 1))
  /\ (0.95 <= a -> a <= b -> b < 1 ->
      exists m m',
        Utils.getXaccMtp inp = Ret (VFloat m)
        /\ Utils.getXaccMtp inp' = Ret (VFloat m')
        /\ m == -0.027 / (a - 1.0054) + 0.513
        /\ m <= m')
  /\ (exists v, Utils.getXaccMtp inp = Ret v
                /\ (py_eqb v (VInt 10) = true <-> a == 1)).
Proof.
  intros Ha Hb.
  rewrite (@getXaccMtp_unfold _ _ Ha), (@getXaccMtp_unfold _ _ Hb).
  assert (H95 : forall x, Qltb (x * inject_Z 100) (inject_Z 95) = true <-> x < 0.95).
  { intros x. rewrite Qltb_lt. unfold inject_Z. split; intros; lra. }
  assert (H100 : forall x, Qltb (x * inject_Z 100) (inject_Z 100) = true <-> x < 1).
  { intros x. rewrite Qltb_lt. unfold inject_Z. split; intros; lra. }
  assert (Hnz : forall x, x < 1 -> Qeq_bool (x - 1.0054) 0 = false).
  { intros x Hx. apply Qeq_bool_false. lra. }
  assert (Hbr : forall x, 0.95 <= x -> x < 1 ->
            Qltb (x * inject_Z 100) (inject_Z 95) = false
            /\ Qltb (x * inject_Z 100) (inject_Z 100) = true).
  { intros x H1 H2. split; [|apply H100; exact H2].
    destruct (Qltb (x * inject_Z 100) (inject_Z 95)) eqn:E; [|reflexivity].
    apply H95 in E. lra. }
  split; [|split].
  - intros Hlt. apply H95 in Hlt. rewrite Hlt. reflexivity.
  - intros Hlo Hab Hhi.
    destruct (Hbr a) as [-> ->]; [lra | lra |].
    destruct (Hbr b) as [-> ->]; [lra | lra |].
    rewrite !Hnz by lra.
    do 2 eexists. split; [reflexivity|]. split; [reflexivity|].
    split; [reflexivity|].
    apply xacc_curve_mono; assumption.
  - destruct (Qltb (a * inject_Z 100) (inject_Z 95)) eqn:E95.
    { apply H95 in E95. eexists; split; [reflexivity|].
      split; [discriminate | intros E; lra]. }
    destruct (Qltb (a * inject_Z 100) (inject_Z 100)) eqn:E100.
    { apply H100 in E100. rewrite Hnz by exact E100.
      eexists; split; [reflexivity|]. simpl. unfold inject_Z.
      rewrite Qeq_bool_iff. split; [|intros E; lra].
      intros E. exfalso. exact (xacc_curve_below_10 E100 E). }
    destruct (Qeq_bool (a * inject_Z 100) (inject_Z 100)) eqn:Eeq.
    + apply Qeq_bool_iff in Eeq. unfold inject_Z in Eeq.
      eexists; split; [reflexivity|]. split; [intros _; lra | reflexivity].
    + apply Qeq_bool_false in Eeq. unfold inject_Z in Eeq.
      eexists; split; [reflexivity|]. split; [discriminate | intros E; lra].
Qed.

Lemma getXaccMtp_curve_witness :
  let inp := judgements_of [0; 0; 4; 96; 0; 0; 0]%Z in
  let inp' := judgements_of [0; 0; 2; 98; 0; 0; 0]%Z in
  let a := 990000 # 1000000 in
  let b := 995000 # 1000000 in
  (a < 0.95 -> Utils.getXaccMtp inp = Ret (VInt 1))
  /\ (0.95 <= a -> a <= b -> b < 1 ->
      exists m m',
        Utils.getXaccMtp inp = Ret (VFloat m)
        /\ Utils.getXaccMtp inp' = Ret (VFloat m')
        /\ m == -0.027 / (a - 1.0054) + 0.513
        /\ m <= m')
  /\ (exists v, Utils.getXaccMtp inp = Ret v
                /\ (py_eqb v (VInt 10) = true <-> a == 1)).
Proof.
  apply (@getXaccMtp_curve
           (judgements_of [0; 0; 4; 96; 0; 0; 0]%Z)
           (judgements_of [0; 0; 2; 98; 0; 0; 0]%Z)); vm_compute; reflexivity.
Defined.

(** ** getSpeedMtp and getScore *)

Lemma as_num_cases x p :
  as_num x = Some p ->
  (exists i, as_int x = Some i /\ p = inject_Z i) \/ (as_int x = None /\ x = VFloat p).
Proof.
  destruct x; simpl; intros H; try discriminate; injection H as <-.
  - left. exists (if b then 1 else 0)%Z. destruct b; auto.
  - left. eauto.
  - right. auto.
Qed.

Lemma py_mul_num x y p q :
  as_num x = Some p -> as_num y = Some q ->
  exists v r, py_mul x y = Ret v /\ as_num v = Some r /\ r == p * q.
Proof.
  intros Hx Hy. unfold py_mul. rewrite Hx, Hy.
  destruct (as_num_cases _ Hx) as [(i & Hi & ->)|(Hi & ->)];
    destruct (as_num_cases _ Hy) as [(j & Hj & ->)|(Hj & ->)];
    rewrite ?Hi, ?Hj; simpl;
    do 2 eexists; (split; [reflexivity|]; split; [reflexivity|]);
    try apply inject_Z_mult; reflexivity.
Qed.

Lemma py_lt_num x y p q :
  as_num x = Some p -> as_num y = Some q -> py_lt x y = Ret (Qltb p q).
Proof.
  intros Hx Hy. destruct x; simpl in *; try discriminate; rewrite Hy; congruence.
Qed.

Lemma py_eqb_num x y p q :
  as_num x = Some p -> as_num y = Some q -> py_eqb x y = Qeq_bool p q.
Proof.
  intros Hx Hy. destruct x; simpl in *; try discriminate; rewrite Hy; congruence.
Qed.

Ltac qsimp :=
  cbn -[Qltb Qeq_bool Qle_bool Qmult Qplus Qminus Qdiv Qopp Qinv inject_Z Qmax].

Ltac ret_num := do 2 eexists; split; [reflexivity|]; split; [reflexivity|].

Lemma getSpeedMtp_general speed so :
  speed_arg speed = Some so ->
  exists v q, Utils.getSpeedMtp speed false = Ret v
              /\ as_num v = Some q /\ q == speedMultiplier_spec so.
Proof.
  intros Hs.
  assert (Hnum : speed = VNone /\ so = None
                 \/ exists s, as_num speed = Some s /\ so = Some s
                              /\ speed_arg speed = Some (Some s)).
  { destruct speed; simpl in *; try discriminate; injection Hs as <-; eauto 6. }
  destruct Hnum as [[-> ->]|(s & Hnum & -> & Hs')].
  { ret_num. reflexivity. }
  unfold Utils.getSpeedMtp, speedMultiplier_spec.
  assert (Hn : is_none speed = false) by (destruct speed; simpl in *; congruence).
  rewrite Hn; cbn [orb].
  rewrite (py_eqb_num _ (VInt 1) Hnum eq_refl). change (inject_Z 1) with 1.
  destruct (Qeq_bool s 1); [ret_num; reflexivity|].
  unfold lift2, int, flt; cbn [bind].
  rewrite (py_lt_num _ (VInt 1) Hnum eq_refl). change (inject_Z 1) with 1.
  cbn [bind].
  destruct (Qltb s 1); [ret_num; reflexivity|].
  rewrite (py_lt_num _ (VFloat 1.1) Hnum eq_refl). cbn [bind as_num].
  destruct (Qltb s 1.1).
  { destruct speed; simpl in Hnum; try discriminate; injection Hnum as <-;
      qsimp; ret_num; reflexivity. }
  rewrite (py_lt_num _ (VFloat 1.5) Hnum eq_refl). cbn [bind as_num].
  destruct (Qltb s 1.5); [ret_num; reflexivity|].
  rewrite (py_lt_num _ (VInt 2) Hnum eq_refl). cbn [bind as_num].
  change (inject_Z 2) with 2.
  destruct (Qltb s 2); [|ret_num; reflexivity].
  destruct speed; simpl in Hnum; try discriminate; injection Hnum as <-;
    qsimp; ret_num; reflexivity.
Qed.





(** ** getScoreV2 *)






(** [0.45682170] and [0.45682171] bracket the real number [(16/49) ** 0.7]:
    their tenth powers bracket [(16/49) ** 7]. *)
Lemma pow_reference_bracket :
  0.45682170 ^ 10 <= (16 # 49) ^ 7 /\ (16 # 49) ^ 7 <= 0.45682171 ^ 10.
Proof. split; apply Qle_bool_iff; vm_compute; reflexivity. Qed.

Lemma Qabs_lt_iff x y : Qabs x < y <-> - y < x /\ x < y.
Proof.
  split.
  - intros H. split.
    + apply Qlt_le_trans with (- Qabs x).
      * apply Qopp_lt_compat. exact H.
      * rewrite <- (Qopp_involutive x) at 2. apply Qopp_le_compat.
        rewrite <- Qabs_opp. apply Qle_Qabs.
    + apply Qle_lt_trans with (Qabs x); [apply Qle_Qabs | exact H].
  - intros [H1 H2]. apply Qabs_case; intros _; lra.
Qed.

(** The miss penalty of the reference counts, when [getScoreV2Mtp] is
    called on their positional form with the tile count [2000]: nine
    effective misses, and a penalty of about [0.8086], which would take
    the score of [1600 * ref_xaccMtp] to [3740.08]; [math.pow] is assumed
    accurate to eight decimals at the one point where it is called. *)
Lemma getScoreV2Mtp_reference (pow : Q -> Q -> Q) :
  0.45682170 <= pow (16 # 49) 0.7 <= 0.45682171 ->
  (t <- slice_1_m1 ref_inputs ;; py_sum t) = Ret (VInt 2000)
  /\ effective_misses 15 2000 = 9%Z
  /\ exists p, Utils.getScoreV2Mtp pow (VInt 2000) ref_inputs = Ret (VFloat p)
               /\ Qabs (p - 0.8086) < 0.0001
               /\ Qabs (1600 * ref_xaccMtp * p - 3740.08) < 0.01.
Proof.
  intros [Hlo Hhi].
  split; [vm_compute; reflexivity|]. split; [vm_compute; reflexivity|].
  exists (1 - 10 / 100
          - pow ((9 - 1) / ((1 + 50) / 2 - 1)) 0.7 * ((10 + 50) / 2 - 10) / 100).
  split; [vm_compute; reflexivity|].
  unfold ref_xaccMtp.
  change ((9 - 1) / ((1 + 50) / 2 - 1)) with (16 # 49).
  set (r := pow (16 # 49) 0.7) in *.
  assert (E : 1 - 10 / 100 - r * ((10 + 50) / 2 - 10) / 100 == 0.9 - 0.2 * r)
    by field.
  rewrite E.
  split; apply Qabs_lt_iff; split; lra.
Qed.

(** C2 (the code departs from the claim).  On the reference chart and
    pass the accuracy is [2003/2015] and the accuracy multiplier about
    [2.891], but [getScoreV2] does not apply the miss penalty: with the
    named judgement counts it returns the score of [getScore], about
    [4625.18], which is not within [0.5] of [3740.9]; with the positional
    list of the self-test of [Core.py], [getScore] and with it
    [getScoreV2] raise [TypeError].  This holds whatever [math.pow]
    computes. *)
Theorem getScoreV2_reference (pow : Q -> Q -> Q) :
  (exists a m,
     Utils.getXacc ref_inputs = Ret (VFloat a) /\ a == 2003 # 2015
     /\ Utils.getXaccMtp ref_inputs = Ret (VFloat m) /\ Qabs (m - 2.891) < 0.001)
  /\ (exists s,
        Utils.getScore (ref_pass (VDict ref_judgements)) ref_chart = Ret (VFloat s)
        /\ Utils.getScoreV2 pow (ref_pass (VDict ref_judgements)) ref_chart
           = Ret (VFloat s)
        /\ s == 1600 * ref_xaccMtp
        /\ Qabs (s - 4625.18) < 0.01
        /\ ~ Qabs (s - 3740.9) <= 0.5)
  /\ Utils.getScore (ref_pass ref_inputs) ref_chart = Raise TypeError
  /\ Utils.getScoreV2 pow (ref_pass ref_inputs) ref_chart = Raise TypeError.
Proof.
  split; [|split; [|split]].
  - do 2 eexists. split; [vm_compute; reflexivity|].
    split; [vm_compute; reflexivity|].
    split; [vm_compute; reflexivity|].
    apply Qabs_lt_iff. split; vm_compute; reflexivity.
  - eexists. split; [vm_compute; reflexivity|].
    split; [vm_compute; reflexivity|].
    split; [vm_compute; reflexivity|].
    split.
    + apply Qabs_lt_iff. split; vm_compute; reflexivity.
    + intros H. apply Qle_bool_iff in H. vm_compute in H. discriminate.
  - vm_compute. reflexivity.
  - vm_compute. reflexivity.
Qed.

(** ** The record constructions of the searches *)

Lemma mapM_Forall2 {A B} (f : A -> res B) l r :
  mapM f l = Ret r -> Forall2 (fun x y => f x = Ret y) l r.
Proof.
  revert r. induction l as [|x l IH]; simpl; intros r H.
  - injection H as <-. constructor.
  - apply bind_ret in H as (y & Hy & H).
    apply bind_ret in H as (ys & Hys & H).
    injection H as <-. constructor; auto.
Qed.

Lemma Forall2_in_combine {A B} (R : A -> B -> Prop) l r x :
  Forall2 R l r -> In x l -> exists y, R x y /\ In (y, x) (combine r l).
Proof.
  induction 1 as [|a b l r Hab _ IH]; simpl; intros Hin; [contradiction|].
  destruct Hin as [->|Hin].
  - exists b; auto.
  - destruct (IH Hin) as (y & Hy & Hc). exists y; auto.
Qed.

Lemma nodupb_NoDup l : nodupb l = true -> NoDup l.
Proof.
  induction l as [|x l IH]; simpl; intros H; constructor.
  - apply andb_prop in H as [H _]. apply negb_true_iff in H.
    intros Hin. apply str_mem_In in Hin. congruence.
  - apply IH. apply andb_prop in H as [_ H]. exact H.
Qed.

Lemma dict_set_fresh d k v :
  ~ In k (dict_keys d) -> dict_set d k v = d ++ [(k, v)].
Proof.
  induction d as [|[k0 v0] d IH]; simpl; intros Hn; [reflexivity|].
  destruct (String.eqb_spec k0 k) as [->|Hne].
  - exfalso; apply Hn; auto.
  - f_equal. apply IH. intros Hin. apply Hn; auto.
Qed.

Lemma dict_update_fresh vs : forall d,
  NoDup (map fst vs) ->
  (forall k, In k (map fst vs) -> ~ In k (dict_keys d)) ->
  dict_update d vs = d ++ vs.
Proof.
  unfold dict_update.
  induction vs as [|[k v] vs IH]; simpl; intros d Hnd Hfresh.
  - symmetry; apply app_nil_r.
  - inversion Hnd as [|? ? Hk Hnd']; subst.
    rewrite dict_set_fresh by (apply Hfresh; auto).
    rewrite IH; [rewrite <- app_assoc; reflexivity | exact Hnd' |].
    intros k' Hk' Hin. unfold dict_keys in Hin. rewrite map_app in Hin.
    apply in_app_or in Hin as [Hin|Hin].
    + exact (Hfresh k' (or_intror Hk') Hin).
    + simpl in Hin. destruct Hin as [<-|[]]. contradiction.
Qed.

(** A dict display with distinct keys has exactly the keys written. *)
Lemma display_keys kvs inp :
  display kvs = Ret inp -> NoDup (map fst kvs) -> dict_keys inp = map fst kvs.
Proof.
  unfold display. intros H Hnd.
  apply bind_ret in H as (vs & Hvs & H). injection H as <-.
  apply mapM_Forall2 in Hvs.
  assert (Hk : map fst vs = map fst kvs).
  { clear Hnd. induction Hvs as [|kv v kvs vs Hv _ IH]; simpl; [reflexivity|].
    apply bind_ret in Hv as (w & _ & Hv). injection Hv as <-.
    simpl. f_equal. exact IH. }
  unfold dict_of. rewrite dict_update_fresh.
  - simpl. exact Hk.
  - rewrite Hk. exact Hnd.
  - intros k _ [].
Qed.

(** [updateParams] on a fresh [ResultObj], given a map whose keys are
    those of the two displays: ["chartId"] is the first key outside the
    schema. *)
Lemma updateParams_chartId (inp : dict) :
  dict_keys inp =
    [ "player"; "playerId"; "song"; "artist"; "score"; "pguDiff"; "Xacc";
      "speed"; "isWorldsFirst"; "vidLink"; "feelingRating"; "date"; "is12K";
      "is16K"; "isNoHold"; "judgements"; "pdnDiff"; "chartId"; "passId";
      "baseScore"; "isDeleted" ] ->
  ResultObj.updateParams ResultObj.init inp = (ResultObj.init, Raise incorrect_chartId).
Proof.
  intros Hk. unfold ResultObj.updateParams, updateParams_params.
  rewrite Hk. reflexivity.
Qed.

Section Records.

Variable pow : Q -> Q -> Q.
Variable strptime : string -> option Z.
Variables today epoch2022 : Z.

Lemma chart_record_raises chart Pass :
  chart_record pow strptime today chart Pass =
  match chart_fields pow strptime today chart Pass with
  | Ret _ => Raise incorrect_chartId
  | Raise e => Raise e
  end.
Proof.
  unfold chart_record.
  destruct (chart_fields pow strptime today chart Pass) as [inp|e] eqn:Hf;
    [|reflexivity].
  cbn [bind]. rewrite updateParams_chartId; [reflexivity|].
  unfold chart_fields in Hf.
  apply bind_ret in Hf as (date & _ & Hf).
  apply bind_ret in Hf as (ja & _ & Hf).
  apply display_keys in Hf; [exact Hf|].
  apply nodupb_NoDup. reflexivity.
Qed.

Lemma player_record_raises player chart Pass wf :
  player_record pow strptime epoch2022 player chart Pass wf =
  match player_fields pow strptime epoch2022 player chart Pass wf with
  | Ret _ => Raise incorrect_chartId
  | Raise e => Raise e
  end.
Proof.
  unfold player_record.
  destruct (player_fields pow strptime epoch2022 player chart Pass wf) as [inp|e] eqn:Hf;
    [|reflexivity].
  cbn [bind]. rewrite updateParams_chartId; [reflexivity|].
  unfold player_fields in Hf.
  apply bind_ret in Hf as (date & _ & Hf).
  apply bind_ret in Hf as (sp & _ & Hf).
  apply display_keys in Hf; [exact Hf|].
  apply nodupb_NoDup. reflexivity.
Qed.

Lemma player_records_raises player data pp : forall st Pass cid chart,
  In Pass pp ->
  getitem Pass "levelId" = Ret cid ->
  charts_get (charts data) cid = Ret (Some chart) ->
  raises (player_records pow strptime epoch2022 player data pp st) = true.
Proof.
  induction pp as [|P pp IH]; intros st Pass cid chart Hin Hl Hc; [contradiction|].
  cbn [player_records].
  destruct (getitem P "levelId") as [c|e] eqn:HP; [|reflexivity]. cbn [bind].
  destruct (charts_get (charts data) c) as [[ch|]|e] eqn:Hch; [| |reflexivity];
    cbn [bind].
  - destruct (getitem P "isWorldsFirst") as [wf|e]; [|reflexivity]. cbn [bind].
    rewrite player_record_raises.
    destruct (player_fields _ _ _ _ _ _ _); reflexivity.
  - destruct Hin as [->|Hin]; [congruence|].
    exact (IH st Pass cid chart Hin Hl Hc).
Qed.

Lemma player_records_chartId player data skipped first rest chart cid wf inp :
  forall st,
  Forall (fun P => exists c, getitem P "levelId" = Ret c
                             /\ charts_get (charts data) c = Ret None) skipped ->
  getitem first "levelId" = Ret cid ->
  charts_get (charts data) cid = Ret (Some chart) ->
  getitem first "isWorldsFirst" = Ret wf ->
  player_fields pow strptime epoch2022 player chart first wf = Ret inp ->
  player_records pow strptime epoch2022 player data (skipped ++ first :: rest) st
  = Raise incorrect_chartId.
Proof.
  intros st Hsk Hl Hc Hwf Hf.
  induction Hsk as [|P skipped (c & HP & Hn) _ IH]; cbn [app player_records].
  - rewrite Hl; cbn [bind]. rewrite Hc; cbn [bind]. rewrite Hwf; cbn [bind].
    rewrite player_record_raises, Hf. reflexivity.
  - rewrite HP; cbn [bind]. rewrite Hn; cbn [bind]. exact IH.
Qed.

(** C1, as the code has it.  Whenever a pass resolves to a known chart,
    [searchByChart] and [searchByPlayer] do not return: building the first
    such record raises.  The exception is the [ValueError] of
    [updateParams] for the key ["chartId"] whenever the fields of that
    record evaluate; otherwise it is the exception of the field that
    failed. *)
Theorem searches_raise_on_chartId :
  (forall chartId data getDates chart Pass l,
     charts_get (charts data) chartId = Ret (Some chart) ->
     truthy chart = true ->
     In Pass (passes data) ->
     getitem Pass "levelId" = Ret l ->
     py_eqb l chartId = true ->
     raises (searchByChart pow strptime today chartId data getDates) = true
     /\ forall first rest inp,
          valid_passes chartId data = Ret (first :: rest) ->
          chart_fields pow strptime today chart first = Ret inp ->
          searchByChart pow strptime today chartId data getDates
          = Raise incorrect_chartId)
  /\
  (forall player data TwvKOnly showCharts Pass i pid cid chart,
     In Pass (passes data) ->
     getitem Pass "playerId" = Ret i ->
     getitem player "id" = Ret pid ->
     py_eqb i pid = true ->
     getitem Pass "levelId" = Ret cid ->
     charts_get (charts data) cid = Ret (Some chart) ->
     raises (searchByPlayer pow strptime epoch2022 player data TwvKOnly showCharts) = true
     /\ forall skipped rest wf inp,
          player_passes player data = Ret (skipped ++ Pass :: rest) ->
          Forall (fun P => exists c, getitem P "levelId" = Ret c
                                     /\ charts_get (charts data) c = Ret None) skipped ->
          getitem Pass "isWorldsFirst" = Ret wf ->
          player_fields pow strptime epoch2022 player chart Pass wf = Ret inp ->
          searchByPlayer pow strptime epoch2022 player data TwvKOnly showCharts
          = Raise incorrect_chartId).
Proof.
  split.
  - intros chartId data getDates chart Pass l Hc Ht Hin Hl Heq.
    unfold searchByChart. rewrite Hc; cbn [bind]. rewrite Ht; cbn [negb].
    split.
    + destruct (valid_passes chartId data) as [vp|e] eqn:Hvp; [|reflexivity].
      cbn [bind].
      assert (Hne : In Pass vp).
      { unfold valid_passes in Hvp.
        apply bind_ret in Hvp as (keep & Hk & Hvp). injection Hvp as <-.
        apply mapM_Forall2 in Hk.
        destruct (@Forall2_in_combine _ _ _ _ _ Pass Hk Hin) as (y & Hy & Hyc).
        rewrite Hl in Hy; cbn [bind] in Hy. injection Hy as <-.
        apply in_map_iff. exists (py_eqb l chartId, Pass). split; [reflexivity|].
        apply filter_In. split; [exact Hyc | exact Heq]. }
      destruct vp as [|first rest]; [contradiction|].
      cbn [chart_records]. rewrite chart_record_raises.
      destruct (chart_fields _ _ _ _ _); reflexivity.
    + intros first rest inp Hvp Hf. rewrite Hvp; cbn [bind chart_records].
      rewrite chart_record_raises, Hf. reflexivity.
  - intros player data TwvKOnly showCharts Pass i pid cid chart
           Hin Hi Hpid Heq Hl Hc.
    unfold searchByPlayer. split.
    + destruct (player_passes player data) as [pp|e] eqn:Hpp; [|reflexivity].
      cbn [bind].
      assert (Hne : In Pass pp).
      { unfold player_passes in Hpp.
        apply bind_ret in Hpp as (ids & Hk & Hpp).
        apply bind_ret in Hpp as (pid' & Hp' & Hpp). injection Hpp as <-.
        rewrite Hpid in Hp'; cbn [bind] in Hp'.
        assert (pid' = pid) by (destruct (hashable pid); congruence). subst pid'.
        apply mapM_Forall2 in Hk.
        destruct (@Forall2_in_combine _ _ _ _ _ Pass Hk Hin) as (y & Hy & Hyc).
        rewrite Hi in Hy; cbn [bind] in Hy.
        assert (y = i) by (destruct (hashable i); congruence). subst y.
        apply in_map_iff. exists (i, Pass). split; [reflexivity|].
        apply filter_In. split; [exact Hyc | exact Heq]. }
      match goal with
      | |- raises (bind ?c _) = true =>
          assert (Hr : raises c = true)
            by exact (player_records_raises player data pp _ Pass Hne Hl Hc);
          destruct c; [discriminate | reflexivity]
      end.
    + intros skipped rest wf inp Hpp Hsk Hwf Hf.
      rewrite Hpp; cbn [bind].
      rewrite (@player_records_chartId player data skipped Pass rest chart cid wf inp _ Hsk Hl Hc Hwf Hf).
      reflexivity.
Qed.

End Records.

(** *** The searches on sample data *)

Lemma searches_raise_on_chartId_witness :
  searchByChart pow_approx strptime_digits 0 (VInt 63) (sample_data ref_judgements) false
  = Raise incorrect_chartId
  /\ searchByPlayer pow_approx strptime_digits 0 sample_player
       (sample_data ref_judgements) false true
     = Raise incorrect_chartId.
Proof.
  destruct (searches_raise_on_chartId pow_approx strptime_digits 0 0) as [H1 H2].
  set (data := sample_data ref_judgements).
  set (Pass := sample_pass ref_judgements).
  assert (Hc : charts_get (charts data) (VInt 63) = Ret (Some sample_chart))
    by (vm_compute; reflexivity).
  assert (Ht : truthy sample_chart = true) by reflexivity.
  assert (Hin : In Pass (passes data)) by (left; reflexivity).
  assert (Hl : getitem Pass "levelId" = Ret (VInt 63)) by reflexivity.
  assert (He : py_eqb (VInt 63) (VInt 63) = true) by (vm_compute; reflexivity).
  assert (Hi : getitem Pass "playerId" = Ret (VInt 7)) by reflexivity.
  assert (Hp : getitem sample_player "id" = Ret (VInt 7)) by reflexivity.
  assert (He7 : py_eqb (VInt 7) (VInt 7) = true) by (vm_compute; reflexivity).
  assert (Hv : valid_passes (VInt 63) data = Ret [Pass]) by (vm_compute; reflexivity).
  assert (Hf : chart_fields pow_approx strptime_digits 0 sample_chart Pass
               = Ret sample_chart_fields) by (vm_compute; reflexivity).
  assert (Hpp : player_passes sample_player data = Ret ([] ++ Pass :: []))
    by (vm_compute; reflexivity).
  assert (Hw : getitem Pass "isWorldsFirst" = Ret (VBool true)) by reflexivity.
  assert (Hpf : player_fields pow_approx strptime_digits 0 sample_player
                  sample_chart Pass (VBool true) = Ret sample_player_fields)
    by (vm_compute; reflexivity).
  split.
  - exact (proj2 (H1 (VInt 63) data false sample_chart Pass (VInt 63)
                     Hc Ht Hin Hl He) Pass [] sample_chart_fields Hv Hf).
  - exact (proj2 (H2 sample_player data false true Pass (VInt 7) (VInt 7)
                     (VInt 63) sample_chart Hin Hi Hp He7 Hl Hc)
                 [] [] (VBool true) sample_player_fields Hpp (Forall_nil _) Hw Hpf).
Defined.

(** C1 fails as stated: a pass whose judgement counts are all zero makes
    both searches raise [ZeroDivisionError], from [getXacc], before
    [updateParams] is reached. *)
Lemma searches_raise_on_chartId_counterexample :
  searchByChart pow_approx strptime_digits 0 (VInt 63) (sample_data zero_judgements) false
  = Raise ZeroDivisionError
  /\ searchByPlayer pow_approx strptime_digits 0 sample_player
       (sample_data zero_judgements) false true
     = Raise ZeroDivisionError.
Proof. split; vm_compute; reflexivity. Qed.

(** ** Stable sorting, without exceptions *)

Section PureSort.

Context {E : Type}.
Variable ltb : E -> E -> bool.

Lemma pinsert_in x l z : In z (pinsert ltb x l) <-> z = x \/ In z l.
Proof.
  induction l as [|y l IH]; simpl.
  - intuition congruence.
  - destruct (ltb y x); simpl; rewrite ?IH; intuition congruence.
Qed.

Lemma psort_in l z : In z (psort ltb l) <-> In z l.
Proof.
  induction l as [|x l IH]; simpl; [tauto|].
  rewrite pinsert_in, IH. intuition congruence.
Qed.

End PureSort.

Lemma psort_ext {E} (lt1 lt2 : E -> E -> bool) l :
  (forall a b, In a l -> In b l -> lt1 a b = lt2 a b) ->
  psort lt1 l = psort lt2 l.
Proof.
  induction l as [|x l IH]; simpl; intros H; [reflexivity|].
  rewrite <- IH by auto.
  assert (Hin : forall z, In z (psort lt1 l) -> In z l)
    by (intros z; apply psort_in).
  revert Hin. generalize (psort lt1 l) as s.
  induction s as [|y s IHs]; simpl; intros Hin; [reflexivity|].
  rewrite (H y x) by auto. destruct (lt2 y x); [|reflexivity].
  f_equal. apply IHs. auto.
Qed.

Lemma psort_map {E F} (f : E -> F) (lt : F -> F -> bool) l :
  psort lt (map f l) = map f (psort (fun a b => lt (f a) (f b)) l).
Proof.
  induction l as [|x l IH]; simpl; [reflexivity|]. rewrite IH.
  generalize (psort (fun a b => lt (f a) (f b)) l) as s.
  induction s as [|y s IHs]; simpl; [reflexivity|].
  destruct (lt (f y) (f x)); simpl; [rewrite IHs|]; reflexivity.
Qed.

Lemma psort_perm {E} (ltb : E -> E -> bool) l : Permutation (psort ltb l) l.
Proof.
  assert (Hi : forall x s, Permutation (pinsert ltb x s) (x :: s)).
  { intros x s. induction s as [|y s IH]; simpl; [reflexivity|].
    destruct (ltb y x); [|reflexivity].
    rewrite IH. apply perm_swap. }
  induction l as [|x l IH]; simpl; [reflexivity|].
  rewrite Hi. constructor. exact IH.
Qed.

(** *** [sorted] when no key and no comparison raises *)

Lemma insert_pure {A} (kx : pyval * A) l :
  (forall q, In q l -> raises (py_lt (fst q) (fst kx)) = false) ->
  insert kx l = Ret (pinsert (fun p q => py_ltb (fst p) (fst q)) kx l).
Proof.
  induction l as [|ky l IH]; simpl; intros H; [reflexivity|].
  unfold py_ltb at 1.
  pose proof (H ky (or_introl eq_refl)) as Hr.
  destruct (py_lt (fst ky) (fst kx)) as [c|e]; [|discriminate].
  cbn [bind]. destruct c; [|reflexivity].
  rewrite IH by auto. reflexivity.
Qed.

Lemma sort_keyed_pure {A} (l : list (pyval * A)) :
  (forall p q, In p l -> In q l -> raises (py_lt (fst p) (fst q)) = false) ->
  sort_keyed l = Ret (psort (fun p q => py_ltb (fst p) (fst q)) l).
Proof.
  induction l as [|kx l IH]; simpl; intros H; [reflexivity|].
  rewrite IH by auto. cbn [bind]. apply insert_pure.
  intros q Hq. apply psort_in in Hq. auto.
Qed.

Lemma sorted_pure {A} (key : A -> res pyval) (kf : A -> pyval) (l : list A) :
  (forall x, In x l -> key x = Ret (kf x)) ->
  (forall x y, In x l -> In y l -> raises (py_lt (kf x) (kf y)) = false) ->
  sorted key l = Ret (psort (fun x y => py_ltb (kf x) (kf y)) l).
Proof.
  intros Hk Hc. unfold sorted.
  rewrite (mapM_pure key kf l Hk). cbn [bind].
  assert (Hcomb : combine (map kf l) l = map (fun x => (kf x, x)) l).
  { clear. induction l as [|x l IH]; simpl; [reflexivity|]. rewrite IH. reflexivity. }
  rewrite Hcomb. rewrite sort_keyed_pure.
  - cbn [bind]. rewrite psort_map. rewrite map_map. simpl. rewrite map_id. reflexivity.
  - intros p q Hp Hq. apply in_map_iff in Hp as (x & <- & Hx).
    apply in_map_iff in Hq as (y & <- & Hy). simpl. auto.
Qed.

(** ** The composite sort key of the player leaderboard *)

(** With the default [sortBy="rankedScore"] the criteria are the priority
    list itself. *)
Lemma rankedScore_criteria :
  (priority <- list_remove "rankedScore" Utils.allPassSortPriority ;;
   Ret ("rankedScore" :: priority)) = Ret Utils.allPassSortPriority.
Proof. reflexivity. Qed.

Lemma string_compare_refl t : String.compare t t = Eq.
Proof.
  pose proof (String.compare_antisym t t) as H.
  destruct (String.compare t t); simpl in H; congruence.
Qed.

Lemma string_trichotomy s t :
  trichotomy (String.ltb s t) (String.ltb t s) (String.eqb s t).
Proof.
  unfold trichotomy, String.ltb.
  rewrite (String.compare_antisym t s).
  destruct (String.compare s t) eqn:Hc; simpl.
  - apply String.compare_eq_iff in Hc. subst. rewrite String.eqb_refl. auto.
  - assert (String.eqb s t = false).
    { apply String.eqb_neq. intros ->. rewrite string_compare_refl in Hc.
      discriminate. }
    auto.
  - assert (String.eqb s t = false).
    { apply String.eqb_neq. intros ->. rewrite string_compare_refl in Hc.
      discriminate. }
    auto.
Qed.

Lemma Q_trichotomy p q : trichotomy (Qltb p q) (Qltb q p) (Qeq_bool p q).
Proof.
  unfold trichotomy.
  destruct (Q_dec p q) as [[Hlt|Hgt]|Heq].
  - left. split; [apply Qltb_lt; exact Hlt|]. split.
    + apply Qltb_ge. apply Qlt_le_weak. exact Hlt.
    + apply Qeq_bool_false. intros E. rewrite E in Hlt. exact (Qlt_irrefl _ Hlt).
  - right; left. split; [apply Qltb_ge; apply Qlt_le_weak; exact Hgt|]. split.
    + apply Qltb_lt. exact Hgt.
    + apply Qeq_bool_false. intros E. rewrite E in Hgt. exact (Qlt_irrefl _ Hgt).
  - right; right. split; [apply Qltb_ge; rewrite Heq; apply Qle_refl|]. split.
    + apply Qltb_ge. rewrite Heq. apply Qle_refl.
    + apply Qeq_bool_iff. exact Heq.
Qed.

Lemma comparable_trichotomy a b :
  comparable a b ->
  exists lt gt, py_lt a b = Ret lt /\ py_lt b a = Ret gt
                /\ trichotomy lt gt (py_eqb a b).
Proof.
  intros [(p & q & Hp & Hq)|(s & t & -> & ->)].
  - exists (Qltb p q), (Qltb q p).
    rewrite (py_lt_num _ _ Hp Hq), (py_lt_num _ _ Hq Hp), (py_eqb_num _ _ Hp Hq).
    split; [reflexivity|]. split; [reflexivity|]. apply Q_trichotomy.
  - exists (String.ltb s t), (String.ltb t s). simpl.
    split; [reflexivity|]. split; [reflexivity|]. apply string_trichotomy.
Qed.

Lemma py_eqb_sym_comparable a b : comparable a b -> py_eqb b a = py_eqb a b.
Proof.
  intros [(p & q & Hp & Hq)|(s & t & -> & ->)].
  - rewrite (py_eqb_num _ _ Hp Hq), (py_eqb_num _ _ Hq Hp). apply Qeq_bool_comm.
  - simpl. apply String.eqb_sym.
Qed.

(** Lists of pairwise comparable values are ordered lexicographically,
    without raising, and are equal only when equal position by position. *)
Lemma list_trichotomy la lb :
  Forall2 comparable la lb ->
  exists lt gt,
    py_lt (VList la) (VList lb) = Ret lt /\ py_lt (VList lb) (VList la) = Ret gt
    /\ trichotomy lt gt (py_eqb (VList la) (VList lb))
    /\ (py_eqb (VList la) (VList lb) = true <->
        Forall2 (fun a b => py_eqb a b = true) la lb).
Proof.
  induction 1 as [|a b la lb Hab Hl IH].
  - exists false, false. simpl. repeat split; auto.
    right; right; auto.
  - destruct IH as (lt & gt & Hlt & Hgt & Htri & Heq).
    destruct (comparable_trichotomy Hab) as (lt0 & gt0 & Hlt0 & Hgt0 & Htri0).
    assert (Ul : py_lt (VList (a :: la)) (VList (b :: lb))
                 = if py_eqb a b then py_lt (VList la) (VList lb) else py_lt a b)
      by reflexivity.
    assert (Ug : py_lt (VList (b :: lb)) (VList (a :: la))
                 = if py_eqb b a then py_lt (VList lb) (VList la) else py_lt b a)
      by reflexivity.
    assert (Ue : py_eqb (VList (a :: la)) (VList (b :: lb))
                 = py_eqb a b && py_eqb (VList la) (VList lb))
      by reflexivity.
    rewrite Ul, Ug, Ue, (py_eqb_sym_comparable Hab).
    destruct (py_eqb a b) eqn:Eab.
    + exists lt, gt. split; [exact Hlt|]. split; [exact Hgt|].
      split; [exact Htri|]. simpl. rewrite Heq. split.
      * intros HF. constructor; assumption.
      * intros HF. inversion HF; subst. assumption.
    + exists lt0, gt0. split; [exact Hlt0|]. split; [exact Hgt0|].
      split; [exact Htri0|]. simpl. split; [discriminate|].
      intros HF. inversion HF; subst. congruence.
Qed.

Lemma priority_keys : Utils.allPassSortPriority = numeric_keys ++ string_keys.
Proof. reflexivity. Qed.

Lemma sort_key_populated x :
  populated x ->
  sort_key Utils.allPassSortPriority x
  = Ret (VList (map (key_field x) Utils.allPassSortPriority)).
Proof.
  intros [Hn Hs]. unfold sort_key.
  rewrite (mapM_pure _ (key_field x)); [reflexivity|].
  intros k Hk. unfold key_field, getitem.
  rewrite Forall_forall in Hn, Hs.
  rewrite priority_keys in Hk. apply in_app_or in Hk as [Hk|Hk].
  - destruct (Hn k Hk) as (v & _ & -> & _). reflexivity.
  - destruct (Hs k Hk) as (t & ->). reflexivity.
Qed.

Lemma populated_comparable a b :
  populated a -> populated b ->
  Forall2 comparable (map (key_field a) Utils.allPassSortPriority)
    (map (key_field b) Utils.allPassSortPriority).
Proof.
  intros [Han Has] [Hbn Hbs]. rewrite priority_keys, !map_app.
  apply Forall2_app.
  - revert Han Hbn. generalize numeric_keys as ks.
    induction ks as [|k ks IH]; intros Ha Hb; simpl; constructor.
    + inversion Ha as [|? ? (v & p & Hv & Hp)]; subst.
      inversion Hb as [|? ? (v' & q & Hv' & Hq)]; subst.
      left. exists p, q. unfold key_field. rewrite Hv, Hv'. auto.
    + inversion Ha; inversion Hb; subst. auto.
  - revert Has Hbs. generalize string_keys as ks.
    induction ks as [|k ks IH]; intros Ha Hb; simpl; constructor.
    + inversion Ha as [|? ? (s & Hv)]; subst.
      inversion Hb as [|? ? (t & Hv')]; subst.
      right. exists s, t. unfold key_field. rewrite Hv, Hv'. auto.
    + inversion Ha; inversion Hb; subst. auto.
Qed.

(** *** The order of the keys *)

Lemma string_ltb_trans s t x :
  String.ltb s t = true -> String.ltb t x = true -> String.ltb s x = true.
Proof.
  unfold String.ltb. intros H1 H2.
  destruct (String.compare s t) eqn:E1; try discriminate.
  destruct (String.compare t x) eqn:E2; try discriminate.
  apply OrderedTypeEx.String_as_OT.cmp_lt in E1, E2.
  pose proof (@OrderedTypeEx.String_as_OT.lt_trans _ _ _ E1 E2) as E3.
  apply OrderedTypeEx.String_as_OT.cmp_lt in E3.
  unfold OrderedTypeEx.String_as_OT.cmp in E3. rewrite E3. reflexivity.
Qed.

Lemma py_ltb_of_num u v p q :
  as_num u = Some p -> as_num v = Some q -> py_ltb u v = Qltb p q.
Proof. intros Hu Hv. unfold py_ltb. rewrite (py_lt_num _ _ Hu Hv). reflexivity. Qed.

Ltac q_bools :=
  repeat match goal with
         | H : Qeq_bool _ _ = true |- _ => apply Qeq_bool_iff in H
         | H : Qeq_bool _ _ = false |- _ => apply Qeq_bool_false in H
         | H : Qltb _ _ = true |- _ => apply Qltb_lt in H
         | H : Qltb _ _ = false |- _ => apply Qltb_ge in H
         end.

(** The values of one key position: equality is compatible with [==] and
    [<], and [<] is negatively transitive. *)
Lemma atom_order u v w :
  comparable3 u v w ->
  (py_eqb u v = true -> py_eqb u w = py_eqb v w /\ py_ltb u w = py_ltb v w)
  /\ (py_eqb v w = true -> py_eqb u w = py_eqb u v /\ py_ltb u w = py_ltb u v)
  /\ (py_eqb u v = false -> py_eqb v w = false ->
      py_ltb u v = false -> py_ltb v w = false ->
      py_eqb u w = false /\ py_ltb u w = false).
Proof.
  intros [(p & q & r & Hp & Hq & Hr)|(s & t & x & -> & -> & ->)].
  - rewrite (py_eqb_num _ _ Hp Hq), (py_eqb_num _ _ Hp Hr), (py_eqb_num _ _ Hq Hr),
      (py_ltb_of_num _ _ Hp Hq), (py_ltb_of_num _ _ Hp Hr), (py_ltb_of_num _ _ Hq Hr).
    split; [|split].
    + intros E. q_bools. split.
      * destruct (Qeq_bool q r) eqn:E1; q_bools.
        -- apply Qeq_bool_iff. rewrite E. exact E1.
        -- apply Qeq_bool_false. rewrite E. exact E1.
      * destruct (Qltb q r) eqn:E1; q_bools.
        -- apply Qltb_lt. rewrite E. exact E1.
        -- apply Qltb_ge. rewrite E. exact E1.
    + intros E. q_bools. split.
      * destruct (Qeq_bool p q) eqn:E1; q_bools.
        -- apply Qeq_bool_iff. rewrite <- E. exact E1.
        -- apply Qeq_bool_false. rewrite <- E. exact E1.
      * destruct (Qltb p q) eqn:E1; q_bools.
        -- apply Qltb_lt. rewrite <- E. exact E1.
        -- apply Qltb_ge. rewrite <- E. exact E1.
    + intros E1 E2 L1 L2. q_bools. split.
      * apply Qeq_bool_false. intros E. lra.
      * apply Qltb_ge. lra.
  - change (py_ltb (VStr s) (VStr t)) with (String.ltb s t).
    change (py_ltb (VStr s) (VStr x)) with (String.ltb s x).
    change (py_ltb (VStr t) (VStr x)) with (String.ltb t x).
    cbn [py_eqb as_num].
    split; [|split].
    + intros E. apply String.eqb_eq in E. subst t. auto.
    + intros E. apply String.eqb_eq in E. subst x. auto.
    + intros E1 E2 L1 L2.
      assert (G1 : String.ltb t s = true).
      { destruct (string_trichotomy s t) as [(F & _)|[(_ & F & _)|(_ & _ & F)]];
          first [exact F | congruence]. }
      assert (G2 : String.ltb x t = true).
      { destruct (string_trichotomy t x) as [(F & _)|[(_ & F & _)|(_ & _ & F)]];
          first [exact F | congruence]. }
      pose proof (string_ltb_trans _ _ _ G2 G1) as G.
      destruct (string_trichotomy s x) as [(_ & F & _)|[(F1 & _ & F2)|(_ & F & _)]];
        [congruence | auto | congruence].
Qed.

Lemma py_ltb_cons a la b lb :
  py_ltb (VList (a :: la)) (VList (b :: lb))
  = if py_eqb a b then py_ltb (VList la) (VList lb) else py_ltb a b.
Proof.
  unfold py_ltb.
  change (py_lt (VList (a :: la)) (VList (b :: lb)))
    with (if py_eqb a b then py_lt (VList la) (VList lb) else py_lt a b).
  destruct (py_eqb a b); reflexivity.
Qed.

(** The lexicographic order of the keys is negatively transitive, and
    equal keys are interchangeable. *)
Lemma lex_order (fa fb fc : string -> pyval) ks :
  (forall k, In k ks -> comparable3 (fa k) (fb k) (fc k)) ->
  (py_ltb (VList (map fa ks)) (VList (map fb ks)) = false ->
   py_ltb (VList (map fb ks)) (VList (map fc ks)) = false ->
   py_ltb (VList (map fa ks)) (VList (map fc ks)) = false)
  /\ (py_eqb (VList (map fa ks)) (VList (map fb ks)) = true ->
      py_eqb (VList (map fa ks)) (VList (map fc ks)) = true ->
      py_eqb (VList (map fb ks)) (VList (map fc ks)) = true).
Proof.
  induction ks as [|k ks IH]; intros Hc; cbn [map]; [auto|].
  rewrite !py_ltb_cons.
  change (py_eqb (VList (fa k :: map fa ks)) (VList (fb k :: map fb ks)))
    with (py_eqb (fa k) (fb k) && py_eqb (VList (map fa ks)) (VList (map fb ks))).
  change (py_eqb (VList (fa k :: map fa ks)) (VList (fc k :: map fc ks)))
    with (py_eqb (fa k) (fc k) && py_eqb (VList (map fa ks)) (VList (map fc ks))).
  change (py_eqb (VList (fb k :: map fb ks)) (VList (fc k :: map fc ks)))
    with (py_eqb (fb k) (fc k) && py_eqb (VList (map fb ks)) (VList (map fc ks))).
  destruct (atom_order (Hc k (or_introl eq_refl))) as (A1 & A2 & A3).
  destruct (IH (fun k' Hk' => Hc k' (or_intror Hk'))) as [IH1 IH2].
  split.
  - destruct (py_eqb (fa k) (fb k)) eqn:Eab; destruct (py_eqb (fb k) (fc k)) eqn:Ebc;
      intros H1 H2.
    + destruct (A1 eq_refl) as [-> _]. auto.
    + destruct (A1 eq_refl) as [-> ->]. exact H2.
    + destruct (A2 eq_refl) as [-> ->]. exact H1.
    + destruct (A3 eq_refl eq_refl H1 H2) as [-> ->]. reflexivity.
  - intros H1 H2. apply andb_prop in H1 as [E1 T1]. apply andb_prop in H2 as [E2 T2].
    destruct (A1 E1) as [E3 _]. rewrite E2 in E3. rewrite <- E3.
    rewrite (IH2 T1 T2). reflexivity.
Qed.

Lemma populated_fields3 a b c k :
  populated a -> populated b -> populated c -> In k Utils.allPassSortPriority ->
  comparable3 (key_field a k) (key_field b k) (key_field c k).
Proof.
  intros [Han Has] [Hbn Hbs] [Hcn Hcs] Hk. rewrite Forall_forall in *.
  rewrite priority_keys in Hk. apply in_app_or in Hk as [Hk|Hk].
  - destruct (Han k Hk) as (u & p & Hu & Hp). destruct (Hbn k Hk) as (v & q & Hv & Hq).
    destruct (Hcn k Hk) as (w & r & Hw & Hr).
    left. exists p, q, r. unfold key_field. rewrite Hu, Hv, Hw. auto.
  - destruct (Has k Hk) as (s & Hs). destruct (Hbs k Hk) as (t & Ht).
    destruct (Hcs k Hk) as (x & Hx).
    right. exists s, t, x. unfold key_field. rewrite Hs, Ht, Hx. auto.
Qed.

Lemma key_lt_populated x y :
  populated x -> populated y -> key_lt x y = py_ltb (entry_key x) (entry_key y).
Proof.
  intros Hx Hy. unfold key_lt.
  rewrite (sort_key_populated Hx), (sort_key_populated Hy). reflexivity.
Qed.

Lemma same_key_populated x y :
  populated x -> populated y -> same_key x y = py_eqb (entry_key x) (entry_key y).
Proof.
  intros Hx Hy. unfold same_key.
  rewrite (sort_key_populated Hx), (sort_key_populated Hy). reflexivity.
Qed.

Lemma key_lt_asym a b :
  populated a -> populated b -> key_lt a b = true -> key_lt b a = false.
Proof.
  intros Ha Hb. rewrite !key_lt_populated by assumption. unfold entry_key, py_ltb.
  destruct (list_trichotomy (populated_comparable Ha Hb))
    as (lt & gt & -> & -> & Htri & _).
  destruct Htri as [(_ & -> & _)|[(-> & _)|(-> & _)]]; auto; discriminate.
Qed.

Lemma key_lt_ntrans a b c :
  populated a -> populated b -> populated c ->
  key_lt a b = false -> key_lt b c = false -> key_lt a c = false.
Proof.
  intros Ha Hb Hc. rewrite !key_lt_populated by assumption. unfold entry_key.
  apply lex_order. intros k Hk. apply populated_fields3; assumption.
Qed.

(** Entries whose keys equal the key of [x0] are not ordered by [<]. *)
Lemma same_key_not_lt x0 x y :
  populated x0 -> populated x -> populated y ->
  same_key x0 x = true -> same_key x0 y = true -> key_lt y x = false.
Proof.
  intros H0 Hx Hy. rewrite !same_key_populated, key_lt_populated by assumption.
  unfold entry_key. intros E1 E2.
  assert (E : py_eqb (VList (map (key_field y) Utils.allPassSortPriority))
                (VList (map (key_field x) Utils.allPassSortPriority)) = true).
  { refine (proj2 (@lex_order (key_field x0) (key_field y) (key_field x) _ _) E2 E1).
    intros k Hk. apply populated_fields3; assumption. }
  destruct (list_trichotomy (populated_comparable Hy Hx)) as (lt & gt & Hlt & _ & Htri & _).
  unfold py_ltb. rewrite Hlt.
  destruct Htri as [(_ & _ & F)|[(_ & _ & F)|(-> & _)]]; congruence.
Qed.

(** *** Insertion sort is stable, and orders a list over a domain on
    which [ltb] is asymmetric and negatively transitive *)

Section Stable.

Context {E : Type}.
Variable ltb : E -> E -> bool.
Variable p : E -> bool.

Lemma pinsert_filter x s :
  (forall y, In y s -> p x = true -> p y = true -> ltb y x = false) ->
  filter p (pinsert ltb x s) = if p x then x :: filter p s else filter p s.
Proof.
  induction s as [|y s IH]; intros H; cbn [pinsert filter].
  - reflexivity.
  - destruct (ltb y x) eqn:Hyx; cbn [filter].
    + rewrite IH by (intros z Hz; apply H; right; exact Hz).
      destruct (p x) eqn:Hx; destruct (p y) eqn:Hy; try reflexivity.
      rewrite (H y (or_introl eq_refl) eq_refl Hy) in Hyx. discriminate.
    + reflexivity.
Qed.

Lemma psort_stable l :
  (forall x y, In x l -> In y l -> p x = true -> p y = true -> ltb y x = false) ->
  filter p (psort ltb l) = filter p l.
Proof.
  induction l as [|x l IH]; intros H; cbn [psort filter]; [reflexivity|].
  rewrite pinsert_filter.
  - rewrite IH; [reflexivity|]. intros a b Ha Hb. apply H; right; assumption.
  - intros y Hy. apply psort_in in Hy. apply H; [left; reflexivity | right; exact Hy].
Qed.

Variable D : E -> Prop.
Hypothesis asym : forall a b, D a -> D b -> ltb a b = true -> ltb b a = false.
Hypothesis ntrans : forall a b c, D a -> D b -> D c ->
  ltb a b = false -> ltb b c = false -> ltb a c = false.

Lemma pinsert_sorted x s :
  D x -> Forall D s ->
  StronglySorted (fun a b => ltb b a = false) s ->
  StronglySorted (fun a b => ltb b a = false) (pinsert ltb x s).
Proof.
  intros Hx Hs Hsorted. revert Hs.
  induction Hsorted as [|y s Hs' IH Hy]; intros Hs; cbn [pinsert].
  - repeat constructor.
  - inversion Hs as [|? ? Dy Ds]; subst.
    destruct (ltb y x) eqn:Hyx.
    + constructor; [apply IH; exact Ds|].
      apply Forall_forall. intros z Hz. apply pinsert_in in Hz as [->|Hz].
      * apply asym; assumption.
      * rewrite Forall_forall in Hy. auto.
    + constructor; [constructor; assumption|].
      constructor; [exact Hyx|].
      rewrite Forall_forall in *. intros z Hz.
      apply (@ntrans z y x); auto.
Qed.

Lemma psort_sorted l :
  Forall D l -> StronglySorted (fun a b => ltb b a = false) (psort ltb l).
Proof.
  induction 1 as [|x l Hx Hl IH]; cbn [psort]; [constructor|].
  apply pinsert_sorted; [exact Hx | | exact IH].
  apply Forall_forall. intros z Hz. apply psort_in in Hz.
  rewrite Forall_forall in Hl. auto.
Qed.

End Stable.

Lemma filter_rev_comm {A} (f : A -> bool) l : filter f (rev l) = rev (filter f l).
Proof.
  induction l as [|x l IH]; simpl; [reflexivity|].
  rewrite filter_app, IH. simpl. destruct (f x); simpl; [reflexivity|].
  rewrite app_nil_r. reflexivity.
Qed.

(** On populated entries the sort of [searchAllPlayers] is the insertion
    sort by the composite key. *)
Lemma sort_leaderboard_populated reverse lb :
  Forall populated lb ->
  sort_leaderboard "rankedScore" reverse lb =
  Ret (if reverse then rev (psort key_lt lb) else psort key_lt lb).
Proof.
  intros Hp. rewrite Forall_forall in Hp. unfold sort_leaderboard.
  change (list_remove "rankedScore" Utils.allPassSortPriority)
    with (Ret (tl Utils.allPassSortPriority)).
  cbn [bind].
  change ("rankedScore" :: tl Utils.allPassSortPriority) with Utils.allPassSortPriority.
  rewrite (sorted_pure _ entry_key).
  - cbn [bind].
    rewrite (@psort_ext _ (fun x y => py_ltb (entry_key x) (entry_key y)) key_lt);
      [reflexivity|].
    intros a b Ha Hb. symmetry. apply key_lt_populated; auto.
  - intros x Hx. apply sort_key_populated. apply Hp. exact Hx.
  - intros x y Hx Hy. unfold entry_key.
    destruct (list_trichotomy (populated_comparable (Hp x Hx) (Hp y Hy)))
      as (lt & gt & Hlt & _). rewrite Hlt. reflexivity.
Qed.

(** C9, as the code has it.  The composite keys of two populated entries
    compare without raising and fall in exactly one of three cases: the
    first is smaller, the second is smaller, or they are equal; they are
    equal exactly when the entries agree on all eleven key fields, so
    entries with different player names are strictly ordered.  On a
    leaderboard of populated entries the sort returns the same entries,
    in order of their keys, smallest first, or greatest first when
    [reverse] is set; entries with equal keys stay in their input order,
    which [reverse] turns around. *)
Theorem leaderboard_key_trichotomy :
  (forall a b : dict,
     populated a -> populated b ->
     exists ka kb lt gt,
       sort_key Utils.allPassSortPriority a = Ret ka
       /\ sort_key Utils.allPassSortPriority b = Ret kb
       /\ py_lt ka kb = Ret lt /\ py_lt kb ka = Ret gt
       /\ trichotomy lt gt (py_eqb ka kb)
       /\ (py_eqb ka kb = true <->
           forall k, In k Utils.allPassSortPriority ->
                     py_eqb (key_field a k) (key_field b k) = true)
       /\ (py_eqb (key_field a "player") (key_field b "player") = false ->
           lt = true \/ gt = true))
  /\ (forall (lb : list dict) (reverse : bool),
        Forall populated lb ->
        exists result,
          sort_leaderboard "rankedScore" reverse lb = Ret result
          /\ Permutation result lb
          /\ StronglySorted (fun x y => key_lt y x = false)
               (if reverse then rev result else result)
          /\ forall x, populated x ->
               filter (same_key x) result
               = if reverse then rev (filter (same_key x) lb)
                 else filter (same_key x) lb).
Proof.
  split.
  - intros a b Ha Hb.
    rewrite (sort_key_populated Ha), (sort_key_populated Hb).
    pose proof (populated_comparable Ha Hb) as Hc.
    destruct (list_trichotomy Hc) as (lt & gt & Hlt & Hgt & Htri & Heq).
    exists (VList (map (key_field a) Utils.allPassSortPriority)),
           (VList (map (key_field b) Utils.allPassSortPriority)), lt, gt.
    split; [reflexivity|]. split; [reflexivity|].
    split; [exact Hlt|]. split; [exact Hgt|]. split; [exact Htri|].
    assert (Hall : py_eqb (VList (map (key_field a) Utils.allPassSortPriority))
                     (VList (map (key_field b) Utils.allPassSortPriority)) = true <->
                   forall k, In k Utils.allPassSortPriority ->
                             py_eqb (key_field a k) (key_field b k) = true).
    { rewrite Heq. clear.
      induction Utils.allPassSortPriority as [|k ks IH]; simpl.
      - split; [intros _ k [] | constructor].
      - split.
        + intros HF k' [<-|Hk']; inversion HF; subst; [assumption|].
          apply IH; assumption.
        + intros HF. constructor; [apply HF; auto|]. apply IH. auto. }
    split; [exact Hall|].
    intros Hname.
    destruct Htri as [(-> & _)|[(_ & -> & _)|(_ & _ & E)]]; auto.
    exfalso. rewrite Hall in E.
    rewrite (E "player") in Hname; [discriminate|]. simpl. tauto.
  - intros lb reverse Hp.
    rewrite (sort_leaderboard_populated reverse Hp).
    eexists. split; [reflexivity|].
    assert (S : StronglySorted (fun x y => key_lt y x = false) (psort key_lt lb)).
    { apply (@psort_sorted _ key_lt populated key_lt_asym key_lt_ntrans). exact Hp. }
    rewrite Forall_forall in Hp.
    assert (F : forall x, populated x ->
                  filter (same_key x) (psort key_lt lb) = filter (same_key x) lb).
    { intros x Hx. apply psort_stable. intros a b Ha Hb Ea Eb.
      apply (@same_key_not_lt x a b); auto. }
    split; [|split].
    + destruct reverse; [rewrite <- Permutation_rev|]; apply psort_perm.
    + destruct reverse; [rewrite rev_involutive|]; exact S.
    + intros x Hx. destruct reverse; [rewrite filter_rev_comm|]; rewrite (F x Hx);
        reflexivity.
Qed.

(** C9 fails as stated: [playerId] is not part of the key, so two distinct
    players with the same name and statistics compare equal; the sort
    leaves them in input order, and in the opposite order with
    [reverse]. *)
Lemma leaderboard_key_trichotomy_counterexample :
  sample_entry 1 <> sample_entry 2
  /\ exists ka kb,
       sort_key Utils.allPassSortPriority (sample_entry 1) = Ret ka
       /\ sort_key Utils.allPassSortPriority (sample_entry 2) = Ret kb
       /\ py_lt ka kb = Ret false /\ py_lt kb ka = Ret false
       /\ sort_leaderboard "rankedScore" false [sample_entry 2; sample_entry 1]
          = Ret [sample_entry 2; sample_entry 1]
       /\ sort_leaderboard "rankedScore" false [sample_entry 1; sample_entry 2]
          = Ret [sample_entry 1; sample_entry 2]
       /\ sort_leaderboard "rankedScore" true [sample_entry 1; sample_entry 2]
          = Ret [sample_entry 2; sample_entry 1].
Proof.
  split; [discriminate|].
  do 2 eexists. repeat split; vm_compute; reflexivity.
Qed.

Lemma sample_entry_populated i : populated (sample_entry i).
Proof. split; repeat constructor; repeat eexists; vm_compute; reflexivity. Qed.

Lemma leaderboard_key_trichotomy_witness :
  (exists ka kb lt gt,
     sort_key Utils.allPassSortPriority (sample_entry 1) = Ret ka
     /\ sort_key Utils.allPassSortPriority (sample_entry 2) = Ret kb
     /\ py_lt ka kb = Ret lt /\ py_lt kb ka = Ret gt
     /\ trichotomy lt gt (py_eqb ka kb)
     /\ (py_eqb ka kb = true <->
         forall k, In k Utils.allPassSortPriority ->
                   py_eqb (key_field (sample_entry 1) k) (key_field (sample_entry 2) k) = true)
     /\ (py_eqb (key_field (sample_entry 1) "player") (key_field (sample_entry 2) "player") = false ->
         lt = true \/ gt = true))
  /\ (exists result,
        sort_leaderboard "rankedScore" true [sample_entry 1; sample_entry 2] = Ret result
        /\ Permutation result [sample_entry 1; sample_entry 2]
        /\ StronglySorted (fun x y => key_lt y x = false) (rev result)
        /\ forall x, populated x ->
             filter (same_key x) result
             = rev (filter (same_key x) [sample_entry 1; sample_entry 2])).
Proof.
  split.
  - apply (proj1 leaderboard_key_trichotomy); apply sample_entry_populated.
  - apply (proj2 leaderboard_key_trichotomy [sample_entry 1; sample_entry 2] true).
    apply Forall_cons; [apply sample_entry_populated|].
    apply Forall_cons; [apply sample_entry_populated | apply Forall_nil].
Defined.

(* ================================================================== *)
(** * Further properties                                               *)
(* ================================================================== *)

(** ** getXacc: the two branches *)

Lemma getXacc_list_ints (d0 s1 e2 p3 l4 s5 d6 : Z) :
  Utils.getXacc (judgements_of [d0; s1; e2; p3; l4; s5; d6]) =
  py_div (VFloat (weighted d0 s1 e2 p3 l4 s5 d6))
         (VInt (d0 + s1 + e2 + p3 + l4 + s5 + d6)).
Proof. reflexivity. Qed.




Lemma getXacc_dict_ints d eD eS eP p lP lS lD :
  named_counts d eD eS eP p lP lS lD ->
  Utils.getXacc (VDict d) =
  if Qltb 0 (inject_Z (p + eP + lP + eS + lS + eD + lD))
  then Ret (VFloat (weighted eD eS eP p lP lS lD
                    / inject_Z (p + eP + lP + eS + lS + eD + lD)))
  else Ret (VFloat 0.95).
Proof.
  intros (HeD & HeS & HeP & Hp & HlP & HlS & HlD).
  unfold Utils.getXacc. cbn [getitem mapM].
  rewrite HeD, HeS, HeP, Hp, HlP, HlS, HlD.
  qsimp. fold (weighted eD eS eP p lP lS lD).
  change (inject_Z 0) with 0.
  destruct (Qltb 0 (inject_Z (p + eP + lP + eS + lS + eD + lD))) eqn:E;
    [|reflexivity].
  apply Qltb_lt in E.
  assert (Hnz : Qeq_bool (inject_Z (p + eP + lP + eS + lS + eD + lD)) 0 = false)
    by (apply Qeq_bool_false; lra).
  rewrite Hnz. reflexivity.
Qed.

(** X2. On integer counts the two branches of [getXacc] agree when the counts
    sum to more than zero.  When they sum to zero or less the named branch
    answers [0.95]; the positional branch raises [ZeroDivisionError] on a
    zero sum. *)
Theorem getXacc_named_positional d eD eS eP p lP lS lD :
  named_counts d eD eS eP p lP lS lD ->
  ((0 < eD + eS + eP + p + lP + lS + lD)%Z ->
     Utils.getXacc (VDict d)
     = Utils.getXacc (judgements_of [eD; eS; eP; p; lP; lS; lD]))
  /\ ((eD + eS + eP + p + lP + lS + lD <= 0)%Z ->
     Utils.getXacc (VDict d) = Ret (VFloat 0.95))
  /\ ((eD + eS + eP + p + lP + lS + lD = 0)%Z ->
     Utils.getXacc (judgements_of [eD; eS; eP; p; lP; lS; lD])
     = Raise ZeroDivisionError).
Proof.
  intros Hd. rewrite (getXacc_dict_ints Hd), getXacc_list_ints.
  assert (ES : (p + eP + lP + eS + lS + eD + lD
                = eD + eS + eP + p + lP + lS + lD)%Z) by lia.
  rewrite ES. clear ES.
  set (S := (eD + eS + eP + p + lP + lS + lD)%Z).
  unfold py_div; cbn [as_num].
  split; [|split]; intros HS.
  - assert (H : 0 < inject_Z S).
    { change 0 with (inject_Z 0). rewrite <- Zlt_Qlt. exact HS. }
    assert (H1 : Qltb 0 (inject_Z S) = true) by (apply Qltb_lt; exact H).
    assert (H2 : Qeq_bool (inject_Z S) 0 = false) by (apply Qeq_bool_false; lra).
    rewrite H1, H2. reflexivity.
  - assert (H : inject_Z S <= 0).
    { change 0 with (inject_Z 0). rewrite <- Zle_Qle. exact HS. }
    assert (H1 : Qltb 0 (inject_Z S) = false) by (apply Qltb_ge; exact H).
    rewrite H1. reflexivity.
  - rewrite HS. reflexivity.
Qed.

Lemma getXacc_named_positional_witness :
  ((0 < 15 + 0 + 0 + 2000 + 0 + 0 + 0)%Z ->
     Utils.getXacc (VDict ref_judgements)
     = Utils.getXacc (judgements_of [15; 0; 0; 2000; 0; 0; 0]%Z))
  /\ ((15 + 0 + 0 + 2000 + 0 + 0 + 0 <= 0)%Z ->
     Utils.getXacc (VDict ref_judgements) = Ret (VFloat 0.95))
  /\ ((15 + 0 + 0 + 2000 + 0 + 0 + 0 = 0)%Z ->
     Utils.getXacc (judgements_of [15; 0; 0; 2000; 0; 0; 0]%Z)
     = Raise ZeroDivisionError).
Proof.
  apply (@getXacc_named_positional ref_judgements 15 0 0 2000 0 0 0).
  repeat split.
Defined.

(** *** The fallback of the named branch *)

Lemma py_add_nonnum a x q :
  as_num a = Some q -> as_num x = None -> py_add a x = Raise TypeError.
Proof.
  intros Ha Hx. unfold py_add.
  assert (Hi : as_int x = None) by (destruct x; simpl in *; congruence).
  rewrite Hi, Hx.
  destruct (as_int a); destruct a; simpl in *; try discriminate; reflexivity.
Qed.

Lemma py_add_num_num a x p q :
  as_num a = Some p -> as_num x = Some q ->
  exists v r, py_add a x = Ret v /\ as_num v = Some r /\ r == p + q.
Proof.
  intros Ha Hx. unfold py_add. rewrite Ha, Hx.
  destruct (as_num_cases _ Ha) as [(i & Hi & ->)|(Hi & ->)];
    destruct (as_num_cases _ Hx) as [(j & Hj & ->)|(Hj & ->)];
    rewrite ?Hi, ?Hj; simpl;
    do 2 eexists; (split; [reflexivity|]; split; [reflexivity|]);
    rewrite ?inject_Z_plus; reflexivity.
Qed.

Lemma py_sum_list_raised l : forall e,
  fold_left (fun acc x => a <- acc ;; py_add a x) l (Raise e) = Raise e.
Proof. induction l as [|z l IH]; intros e; simpl; [reflexivity | apply IH]. Qed.

(** [sum] raises on a list that holds something that is not a number. *)
Lemma py_sum_list_nonnum l x :
  In x l -> as_num x = None -> raises (py_sum_list l) = true.
Proof.
  unfold py_sum_list. intros Hin Hx.
  assert (G : forall l a q,
             In x l -> as_num a = Some q ->
             raises (fold_left (fun acc x => a <- acc ;; py_add a x) l (Ret a))
             = true).
  { clear l Hin. induction l as [|y l IH]; intros a q Hin Ha; [contradiction|].
    cbn [fold_left bind]. destruct (as_num y) as [r|] eqn:Hy.
    - destruct (py_add_num_num _ _ Ha Hy) as (v & s & Hv & Hs & _).
      rewrite Hv. apply (IH v s); [|exact Hs].
      destruct Hin as [->|Hin]; [congruence | exact Hin].
    - rewrite (py_add_nonnum _ _ Ha Hy), py_sum_list_raised. reflexivity. }
  apply (G l (VInt 0) (inject_Z 0)); [exact Hin | reflexivity].
Qed.

(** X3. A judgement mapping that lacks one of the seven names, or holds
    something that is not a number under one of them, has accuracy
    [0.95]: the handler of the named branch answers for it. *)
Theorem getXacc_dict_fallback (d : dict) (k : string) :
  In k judgement_names ->
  (forall v, dict_get d k = Some v -> as_num v = None) ->
  Utils.getXacc (VDict d) = Ret (VFloat 0.95).
Proof.
  intros Hk Hbad.
  destruct (getXacc_dict_total d) as (q & Hq).
  rewrite Hq. unfold Utils.getXacc in Hq.
  match type of Hq with try_except ?c _ _ = _ => set (body := c) in * end.
  assert (Hr : raises body = true).
  { destruct body as [r|e] eqn:Hb; [|reflexivity]. exfalso.
    subst body.
    apply bind_ret in Hb as (total & _ & Hb).
    apply bind_ret in Hb as (count & Hc & _).
    apply bind_ret in Hc as (l & Hl & Hsum).
    apply mapM_Forall2 in Hl.
    assert (Hin : In k [ "perfect"; "ePerfect"; "lPerfect"; "earlySingle";
                         "lateSingle"; "earlyDouble"; "lateDouble" ]).
    { simpl in Hk. simpl. intuition. }
    destruct (@Forall2_in_combine _ _ _ _ _ k Hl Hin) as (y & Hy & Hyc).
    apply in_combine_l in Hyc.
    simpl in Hy. destruct (dict_get d k) as [v|] eqn:Hv; [|discriminate].
    injection Hy as ->.
    pose proof (py_sum_list_nonnum _ _ Hyc (Hbad y eq_refl)) as Hs.
    rewrite Hsum in Hs. discriminate. }
  destruct body as [r|e]; [discriminate|].
  simpl in Hq. destruct (Utils.handled_getXacc e); [|discriminate].
  unfold flt in Hq. congruence.
Qed.

Lemma getXacc_dict_fallback_witness :
  Utils.getXacc (VDict (dict_set zero_judgements "lPerfect" (VStr "3")))
  = Ret (VFloat 0.95).
Proof.
  apply (@getXacc_dict_fallback _ "lPerfect").
  - simpl. tauto.
  - intros v Hv. vm_compute in Hv. injection Hv as <-. reflexivity.
Defined.

(** ** getXaccMtp: the range of the multiplier *)

Lemma xacc_curve_bounds (a : Q) :
  0.95 <= a -> a < 1 ->
  1 <= -0.027 / (a - 1.0054) + 0.513 < 5.513.
Proof.
  intros Hlo Hhi. split.
  - apply Qle_trans with (-0.027 / (0.95 - 1.0054) + 0.513).
    + apply Qle_bool_iff. vm_compute. reflexivity.
    + apply xacc_curve_mono; assumption.
  - assert (E : -0.027 / (a - 1.0054) == 0.027 / (1.0054 - a)).
    { field. split; intros E0; lra. }
    rewrite E.
    assert (H : 0.027 / (1.0054 - a) < 5).
    { apply Qlt_shift_div_r; lra. }
    lra.
Qed.

(** X4. With [a] the accuracy of the judgements: above [1] the function falls
    off its end and returns [None]; up to [1] it returns a number between
    [1] and [10], which stays below [5.513] as long as [a] is below [1]. *)
Theorem getXaccMtp_range (inp : pyval) (a : Q) :
  Utils.getXacc inp = Ret (VFloat a) ->
  (1 < a -> Utils.getXaccMtp inp = Ret VNone)
  /\ (a <= 1 ->
      exists v m, Utils.getXaccMtp inp = Ret v /\ as_num v = Some m
                  /\ 1 <= m <= 10 /\ (a < 1 -> m < 5.513)).
Proof.
  intros Ha. rewrite (@getXaccMtp_unfold _ _ Ha).
  assert (H95 : Qltb (a * inject_Z 100) (inject_Z 95) = true <-> a < 0.95).
  { rewrite Qltb_lt. unfold inject_Z. split; intros; lra. }
  assert (H100 : Qltb (a * inject_Z 100) (inject_Z 100) = true <-> a < 1).
  { rewrite Qltb_lt. unfold inject_Z. split; intros; lra. }
  assert (Heq : Qeq_bool (a * inject_Z 100) (inject_Z 100) = true <-> a == 1).
  { rewrite Qeq_bool_iff. unfold inject_Z. split; intros; lra. }
  destruct (Qltb (a * inject_Z 100) (inject_Z 95)) eqn:E95.
  { assert (a < 0.95) by (apply H95; reflexivity).
    split; [intros; lra|]. intros _. exists (VInt 1), 1.
    repeat split; try reflexivity; intros; lra. }
  assert (N95 : 0.95 <= a).
  { apply Qnot_lt_le. intros H. apply H95 in H. congruence. }
  destruct (Qltb (a * inject_Z 100) (inject_Z 100)) eqn:E100.
  { assert (Hlt : a < 1) by (apply H100; reflexivity).
    assert (Hnz : Qeq_bool (a - 1.0054) 0 = false) by (apply Qeq_bool_false; lra).
    rewrite Hnz. split; [intros; lra|]. intros _.
    destruct (xacc_curve_bounds N95 Hlt) as [B1 B2].
    do 2 eexists. split; [reflexivity|]. split; [reflexivity|].
    split; [split; lra | intros _; exact B2]. }
  assert (N100 : 1 <= a).
  { apply Qnot_lt_le. intros H. apply H100 in H. congruence. }
  destruct (Qeq_bool (a * inject_Z 100) (inject_Z 100)) eqn:Eeq.
  { assert (a == 1) by (apply Heq; reflexivity).
    split; [intros; lra|]. intros _. exists (VInt 10), 10.
    repeat split; try reflexivity; intros; lra. }
  split; [reflexivity|]. intros Hle. exfalso.
  assert (E : a == 1) by lra. apply Heq in E. congruence.
Qed.

Lemma getXaccMtp_range_witness :
  (1 < 1.8000 -> Utils.getXaccMtp (judgements_of [-1; 0; 0; 2; 0; 0; 0]%Z) = Ret VNone)
  /\ (1.8000 <= 1 ->
      exists v m,
        Utils.getXaccMtp (judgements_of [-1; 0; 0; 2; 0; 0; 0]%Z) = Ret v
        /\ as_num v = Some m /\ 1 <= m <= 10 /\ (1.8000 < 1 -> m < 5.513)).
Proof.
  assert (H : Utils.getXacc (judgements_of [-1; 0; 0; 2; 0; 0; 0]%Z)
              = Ret (VFloat 1.8000)) by (vm_compute; reflexivity).
  exact (getXaccMtp_range _ H).
Defined.

(** ** getSpeedMtp: ranges *)

Lemma speedMultiplier_spec_range (s : Q) :
  (s < 1 -> speedMultiplier_spec (Some s) == 0)
  /\ (1 <= s -> 0.65 <= speedMultiplier_spec (Some s) <= 1)
  /\ (2 <= s -> speedMultiplier_spec (Some s) == 1).
Proof.
  unfold speedMultiplier_spec.
  destruct (Qeq_bool s 1) eqn:E1.
  { apply Qeq_bool_iff in E1. repeat split; intros; lra. }
  apply Qeq_bool_false in E1.
  destruct (Qltb s 1) eqn:L1.
  { apply Qltb_lt in L1. repeat split; intros; lra. }
  apply Qltb_ge in L1.
  destruct (Qltb s 1.1) eqn:L2.
  { apply Qltb_lt in L2. repeat split; intros; lra. }
  apply Qltb_ge in L2.
  destruct (Qltb s 1.5) eqn:L3.
  { apply Qltb_lt in L3. repeat split; intros; lra. }
  apply Qltb_ge in L3.
  destruct (Qltb s 2) eqn:L4.
  { apply Qltb_lt in L4. repeat split; intros; lra. }
  apply Qltb_ge in L4. repeat split; intros; lra.
Qed.



Lemma truthy_num x s : as_num x = Some s -> truthy x = negb (Qeq_bool s 0).
Proof.
  destruct x; simpl; intros H; try discriminate; injection H as <-.
  - destruct b; reflexivity.
  - f_equal. destruct (Z.eqb_spec z 0) as [->|Hne]; [reflexivity|].
    symmetry. apply Qeq_bool_false. intros E. apply Hne.
    unfold Qeq in E. simpl in E. lia.
  - reflexivity.
Qed.

Lemma py_sub_int_num x s :
  as_num x = Some s ->
  exists v q, py_sub (VInt 2) x = Ret v /\ as_num v = Some q /\ q == 2 - s.
Proof.
  intros Hx. unfold py_sub. cbn [as_int as_num]. rewrite Hx.
  destruct (as_num_cases _ Hx) as [(i & Hi & ->)|(Hi & ->)]; rewrite Hi;
    do 2 eexists; (split; [reflexivity|]; split; [reflexivity|]).
  - rewrite <- Z.add_opp_r, inject_Z_plus, inject_Z_opp. reflexivity.
  - reflexivity.
Qed.

(** X6. The speed multiplier of the special variant.  An absent speed, speed
    [0] and speed [1] give [1]; a speed above [1] gives [2 - speed], which
    is negative beyond speed [2]; any other speed falls through to the
    ordinary curve, which gives [0] below [1]. *)
Theorem getSpeedMtp_special_values (speed : pyval) (so : option Q) :
  speed_arg speed = Some so ->
  exists v q,
    Utils.getSpeedMtp speed true = Ret v /\ as_num v = Some q
    /\ (so = None -> q == 1)
    /\ (forall s, so = Some s ->
          (s == 0 \/ s == 1 -> q == 1)
          /\ (1 < s -> q == 2 - s)
          /\ (s < 1 -> ~ s == 0 -> q == 0)).
Proof.
  intros Hs.
  assert (Hnum : speed = VNone /\ so = None
                 \/ exists s, as_num speed = Some s /\ so = Some s).
  { destruct speed; simpl in *; try discriminate; injection Hs as <-; eauto 6. }
  destruct Hnum as [[-> ->]|(s & Hnum & ->)].
  { exists (VInt 1), 1. split; [reflexivity|]. split; [reflexivity|].
    split; [reflexivity | discriminate]. }
  destruct (getSpeedMtp_general _ Hs) as (gv & gq & Hg & Hgq & Eg).
  destruct (speedMultiplier_spec_range s) as (R0 & _ & _).
  unfold Utils.getSpeedMtp in *.
  rewrite (truthy_num _ Hnum), negb_involutive.
  rewrite (py_eqb_num _ (VInt 1) Hnum eq_refl) in Hg |- *.
  change (inject_Z 1) with 1 in Hg |- *.
  destruct (Qeq_bool s 0) eqn:E0.
  { apply Qeq_bool_iff in E0. exists (VInt 1), 1.
    split; [reflexivity|]. split; [reflexivity|]. split; [reflexivity|].
    intros s' [= <-]. repeat split; intros; try reflexivity; try lra. }
  apply Qeq_bool_false in E0.
  destruct (Qeq_bool s 1) eqn:E1.
  { clear Hg. apply Qeq_bool_iff in E1. exists (VInt 1), 1.
    split; [reflexivity|]. split; [reflexivity|]. split; [reflexivity|].
    intros s' [= <-]. repeat split; intros; try reflexivity; lra. }
  apply Qeq_bool_false in E1.
  cbn [orb]. unfold lift2 at 1, int at 1. cbn [bind]. unfold py_gt.
  rewrite (py_lt_num (VInt 1) _ eq_refl Hnum). cbn [bind].
  change (inject_Z 1) with 1.
  destruct (Qltb 1 s) eqn:L.
  - apply Qltb_lt in L. unfold lift2, int. cbn [bind].
    destruct (py_sub_int_num _ Hnum) as (v & q & Hv & Hq & E).
    exists v, q. split; [exact Hv|]. split; [exact Hq|]. split; [discriminate|].
    intros s' [= <-].
    split; [intros [H|H]; lra|]. split; [intros _; exact E | intros; lra].
  - apply Qltb_ge in L.
    exists gv, gq. split; [exact Hg|]. split; [exact Hgq|]. split; [discriminate|].
    intros s' [= <-].
    split; [intros [H|H]; contradiction|]. split; [intros; lra|].
    intros H _. rewrite Eg. apply R0. exact H.
Qed.

Lemma getSpeedMtp_special_values_witness :
  exists v q,
    Utils.getSpeedMtp (VFloat 2.5) true = Ret v /\ as_num v = Some q
    /\ (Some 2.5 = None -> q == 1)
    /\ (forall s, Some 2.5 = Some s ->
          (s == 0 \/ s == 1 -> q == 1)
          /\ (1 < s -> q == 2 - s)
          /\ (s < 1 -> ~ s == 0 -> q == 0)).
Proof.
  exact (@getSpeedMtp_special_values (VFloat 2.5) (Some 2.5) eq_refl).
Defined.

(** ** getScoreV2Mtp *)

Lemma Qfloor_div_315 t : Qfloor (inject_Z t / inject_Z 315) = (t / 315)%Z.
Proof.
  unfold Qdiv, Qmult, Qinv, inject_Z, Qfloor. simpl. rewrite Z.mul_1_r. reflexivity.
Qed.

Lemma Qle_bool_inject a b : Qle_bool (inject_Z a) (inject_Z b) = (a <=? b)%Z.
Proof.
  unfold Qle_bool, inject_Z. simpl. rewrite !Z.mul_1_r. reflexivity.
Qed.

Lemma Qltb_inject a b : Qltb (inject_Z a) (inject_Z b) = (a <? b)%Z.
Proof.
  unfold Qltb. rewrite Qle_bool_inject. rewrite Z.ltb_antisym. reflexivity.
Qed.

Lemma bisect_unit n y fuel : forall lo step,
  0 <= lo -> 0 <= step -> lo + 2 * step <= 1 ->
  0 <= bisect n y lo step fuel <= 1.
Proof.
  induction fuel as [|fuel IH]; intros lo step Hlo Hstep Hsum; cbn [bisect].
  - lra.
  - assert (Em : Qred (lo + step) == lo + step) by apply Qred_correct.
    assert (Es : Qred (step / 2) == step / 2) by apply Qred_correct.
    assert (Eh : step / 2 == step * (1 # 2)) by (field).
    destruct (Qle_bool (Qred (lo + step) ^ Z.pos n) y); apply IH; lra.
Qed.

Lemma pow_approx_unit : pow_unit pow_approx.
Proof.
  intros x _. unfold pow_approx. apply bisect_unit; lra.
Qed.

(** X7. The miss penalty of a pass with [m] misses (the first judgement
    count) on [t] tiles.  No miss at all earns [1.1]; otherwise the
    penalty depends on the effective misses [a]: [1] for none, [0.9] for
    one, between [0.7] and [0.9] up to [25], between [0.5] and [0.7] up to
    [50], and [0.5] beyond. *)
Theorem getScoreV2Mtp_range (pow : Q -> Q -> Q) (m t : Z) (rest : list pyval) :
  pow_unit pow ->
  let a := effective_misses m t in
  exists v q,
    Utils.getScoreV2Mtp pow (VInt t) (VList (VInt m :: rest)) = Ret v
    /\ as_num v = Some q
    /\ (m = 0%Z -> q == 1.1)
    /\ (m <> 0%Z ->
        (a = 0%Z -> q == 1)
        /\ (a = 1%Z -> q == 0.9)
        /\ ((1 < a <= 25)%Z -> 0.7 <= q <= 0.9)
        /\ ((25 < a <= 50)%Z -> 0.5 <= q <= 0.7)
        /\ ((50 < a)%Z -> q == 0.5)).
Proof.
  intros Hpow a.
  enough (G : match Utils.getScoreV2Mtp pow (VInt t) (VList (VInt m :: rest)) with
              | Ret v =>
                  exists q, as_num v = Some q
                    /\ (m = 0%Z -> q == 1.1)
                    /\ (m <> 0%Z ->
                        (a = 0%Z -> q == 1)
                        /\ (a = 1%Z -> q == 0.9)
                        /\ ((1 < a <= 25)%Z -> 0.7 <= q <= 0.9)
                        /\ ((25 < a <= 50)%Z -> 0.5 <= q <= 0.7)
                        /\ ((50 < a)%Z -> q == 0.5))
              | Raise _ => False
              end).
  { destruct (Utils.getScoreV2Mtp pow (VInt t) (VList (VInt m :: rest))) as [v|e];
      [|contradiction].
    destruct G as (q & G). exists v, q. split; [reflexivity | exact G]. }
  unfold Utils.getScoreV2Mtp.
  cbn [getidx List.length Z.of_nat Z.ltb Z.leb Z.compare orb nth_error
       Z.to_nat bind truthy].
  rewrite negb_involutive.
  destruct (Z.eqb_spec m 0) as [Em|Em].
  { exists 1.1. split; [reflexivity|].
    split; [reflexivity | contradiction]. }
  unfold lift2, int, flt, start, end', startDeduc, endDeduc, gmConst, pwr.
  cbn [bind py_add as_int py_div as_num].
  change (Qeq_bool (inject_Z 2) 0) with false.
  change (Qeq_bool (inject_Z 315) 0) with false.
  change (Qeq_bool (inject_Z 100) 0) with false.
  cbn [bind Utils.m_floor py_sub as_int as_num].
  rewrite Qfloor_div_315.
  unfold py_max, py_gt. cbn [py_lt as_num bind].
  rewrite Qltb_inject.
  assert (Ek : (if (0 <? m - t / 315)%Z then VInt (m - t / 315) else VInt 0)
               = VInt a).
  { subst a. unfold effective_misses.
    destruct (Z.ltb_spec 0 (m - t / 315)); f_equal; lia. }
  rewrite Ek. clear Ek.
  assert (Ha : (0 <= a)%Z) by (subst a; unfold effective_misses; lia).
  clearbody a.
  cbn [py_le as_num bind]. rewrite !Qle_bool_inject.
  destruct (Z.leb_spec a 0) as [H0|H0].
  { exists 1. split; [reflexivity|].
    split; [contradiction|]. intros _.
    repeat split; intros; try (exfalso; lia); reflexivity. }
  destruct (Z.leb_spec a 1) as [H1|H1].
  { cbn [bind py_sub as_int as_num]. eexists.
    split; [reflexivity|].
    split; [contradiction|]. intros _.
    repeat split; intros; try (exfalso; lia); reflexivity. }
  cbn [bind py_sub as_int as_num py_div].
  assert (Ea : (1 < a)%Z) by lia.
  rewrite Zlt_Qlt in Ea. change (inject_Z 1) with 1 in Ea.
  destruct (Qle_bool (inject_Z a) (inject_Z (1 + 50) / inject_Z 2)) eqn:E2.
  - apply Qle_bool_iff in E2.
    change (inject_Z (1 + 50) / inject_Z 2) with (51 # 2) in E2.
    change (Qeq_bool (inject_Z (1 + 50) / inject_Z 2 - inject_Z 1) 0) with false.
    cbn [bind Utils.m_pow as_num py_mul as_int py_div].
    change (Qeq_bool (inject_Z 100) 0) with false. cbn [bind as_num].
    set (x := inject_Z (a - 1) / (inject_Z (1 + 50) / inject_Z 2 - inject_Z 1)).
    assert (Hx : 0 <= x <= 1).
    { subst x. unfold Zminus. rewrite inject_Z_plus, inject_Z_opp.
      change (inject_Z (1 + 50) / inject_Z 2 - inject_Z 1) with (49 # 2).
      change (inject_Z 1) with 1.
      split.
      - apply Qle_shift_div_l; lra.
      - apply Qle_shift_div_r; lra. }
    destruct (Hpow x Hx) as [P0 P1].
    eexists. split; [reflexivity|].
    split; [contradiction|]. intros _.
    assert (Eq : inject_Z 1 - inject_Z 10 / inject_Z 100
                 - pow x 0.7 * (inject_Z (10 + 50) / inject_Z 2 - inject_Z 10)
                   / inject_Z 100
                 == 0.9 - 0.2 * pow x 0.7).
    { change (inject_Z 1) with 1. change (inject_Z 10) with 10.
      change (inject_Z 100) with 100.
      change (inject_Z (10 + 50) / inject_Z 2) with (60 # 2). field. }
    rewrite Eq.
    assert (Hle : (a <= 25)%Z).
    { destruct (Z.le_gt_cases a 25) as [H|H]; [exact H|]. exfalso.
      assert (H' : (26 <= a)%Z) by lia.
      rewrite Zle_Qle in H'. change (inject_Z 26) with 26 in H'. lra. }
    repeat split; intros; try (exfalso; lia); lra.
  - assert (E2' : Qle_bool (inject_Z a) (inject_Z (1 + 50) / inject_Z 2) = false)
      by exact E2.
    apply not_true_iff_false in E2'.
    rewrite Qle_bool_iff in E2'.
    change (inject_Z (1 + 50) / inject_Z 2) with (51 # 2) in E2'.
    assert (Hgt : (25 < a)%Z).
    { destruct (Z.le_gt_cases a 25) as [H|H]; [|lia]. exfalso. apply E2'.
      rewrite Zle_Qle in H. change (inject_Z 25) with 25 in H. lra. }
    destruct (Z.leb_spec a 50) as [H50|H50].
    + change (Qeq_bool (inject_Z 50 - inject_Z (1 + 50) / inject_Z 2) 0) with false.
      cbn [bind Utils.m_pow as_num py_mul as_int py_div py_add].
      change (Qeq_bool (inject_Z 100) 0) with false. cbn [bind as_num as_int py_add py_sub].
      set (x := inject_Z (50 - a) / (inject_Z 50 - inject_Z (1 + 50) / inject_Z 2)).
      assert (Hx : 0 <= x <= 1).
      { subst x. unfold Zminus. rewrite inject_Z_plus, inject_Z_opp.
        change (inject_Z 50 - inject_Z (1 + 50) / inject_Z 2) with (49 # 2).
        change (inject_Z 50) with 50.
        rewrite Zle_Qle in H50. change (inject_Z 50) with 50 in H50.
        assert (H26 : (26 <= a)%Z) by lia.
        rewrite Zle_Qle in H26. change (inject_Z 26) with 26 in H26.
        split.
        - apply Qle_shift_div_l; lra.
        - apply Qle_shift_div_r; lra. }
      destruct (Hpow x Hx) as [P0 P1].
      eexists. split; [reflexivity|].
      split; [contradiction|]. intros _.
      assert (Eq : inject_Z 1
                   + pow x 0.7 * (inject_Z 50 - inject_Z (10 + 50) / inject_Z 2)
                     / inject_Z 100
                   - inject_Z 50 / inject_Z 100
                   == 0.5 + 0.2 * pow x 0.7).
      { change (inject_Z 1) with 1. change (inject_Z 50) with 50.
        change (inject_Z 100) with 100.
        change (inject_Z (10 + 50) / inject_Z 2) with (60 # 2). field. }
      rewrite Eq.
      repeat split; intros; try (exfalso; lia); lra.
    + cbn [bind py_sub as_int as_num]. eexists.
      split; [reflexivity|].
      split; [contradiction|]. intros _.
      repeat split; intros; try (exfalso; lia); reflexivity.
Qed.

Lemma getScoreV2Mtp_range_witness :
  exists v q,
    Utils.getScoreV2Mtp pow_approx (VInt 2000) ref_inputs = Ret v
    /\ as_num v = Some q
    /\ (15%Z = 0%Z -> q == 1.1)
    /\ (15%Z <> 0%Z ->
        (effective_misses 15 2000 = 0%Z -> q == 1)
        /\ (effective_misses 15 2000 = 1%Z -> q == 0.9)
        /\ ((1 < effective_misses 15 2000 <= 25)%Z -> 0.7 <= q <= 0.9)
        /\ ((25 < effective_misses 15 2000 <= 50)%Z -> 0.5 <= q <= 0.7)
        /\ ((50 < effective_misses 15 2000)%Z -> q == 0.5)).
Proof.
  exact (@getScoreV2Mtp_range pow_approx 15 2000
           [VInt 0; VInt 0; VInt 2000; VInt 0; VInt 0; VInt 0] pow_approx_unit).
Defined.

(** ** getScoreV2 on every input *)



(** X9. A pass whose judgements are a positional list, as in the self-test at
    the end of [Core.py], makes [getScoreV2] raise [TypeError]: [getScore]
    reads the judgements by name. *)
Theorem getScoreV2_list_raises
    (pow : Q -> Q -> Q) (passData chartData speed legacyDiff : pyval)
    (l : list pyval) :
  getitem passData "speed" = Ret speed ->
  getitem chartData "diff" = Ret legacyDiff ->
  getitem passData "judgements" = Ret (VList l) ->
  Utils.getScoreV2 pow passData chartData = Raise TypeError.
Proof.
  intros Hs Hd Hj. unfold Utils.getScoreV2, Utils.getScore.
  rewrite Hj, Hs, Hd. reflexivity.
Qed.

Lemma getScoreV2_list_raises_witness :
  Utils.getScoreV2 pow_approx (ref_pass ref_inputs) ref_chart = Raise TypeError.
Proof.
  exact (@getScoreV2_list_raises pow_approx (ref_pass ref_inputs) ref_chart
           (VInt 1) (VFloat 21.15) (dict_values ref_judgements)
           eq_refl eq_refl eq_refl).
Defined.

(** ** getRankedScore *)

Lemma getidx_nat l n x :
  nth_error l n = Some x -> getidx (VList l) (Z.of_nat n) = Ret x.
Proof.
  intros H. unfold getidx.
  assert (Hlt : (n < List.length l)%nat) by (apply nth_error_Some; congruence).
  assert (E1 : (Z.of_nat n <? 0)%Z = false) by lia.
  rewrite E1.
  assert (E2 : (Z.of_nat (List.length l) <=? Z.of_nat n)%Z = false) by lia.
  rewrite E1, E2. cbn [orb]. rewrite Nat2Z.id, H. reflexivity.
Qed.

Lemma fold_left_ext_in {A B} (f g : A -> B -> A) l :
  (forall a x, In x l -> f a x = g a x) ->
  forall a, fold_left f l a = fold_left g l a.
Proof.
  induction l as [|x l IH]; simpl; intros H a; [reflexivity|].
  rewrite H by auto. apply IH. auto.
Qed.

Lemma nth_error_firstn_lt {A} (l : list A) : forall k n,
  (n < k)%nat -> nth_error (firstn k l) n = nth_error l n.
Proof.
  induction l as [|x l IH]; intros [|k] [|n] H; simpl; try lia; auto.
  apply IH. lia.
Qed.

(** X10. Only the first [top] scores count: what follows them is never read. *)
Theorem getRankedScore_prefix (scores : list pyval) (top : nat) :
  Utils.getRankedScore scores top = Utils.getRankedScore (firstn top scores) top.
Proof.
  unfold Utils.getRankedScore.
  rewrite length_firstn.
  assert (E : (if (Nat.min top (List.length scores) <? top)%nat
               then Nat.min top (List.length scores) else top)
              = (if (List.length scores <? top)%nat then List.length scores else top)).
  { destruct (Nat.ltb_spec (List.length scores) top);
      destruct (Nat.ltb_spec (Nat.min top (List.length scores)) top); lia. }
  rewrite E. set (m := if (List.length scores <? top)%nat then _ else _).
  assert (Hm : (m <= top)%nat /\ (m <= List.length scores)%nat).
  { subst m. destruct (Nat.ltb_spec (List.length scores) top); lia. }
  apply fold_left_ext_in. intros a n Hn. apply in_seq in Hn.
  destruct (nth_error scores n) as [x|] eqn:Hx.
  - rewrite (getidx_nat _ _ Hx).
    rewrite (@getidx_nat (firstn top scores) n x); [reflexivity|].
    rewrite nth_error_firstn_lt by lia. exact Hx.
  - apply nth_error_None in Hx. lia.
Qed.

Lemma Forall2_nth_error {A B} (R : A -> B -> Prop) l l' :
  Forall2 R l l' -> forall n, (n < List.length l)%nat ->
  exists x y, nth_error l n = Some x /\ nth_error l' n = Some y /\ R x y.
Proof.
  induction 1 as [|x y l l' Hxy _ IH]; intros [|n] Hn; simpl in *; try lia.
  - eauto.
  - apply IH. lia.
Qed.

Lemma skipn_nth_error {A} (l : list A) : forall n x,
  nth_error l n = Some x -> skipn n l = x :: skipn (S n) l.
Proof.
  induction l as [|y l IH]; intros [|n] x H; simpl in *; try discriminate.
  - congruence.
  - apply IH. exact H.
Qed.

Lemma ranked_fold scores qs :
  Forall2 (fun v q => as_num v = Some q) scores qs ->
  forall k a acc r0,
    as_num acc = Some r0 -> (a + k <= List.length scores)%nat ->
    exists v r,
      fold_left
        (fun acc n =>
           rankedScore <- acc ;;
           Ret rankedScore .+ Ret (py_pow_nat 0.9 n)
                              .* getidx (VList scores) (Z.of_nat n))
        (seq a k) (Ret acc) = Ret v
      /\ as_num v = Some r
      /\ r == r0 + ranked_sum (firstn k (skipn a qs)) a.
Proof.
  intros HF. induction k as [|k IH]; intros a acc r0 Hacc Hlen.
  - exists acc, r0. split; [reflexivity|]. split; [exact Hacc|].
    simpl. ring.
  - cbn [seq fold_left bind].
    destruct (@Forall2_nth_error _ _ _ _ _ HF a) as (x & q & Hx & Hq & Hxq); [lia|].
    rewrite (getidx_nat _ _ Hx). unfold lift2; cbn [bind].
    destruct (@py_mul_num (py_pow_nat 0.9 a) x _ q eq_refl Hxq)
      as (v1 & r1 & Hv1 & Hr1 & E1).
    rewrite Hv1; cbn [bind].
    destruct (py_add_num_num _ _ Hacc Hr1) as (v2 & r2 & Hv2 & Hr2 & E2).
    rewrite Hv2.
    destruct (IH (S a) v2 r2 Hr2) as (v & r & Hv & Hr & E); [lia|].
    exists v, r. split; [exact Hv|]. split; [exact Hr|].
    rewrite (skipn_nth_error _ _ Hq). cbn [firstn ranked_sum].
    rewrite E, E2, E1. ring.
Qed.

(** X11. On numbers the ranked score is the weighted sum of the first [top]
    of them, the score at position [n] weighing [0.9 ** n]. *)
Theorem getRankedScore_sum (scores : list pyval) (qs : list Q) (top : nat) :
  Forall2 (fun v q => as_num v = Some q) scores qs ->
  exists v, Utils.getRankedScore scores top = Ret v
            /\ num_eq v (ranked_sum (firstn top qs) 0).
Proof.
  intros HF. unfold Utils.getRankedScore.
  set (m := if (List.length scores <? top)%nat then _ else _).
  assert (Hm : (m <= List.length scores)%nat).
  { subst m. destruct (Nat.ltb_spec (List.length scores) top); lia. }
  destruct (@ranked_fold scores qs HF m 0%nat (VInt 0) 0 eq_refl) as (v & r & Hv & Hr & E);
    [lia|].
  exists v. split; [exact Hv|]. exists r. split; [exact Hr|].
  rewrite E. cbn [skipn].
  assert (Ef : firstn m qs = firstn top qs).
  { pose proof (Forall2_length HF) as Hl. subst m.
    destruct (Nat.ltb_spec (List.length scores) top) as [Hlt|Hge]; [|reflexivity].
    rewrite !firstn_all2 by lia. reflexivity. }
  rewrite Ef. ring.
Qed.

Lemma getRankedScore_sum_witness :
  exists v, Utils.getRankedScore [VInt 100; VFloat 50; VInt 10] 2 = Ret v
            /\ num_eq v (ranked_sum (firstn 2 [100; 50; 10]) 0).
Proof.
  apply getRankedScore_sum. repeat constructor.
Defined.

(** ** calculateScores *)

Lemma num_eq_add a x p q :
  num_eq a p -> num_eq x q -> exists v, py_add a x = Ret v /\ num_eq v (p + q).
Proof.
  intros (r1 & H1 & E1) (r2 & H2 & E2).
  destruct (py_add_num_num _ _ H1 H2) as (v & r & Hv & Hr & E).
  exists v. split; [exact Hv|]. exists r. split; [exact Hr|].
  rewrite E, E1, E2. reflexivity.
Qed.

Lemma num_eq_field d k s q :
  dict_get d k = Some s -> as_num s = Some q -> num_eq s (num_of (key_field d k)).
Proof.
  intros Hd Hs. exists q. split; [exact Hs|].
  unfold key_field, num_of. rewrite Hd, Hs. reflexivity.
Qed.

Lemma calculateScores_steps scores :
  Utils.calculateScores scores =
  (r <- fold_left score_step scores
          (Ret (Utils.mkSums (VInt 0) (VInt 0) (VInt 0) (VInt 0) 0)) ;;
   Ret (Utils.generalScore r, Utils.ppScore r, Utils.wfScore r, Utils.TvwKScore r)).
Proof. reflexivity. Qed.

Lemma num_eq_ext v p q : num_eq v p -> p == q -> num_eq v q.
Proof. intros (r & Hr & E) Hpq. exists r. split; [exact Hr|]. rewrite E. exact Hpq. Qed.

Lemma score_step_scored r d g p w t :
  scored d ->
  num_eq (Utils.generalScore r) g -> num_eq (Utils.ppScore r) p ->
  num_eq (Utils.wfScore r) w -> num_eq (Utils.TvwKScore r) t ->
  exists r',
    score_step (Ret r) d = Ret r'
    /\ num_eq (Utils.generalScore r') (g + score_q d)
    /\ num_eq (Utils.ppScore r') (p + if is_pp d then score_q d else 0)
    /\ num_eq (Utils.wfScore r') (w + if is_wf d then base_q d else 0)
    /\ (if is_12k d && (Utils.tvwkCounter r <? 20)%nat
        then num_eq (Utils.TvwKScore r')
               (t + 0.9 ^ Z.of_nat (Utils.tvwkCounter r) * score_q d)
             /\ Utils.tvwkCounter r' = S (Utils.tvwkCounter r)
        else num_eq (Utils.TvwKScore r') t
             /\ Utils.tvwkCounter r' = Utils.tvwkCounter r).
Proof.
  intros ((s & q & Hs & Hq) & (x & Hx) & (wv & Hwv) & (k & Hk) & Hb) Hg Hp Hw Ht.
  pose proof (num_eq_field _ _ Hs Hq) as Hsn. fold (score_q d) in Hsn.
  assert (Epp : is_pp d = py_eqb x (VFloat 1.0)).
  { unfold is_pp, key_field. rewrite Hx. reflexivity. }
  assert (Ewf : is_wf d = truthy wv).
  { unfold is_wf, key_field. rewrite Hwv. reflexivity. }
  assert (E12 : is_12k d = truthy k).
  { unfold is_12k, key_field. rewrite Hk. reflexivity. }
  destruct (num_eq_add Hg Hsn) as (g1 & Hg1 & Ng1).
  assert (Hpp : exists p1,
             (if py_eqb x (VFloat 1.0)
              then py_add (Utils.ppScore r) s else Ret (Utils.ppScore r)) = Ret p1
             /\ num_eq p1 (p + if is_pp d then score_q d else 0)).
  { rewrite Epp. destruct (py_eqb x (VFloat 1.0)).
    - destruct (num_eq_add Hp Hsn) as (p1 & Hp1 & Np1). eauto.
    - exists (Utils.ppScore r). split; [reflexivity|].
      apply (num_eq_ext Hp). ring. }
  destruct Hpp as (p1 & Hp1 & Np1).
  assert (Hwf : exists w1,
             (if truthy wv
              then y <- getitem (VDict d) "baseScore" ;; py_add (Utils.wfScore r) y
              else Ret (Utils.wfScore r)) = Ret w1
             /\ num_eq w1 (w + if is_wf d then base_q d else 0)).
  { rewrite Ewf in *. destruct (truthy wv).
    - destruct (Hb eq_refl) as (b & qb & Hbd & Hbq).
      pose proof (num_eq_field _ _ Hbd Hbq) as Hbn. fold (base_q d) in Hbn.
      destruct (num_eq_add Hw Hbn) as (w1 & Hw1 & Nw1).
      exists w1. split; [|exact Nw1].
      cbn [getitem]. rewrite Hbd. exact Hw1.
    - exists (Utils.wfScore r). split; [reflexivity|].
      apply (num_eq_ext Hw). ring. }
  destruct Hwf as (w1 & Hw1 & Nw1).
  assert (Hhead : score_step (Ret r) d =
            (if truthy k && (Utils.tvwkCounter r <? 20)%nat then
               tv <- Ret (Utils.TvwKScore r)
                     .+ Ret (py_pow_nat 0.9 (Utils.tvwkCounter r)) .* Ret s ;;
               Ret (Utils.mkSums g1 p1 w1 tv (S (Utils.tvwkCounter r)))
             else Ret (Utils.mkSums g1 p1 w1 (Utils.TvwKScore r)
                         (Utils.tvwkCounter r)))).
  { assert (Gs : getitem (VDict d) "score" = Ret s) by (cbn; rewrite Hs; reflexivity).
    assert (Gx : getitem (VDict d) "Xacc" = Ret x) by (cbn; rewrite Hx; reflexivity).
    assert (Gw : getitem (VDict d) "isWorldsFirst" = Ret wv)
      by (cbn; rewrite Hwv; reflexivity).
    assert (Gk : getitem (VDict d) "is12K" = Ret k) by (cbn; rewrite Hk; reflexivity).
    unfold score_step. cbn [bind]. rewrite Gs, Gx, Gw, Gk.
    unfold lift2. cbn [bind]. rewrite Hg1. cbn [bind]. rewrite Hp1. cbn [bind].
    rewrite Hw1. cbn [bind]. reflexivity. }
  rewrite Hhead, E12.
  destruct (truthy k && (Utils.tvwkCounter r <? 20)%nat).
  - destruct Hsn as (rs & Hrs & Ers).
    destruct (@py_mul_num (py_pow_nat 0.9 (Utils.tvwkCounter r)) s _ rs eq_refl Hrs)
      as (m1 & rm & Hm1 & Hrm & Erm).
    assert (Nm : num_eq m1 (0.9 ^ Z.of_nat (Utils.tvwkCounter r) * score_q d)).
    { exists rm. split; [exact Hrm|]. rewrite Erm, Ers. reflexivity. }
    destruct (num_eq_add Ht Nm) as (t1 & Ht1 & Nt1).
    exists (Utils.mkSums g1 p1 w1 t1 (S (Utils.tvwkCounter r))).
    split; [|cbn; auto].
    unfold lift2. cbn [bind]. rewrite Hm1. cbn [bind]. rewrite Ht1. reflexivity.
  - eexists. split; [reflexivity|]. cbn. auto.
Qed.

Lemma calculateScores_fold scores :
  Forall scored scores ->
  forall r g p w t,
    num_eq (Utils.generalScore r) g -> num_eq (Utils.ppScore r) p ->
    num_eq (Utils.wfScore r) w -> num_eq (Utils.TvwKScore r) t ->
    exists r',
      fold_left score_step scores (Ret r) = Ret r'
      /\ num_eq (Utils.generalScore r') (g + total (map score_q scores))
      /\ num_eq (Utils.ppScore r') (p + total (map score_q (filter is_pp scores)))
      /\ num_eq (Utils.wfScore r') (w + total (map base_q (filter is_wf scores)))
      /\ num_eq (Utils.TvwKScore r')
           (t + ranked_sum
                  (firstn (20 - Utils.tvwkCounter r)
                     (map score_q (filter is_12k scores)))
                  (Utils.tvwkCounter r)).
Proof.
  induction 1 as [|d scores Hd _ IH]; intros r g p w t Hg Hp Hw Ht.
  - exists r. split; [reflexivity|]. cbn [map filter total fold_right].
    rewrite firstn_nil. cbn [ranked_sum].
    repeat split; eapply num_eq_ext; try eassumption; ring.
  - destruct (score_step_scored r Hd Hg Hp Hw Ht) as (r1 & H1 & Ng & Np & Nw & Nt).
    cbn [fold_left]. rewrite H1.
    assert (Nt1 : num_eq (Utils.TvwKScore r1)
                    (t + if is_12k d && (Utils.tvwkCounter r <? 20)%nat
                         then 0.9 ^ Z.of_nat (Utils.tvwkCounter r) * score_q d
                         else 0)).
    { destruct (is_12k d && (Utils.tvwkCounter r <? 20)%nat);
        destruct Nt as [Nt _]; [exact Nt | apply (num_eq_ext Nt); ring]. }
    destruct (IH r1 _ _ _ _ Ng Np Nw Nt1) as (r' & Hr' & N1 & N2 & N3 & N4).
    exists r'. split; [exact Hr'|].
    split; [apply (num_eq_ext N1); cbn [map total fold_right]; unfold total; ring|].
    split.
    { apply (num_eq_ext N2). cbn [filter].
      destruct (is_pp d); cbn [map total fold_right]; unfold total; ring. }
    split.
    { apply (num_eq_ext N3). cbn [filter].
      destruct (is_wf d); cbn [map total fold_right]; unfold total; ring. }
    apply (num_eq_ext N4). cbn [filter].
    destruct (is_12k d); cbn [andb] in *.
    + destruct (Nat.ltb_spec (Utils.tvwkCounter r) 20) as [Hc|Hc];
        destruct Nt as [_ Ec]; rewrite Ec.
      * replace (20 - Utils.tvwkCounter r)%nat
          with (S (20 - S (Utils.tvwkCounter r))) by lia.
        cbn [map firstn ranked_sum]. ring.
      * replace (20 - Utils.tvwkCounter r)%nat with 0%nat by lia.
        cbn [firstn ranked_sum]. ring.
    + destruct Nt as [_ Ec]; rewrite Ec. ring.
Qed.

(** X12. [calculateScores] on records it can read: the general score is the
    sum of the scores, the pp score the sum over the records of accuracy
    [1.0], the world's-first score the sum of the base scores of the
    world's firsts, and the 12K score the weighted sum of the first twenty
    12K records, in the order given. *)
Theorem calculateScores_sums (scores : list dict) :
  Forall scored scores ->
  exists g pp wf tv,
    Utils.calculateScores scores = Ret (g, pp, wf, tv)
    /\ num_eq g (total (map score_q scores))
    /\ num_eq pp (total (map score_q (filter is_pp scores)))
    /\ num_eq wf (total (map base_q (filter is_wf scores)))
    /\ num_eq tv (ranked_sum (firstn 20 (map score_q (filter is_12k scores))) 0).
Proof.
  intros H.
  assert (Z0 : num_eq (VInt 0) 0) by (exists 0; split; reflexivity).
  destruct (@calculateScores_fold scores H
              (Utils.mkSums (VInt 0) (VInt 0) (VInt 0) (VInt 0) 0) 0 0 0 0
              Z0 Z0 Z0 Z0) as (r & Hr & N1 & N2 & N3 & N4).
  exists (Utils.generalScore r), (Utils.ppScore r), (Utils.wfScore r),
         (Utils.TvwKScore r).
  split; [rewrite calculateScores_steps, Hr; reflexivity|].
  cbn [Utils.tvwkCounter] in N4.
  split; [apply (num_eq_ext N1); ring|].
  split; [apply (num_eq_ext N2); ring|].
  split; [apply (num_eq_ext N3); ring|].
  apply (num_eq_ext N4). change (20 - 0)%nat with 20%nat. ring.
Qed.

Lemma calculateScores_sums_witness :
  let scores := [ sample_scored 900 1 true false; sample_scored 300 0.98 false true ] in
  exists g pp wf tv,
    Utils.calculateScores scores = Ret (g, pp, wf, tv)
    /\ num_eq g (total (map score_q scores))
    /\ num_eq pp (total (map score_q (filter is_pp scores)))
    /\ num_eq wf (total (map base_q (filter is_wf scores)))
    /\ num_eq tv (ranked_sum (firstn 20 (map score_q (filter is_12k scores))) 0).
Proof.
  apply calculateScores_sums.
  repeat constructor; try (do 2 eexists; split; reflexivity);
    try (eexists; reflexivity); intros _; do 2 eexists; split; reflexivity.
Defined.

(** ** Reading a record after writing it *)

Lemma updateParams_params_get params inp params' :
  updateParams_params params inp = (params', Ret tt) ->
  forall k, dict_get params' k =
            match dict_get (rev inp) k with
            | Some v => Some v
            | None => dict_get params k
            end.
Proof.
  intros H k. pose proof (updateParams_params_spec params inp) as S.
  rewrite H in S. destruct S as (_ & _ & S).
  destruct (S eq_refl) as (_ & -> & _). apply dict_get_update.
Qed.

(** X13. After an update that returns, a record reads, for every key, the last
    value the update map holds for it, and its previous value for a key the
    map does not hold. *)
Theorem updateParams_then_getitem :
  (forall (self self' : ResultObj.t) inp k,
     ResultObj.updateParams self inp = (self', Ret tt) ->
     ResultObj.getitem self' k =
     match dict_get (rev inp) k with
     | Some v => Ret v
     | None => ResultObj.getitem self k
     end)
  /\ (forall (self self' : PlayerObj.t) inp k,
        PlayerObj.updateParams self inp = (self', Ret tt) ->
        PlayerObj.getitem self' k =
        match dict_get (rev inp) k with
        | Some v => Ret v
        | None => PlayerObj.getitem self k
        end).
Proof.
  split; intros self self' inp k H.
  - unfold ResultObj.updateParams in H.
    destruct (updateParams_params (ResultObj.params self) inp) as [p r] eqn:E.
    injection H as <- ->.
    unfold ResultObj.getitem, getitem. cbn [ResultObj.params].
    rewrite (updateParams_params_get _ _ E k).
    destruct (dict_get (rev inp) k); reflexivity.
  - unfold PlayerObj.updateParams in H.
    destruct (updateParams_params (PlayerObj.params self) inp) as [p r] eqn:E.
    injection H as <- ->.
    unfold PlayerObj.getitem, getitem. cbn [PlayerObj.params].
    rewrite (updateParams_params_get _ _ E k).
    destruct (dict_get (rev inp) k); reflexivity.
Qed.

Lemma updateParams_then_getitem_witness :
  ResultObj.getitem
    (fst (ResultObj.updateParams ResultObj.init
            [("song", VStr "x"); ("score", VInt 1); ("song", VStr "y")])) "song"
  = Ret (VStr "y").
Proof.
  exact (proj1 updateParams_then_getitem ResultObj.init _
           [("song", VStr "x"); ("score", VInt 1); ("song", VStr "y")] "song"
           eq_refl).
Defined.

Lemma dict_keys_set_fresh d k v :
  ~ In k (dict_keys d) -> dict_keys (dict_set d k v) = dict_keys d ++ [k].
Proof.
  intros H. rewrite dict_set_fresh by exact H.
  unfold dict_keys. rewrite map_app. reflexivity.
Qed.

(** X14. [__setitem__] writes without the key check of [updateParams]: the
    key reads back the value written, every other key is unchanged, and a
    key outside the record's keys, which [updateParams] rejects, is added
    at the end. *)
Theorem setitem_unchecked (self : ResultObj.t) (key : string) (value : pyval) :
  (forall k, ResultObj.getitem (ResultObj.setitem self key value) k =
             if String.eqb key k then Ret value else ResultObj.getitem self k)
  /\ (In key (ResultObj.keys self) ->
      ResultObj.keys (ResultObj.setitem self key value) = ResultObj.keys self)
  /\ (~ In key (ResultObj.keys self) ->
      ResultObj.keys (ResultObj.setitem self key value) = ResultObj.keys self ++ [key]
      /\ ResultObj.updateParams self [(key, value)]
         = (self, Raise (ValueError ("Incorrect key! " ++ key)))).
Proof.
  destruct self as [p]. unfold ResultObj.getitem, ResultObj.setitem, ResultObj.keys,
    ResultObj.updateParams, getitem. cbn [ResultObj.params].
  split; [|split].
  - intros k. rewrite dict_get_set. destruct (String.eqb key k); reflexivity.
  - apply dict_keys_set_in.
  - intros Hn. split; [apply dict_keys_set_fresh; exact Hn|].
    unfold updateParams_params. cbn [dict_keys map fst find].
    fold (dict_keys p).
    destruct (str_mem key (dict_keys p)) eqn:E; [|reflexivity].
    apply str_mem_In in E. contradiction.
Qed.

Lemma setitem_unchecked_witness :
  (forall k, ResultObj.getitem (ResultObj.setitem ResultObj.init "chartId" (VInt 63)) k =
             if String.eqb "chartId" k then Ret (VInt 63)
             else ResultObj.getitem ResultObj.init k)
  /\ (In "chartId" (ResultObj.keys ResultObj.init) ->
      ResultObj.keys (ResultObj.setitem ResultObj.init "chartId" (VInt 63))
      = ResultObj.keys ResultObj.init)
  /\ (~ In "chartId" (ResultObj.keys ResultObj.init) ->
      ResultObj.keys (ResultObj.setitem ResultObj.init "chartId" (VInt 63))
      = ResultObj.keys ResultObj.init ++ ["chartId"]
      /\ ResultObj.updateParams ResultObj.init [("chartId", VInt 63)]
         = (ResultObj.init, Raise (ValueError ("Incorrect key! " ++ "chartId")))).
Proof.
  exact (setitem_unchecked ResultObj.init "chartId" (VInt 63)).
Defined.

(** ** readLevels *)

Lemma charts_set_lookup cs j v i :
  Forall (fun c => exists k, fst c = VInt k) cs ->
  option_map snd (find (fun c => py_eqb (fst c) (VInt i)) (charts_set cs (VInt j) v))
  = if (j =? i)%Z then Some v
    else option_map snd (find (fun c => py_eqb (fst c) (VInt i)) cs).
Proof.
  induction 1 as [|[k0 v0] cs (k & Hk) _ IH]; cbn [charts_set find fst].
  - rewrite py_eqb_int. destruct (j =? i)%Z; reflexivity.
  - cbn [fst] in Hk. subst k0. rewrite !py_eqb_int.
    destruct (Z.eqb_spec k j) as [->|Hkj]; cbn [find fst].
    + rewrite py_eqb_int. destruct (j =? i)%Z; reflexivity.
    + rewrite py_eqb_int.
      destruct (Z.eqb_spec k i) as [->|Hki].
      * destruct (Z.eqb_spec j i); [congruence | reflexivity].
      * exact IH.
Qed.

Lemma charts_set_keys cs j v :
  Forall (fun c => exists k, fst c = VInt k) cs ->
  Forall (fun c => exists k, fst c = VInt k) (charts_set cs (VInt j) v).
Proof.
  induction 1 as [|[k0 v0] cs Hk Hcs IH]; cbn [charts_set].
  - repeat constructor. exists j. reflexivity.
  - destruct (py_eqb k0 (VInt j)); constructor; auto.
Qed.

Lemma charts_set_length cs k v :
  (List.length cs <= List.length (charts_set cs k v) <= S (List.length cs))%nat.
Proof.
  induction cs as [|[k0 v0] cs IH]; cbn [charts_set]; [simpl; lia|].
  destruct (py_eqb k0 k); simpl; lia.
Qed.

Lemma find_app_last {A} (f : A -> bool) l x :
  find f (rev (l ++ [x])) = if f x then Some x else find f (rev l).
Proof. rewrite rev_app_distr. reflexivity. Qed.

(** X15. [readLevels] on charts with integer ids.  Looking an id up in the
    dict it builds gives the last chart of the file with that id, and
    nothing for an id the file lacks; the count it records is the length
    of the file, which the size of the dict never exceeds. *)
Theorem readLevels_lookup (file : list pyval) :
  Forall (fun chart => exists i, getitem chart "id" = Ret (VInt i)) file ->
  exists cs,
    readLevels file = Ret (cs, List.length file)
    /\ (forall i, charts_get cs (VInt i) = Ret (find (has_id i) (rev file)))
    /\ (List.length cs <= List.length file)%nat.
Proof.
  intros Hf. unfold readLevels.
  set (step := fun acc chart =>
                 cs <- acc ;;
                 id <- getitem chart "id" ;;
                 if hashable id then Ret (charts_set cs id chart) else Raise TypeError).
  assert (G : forall file,
             Forall (fun chart => exists i, getitem chart "id" = Ret (VInt i)) file ->
             forall pre cs,
               Forall (fun c => exists k, fst c = VInt k) cs ->
               (forall i, option_map snd (find (fun c => py_eqb (fst c) (VInt i)) cs)
                          = find (has_id i) (rev pre)) ->
               (List.length cs <= List.length pre)%nat ->
               exists cs',
                 fold_left step file (Ret cs) = Ret cs'
                 /\ (forall i, option_map snd (find (fun c => py_eqb (fst c) (VInt i)) cs')
                               = find (has_id i) (rev (pre ++ file)))
                 /\ (List.length cs' <= List.length (pre ++ file))%nat).
  { clear. induction 1 as [|chart file (j & Hj) _ IH]; intros pre cs Hk Hl Hn.
    - exists cs. rewrite app_nil_r. auto.
    - cbn [fold_left]. unfold step at 2. cbn [bind]. rewrite Hj. cbn [bind hashable].
      destruct (IH (pre ++ [chart]) (charts_set cs (VInt j) chart)) as (cs' & H1 & H2 & H3).
      + apply charts_set_keys. exact Hk.
      + intros i. rewrite (charts_set_lookup j chart i Hk), find_app_last.
        unfold has_id at 1. rewrite Hj.
        destruct (j =? i)%Z; [reflexivity | apply Hl].
      + pose proof (charts_set_length cs (VInt j) chart).
        rewrite length_app. simpl. lia.
      + exists cs'. rewrite <- app_assoc in H2, H3. auto. }
  destruct (G file Hf [] []) as (cs & H1 & H2 & H3).
  - constructor.
  - intros i. reflexivity.
  - simpl. lia.
  - exists cs. fold step. rewrite H1. cbn [bind]. split; [reflexivity|].
    split; [|exact H3]. intros i. unfold charts_get. cbn [hashable].
    rewrite H2. reflexivity.
Qed.

Lemma readLevels_lookup_witness :
  let file := [ VDict [("id", VInt 1); ("song", VStr "a")];
                VDict [("id", VInt 2); ("song", VStr "b")];
                VDict [("id", VInt 1); ("song", VStr "c")] ] in
  exists cs,
    readLevels file = Ret (cs, List.length file)
    /\ (forall i, charts_get cs (VInt i) = Ret (find (has_id i) (rev file)))
    /\ (List.length cs <= List.length file)%nat.
Proof.
  apply readLevels_lookup. repeat constructor; eexists; reflexivity.
Defined.

(** ** The date of a pass *)

Lemma before_dot_app s frac : before_dot (s ++ String "." frac) = before_dot s.
Proof.
  induction s as [|c s IH]; simpl; [reflexivity|].
  destruct (Ascii.eqb c "."); [reflexivity|]. rewrite IH. reflexivity.
Qed.

(** X16. The date of a pass.  A pass without ["vidUploadTime"] raises
    [KeyError] in spite of the [try], because the handler reads the key
    again.  Otherwise the result is a date: the parsed one for a string
    that parses, else the fallback.  What follows the first dot of the
    timestamp is ignored. *)
Theorem parse_date_outcome (strptime : string -> option Z) (Pass : pyval) (fallback : Z) :
  (getitem Pass "vidUploadTime" = Raise (KeyError "vidUploadTime") ->
   parse_date strptime Pass fallback = Raise (KeyError "vidUploadTime"))
  /\ (forall v, getitem Pass "vidUploadTime" = Ret v ->
        exists t, parse_date strptime Pass fallback = Ret (VDate t)
                  /\ (t = fallback
                      \/ exists s, v = VStr s /\ strptime (before_dot s) = Some t))
  /\ (forall s frac Pass',
        getitem Pass "vidUploadTime" = Ret (VStr (s ++ String "." frac)) ->
        getitem Pass' "vidUploadTime" = Ret (VStr s) ->
        parse_date strptime Pass fallback = parse_date strptime Pass' fallback).
Proof.
  unfold parse_date. split; [|split].
  - intros ->. reflexivity.
  - intros v ->. cbn [bind]. destruct v; try (eexists; split; [reflexivity | left; reflexivity]).
    destruct (strptime (before_dot s)) as [t|] eqn:E.
    + exists t. split; [reflexivity|]. right. exists s. auto.
    + exists fallback. split; [reflexivity | left; reflexivity].
  - intros s frac Pass' -> ->. cbn [bind]. rewrite before_dot_app. reflexivity.
Qed.

Lemma parse_date_outcome_witness :
  parse_date strptime_digits (sample_pass ref_judgements) 0
  = parse_date strptime_digits
      (VDict [("vidUploadTime", VStr "2023-05-01T10:00:00")]) 0.
Proof.
  exact (proj2 (proj2 (parse_date_outcome strptime_digits
                         (sample_pass ref_judgements) 0))
           "2023-05-01T10:00:00" "000Z"
           (VDict [("vidUploadTime", VStr "2023-05-01T10:00:00")])
           eq_refl eq_refl).
Defined.

(** ** What the searches can return *)

Section Returns.

Variable pow : Q -> Q -> Q.
Variable strptime : string -> option Z.
Variables today epoch2022 : Z.

Lemma chart_records_raises chart first rest h Scores :
  raises (chart_records pow strptime today chart (first :: rest) h Scores) = true.
Proof.
  cbn [chart_records]. rewrite chart_record_raises.
  destruct (chart_fields _ _ _ _ _); reflexivity.
Qed.

(** X17. [searchByChart] returns nothing but the empty list, and returns
    it exactly for an unknown chart, an empty chart, and a chart without
    passes: building the first record of any other chart raises. *)
Theorem searchByChart_only_empty
    (chartId : pyval) (data : DataScraper) (getDates : bool) (l : list dict) :
  searchByChart pow strptime today chartId data getDates = Ret l <->
  l = []
  /\ exists chart,
       charts_get (charts data) chartId = Ret chart
       /\ (chart = None
           \/ exists c, chart = Some c
                        /\ (truthy c = false \/ valid_passes chartId data = Ret [])).
Proof.
  unfold searchByChart. split.
  - intros H.
    destruct (charts_get (charts data) chartId) as [[chart|]|e]; cbn [bind] in H;
      [| | discriminate].
    2:{ injection H as <-. split; [reflexivity|]. exists None. auto. }
    destruct (truthy chart) eqn:Ht; cbn [negb] in H.
    2:{ injection H as <-. split; [reflexivity|]. exists (Some chart). eauto 6. }
    destruct (valid_passes chartId data) as [[|first rest]|e]; cbn [bind] in H;
      [| | discriminate].
    + injection H as <-. split; [reflexivity|]. exists (Some chart). eauto 6.
    + pose proof (chart_records_raises chart first rest [] []) as Hr.
      destruct (chart_records pow strptime today chart (first :: rest) [] []);
        discriminate.
  - intros (-> & chart & Hc & [->|(c & -> & [Ht|Hv])]); rewrite Hc; cbn [bind].
    + reflexivity.
    + rewrite Ht. reflexivity.
    + destruct (negb (truthy c)); [reflexivity|]. rewrite Hv. reflexivity.
Qed.

(** No pass of the loop of [searchByPlayer] adds a record: a pass whose
    chart is unknown is skipped, and the record of any other pass raises. *)
Lemma player_records_returns player data pp : forall st st',
  player_records pow strptime epoch2022 player data pp st = Ret st' <->
  Forall (unresolved data) pp /\ st' = st.
Proof.
  induction pp as [|P pp IH]; intros st st'; cbn [player_records].
  - split; [intros [= <-]; auto | intros [_ ->]; reflexivity].
  - split.
    + intros H.
      destruct (getitem P "levelId") as [c|e] eqn:Hl; [|discriminate].
      cbn [bind] in H.
      destruct (charts_get (charts data) c) as [[ch|]|e] eqn:Hc; cbn [bind] in H;
        [| | discriminate].
      * destruct (getitem P "isWorldsFirst") as [wf|e]; [|discriminate].
        cbn [bind] in H. rewrite player_record_raises in H.
        destruct (player_fields _ _ _ _ _ _ _); discriminate.
      * apply IH in H as [Hf ->]. split; [|reflexivity].
        constructor; [exists c; auto | exact Hf].
    + intros [Hf ->]. inversion Hf as [|? ? (c & Hl & Hc) Hf']; subst.
      rewrite Hl; cbn [bind]. rewrite Hc; cbn [bind].
      apply IH. auto.
Qed.

(** Past the loop nothing of [searchByPlayer] is left but the reading of
    the player's name, id and country: the loop returns without a record or
    not at all. *)
Lemma searchByPlayer_collapse
    (player : pyval) (data : DataScraper) (TwvKOnly showCharts : bool) :
  searchByPlayer pow strptime epoch2022 player data TwvKOnly showCharts =
  (pp <- player_passes player data ;;
   _ <- player_records pow strptime epoch2022 player data pp
          (mkLoop [] 0 ("P", 1%Z) ("P", 1%Z)) ;;
   name <- getitem player "name" ;;
   pid <- getitem player "id" ;;
   country <- getitem player "country" ;;
   Ret (empty_summary name pid country)).
Proof.
  unfold searchByPlayer.
  destruct (player_passes player data) as [pp|e]; [|reflexivity]. cbn [bind].
  destruct (player_records pow strptime epoch2022 player data pp _) as [st|e] eqn:Hst;
    [|reflexivity].
  apply player_records_returns in Hst as [_ ->].
  cbn [bind Scores firstPasses topDiff top12kDiff].
  assert (Hv : player_valid TwvKOnly [] = Ret (mkDedup [] [] 0 [])) by reflexivity.
  rewrite Hv.
  cbn [bind validScores XaccList uPasses mapM combine filter map].
  change (Utils.getRankedScore [] 20) with (Ret (VInt 0)).
  change (Utils.calculateScores []) with (Ret (VInt 0, VInt 0, VInt 0, VInt 0)).
  unfold int. cbn [bind].
  unfold display. cbn [mapM fst snd bind].
  destruct (getitem player "name") as [name|e]; [|reflexivity]. cbn [bind].
  destruct (getitem player "id") as [pid|e]; [|reflexivity]. cbn [bind].
  destruct (getitem player "country") as [country|e]; [|reflexivity].
  destruct showCharts; reflexivity.
Qed.

(** X18. [searchByPlayer] returns nothing but the empty summary (zero
    scores and counts, top difficulties ["P1"], no list of scores), and
    returns it exactly for a player whose passes all name levels that are
    not among the charts. *)
Theorem searchByPlayer_only_empty
    (player : pyval) (data : DataScraper) (TwvKOnly showCharts : bool) (d : dict) :
  searchByPlayer pow strptime epoch2022 player data TwvKOnly showCharts = Ret d <->
  exists pp name pid country,
    player_passes player data = Ret pp
    /\ Forall (unresolved data) pp
    /\ getitem player "name" = Ret name
    /\ getitem player "id" = Ret pid
    /\ getitem player "country" = Ret country
    /\ d = empty_summary name pid country.
Proof.
  rewrite searchByPlayer_collapse. split.
  - intros H.
    apply bind_ret in H as (pp & Hpp & H).
    apply bind_ret in H as (st & Hst & H).
    apply player_records_returns in Hst as [Hf _].
    apply bind_ret in H as (name & Hn & H).
    apply bind_ret in H as (pid & Hi & H).
    apply bind_ret in H as (country & Hc & H).
    injection H as <-. exists pp, name, pid, country. auto 7.
  - intros (pp & name & pid & country & Hpp & Hf & Hn & Hi & Hc & ->).
    rewrite Hpp; cbn [bind].
    rewrite (proj2 (player_records_returns player data pp _ _) (conj Hf eq_refl)).
    cbn [bind]. rewrite Hn, Hi, Hc. reflexivity.
Qed.

(** The player loop of [searchAllPlayers] adds no entry: a banned player
    is skipped, and a summary that [searchByPlayer] returns has average
    accuracy [0]. *)
Lemma player_loop_returns data disableCharts TwvKOnly ps : forall lb lb',
  player_loop pow strptime epoch2022 data disableCharts TwvKOnly ps lb = Ret lb' ->
  lb' = lb.
Proof.
  induction ps as [|player ps IH]; intros lb lb' H; cbn [player_loop] in H.
  - congruence.
  - apply bind_ret in H as (banned & _ & H).
    destruct (truthy banned); [exact (IH _ _ H)|].
    apply bind_ret in H as (search & Hs & H).
    rewrite searchByPlayer_collapse in Hs.
    apply bind_ret in Hs as (pp & _ & Hs).
    apply bind_ret in Hs as (st & _ & Hs).
    apply bind_ret in Hs as (name & _ & Hs).
    apply bind_ret in Hs as (pid & _ & Hs).
    apply bind_ret in Hs as (country & _ & Hs).
    injection Hs as <-. cbn in H. exact (IH _ _ H).
Qed.

(** X19. [searchAllPlayers] returns nothing but the empty leaderboard,
    and only for a sort field of the priority list. *)
Theorem searchAllPlayers_only_empty
    (sortBy : string) (data : DataScraper) (disableCharts TwvKOnly reverse : bool)
    (l : list dict) :
  searchAllPlayers pow strptime epoch2022 sortBy data disableCharts TwvKOnly reverse
  = Ret l ->
  l = [] /\ In sortBy Utils.allPassSortPriority.
Proof.
  unfold searchAllPlayers. intros H.
  apply bind_ret in H as (lb & Hlb & H).
  apply player_loop_returns in Hlb. subst lb.
  unfold sort_leaderboard in H.
  apply bind_ret in H as (priority & Hp & H).
  cbn in H. split.
  - destruct reverse; injection H as <-; reflexivity.
  - clear H. revert priority Hp.
    induction Utils.allPassSortPriority as [|y ys IH]; intros priority Hp;
      cbn [list_remove] in Hp; [discriminate|].
    destruct (String.eqb_spec y sortBy) as [->|Hne]; [left; reflexivity|].
    apply bind_ret in Hp as (r & Hr & _). right. exact (IH _ Hr).
Qed.

End Returns.

Lemma searchByChart_only_empty_witness :
  searchByChart pow_approx strptime_digits 0 (VInt 63) no_pass_data false = Ret [].
Proof.
  apply (proj2 (searchByChart_only_empty pow_approx strptime_digits 0 (VInt 63)
                  no_pass_data false [])).
  split; [reflexivity|]. exists (Some sample_chart).
  split; [reflexivity|]. right. exists sample_chart.
  split; [reflexivity|]. right. reflexivity.
Defined.

Lemma searchByPlayer_only_empty_witness :
  searchByPlayer pow_approx strptime_digits 0 sample_player no_pass_data false true
  = Ret (empty_summary (VStr "A") (VInt 7) (VStr "KR")).
Proof.
  apply (proj2 (searchByPlayer_only_empty pow_approx strptime_digits 0 sample_player
                  no_pass_data false true _)).
  exists [], (VStr "A"), (VInt 7), (VStr "KR").
  repeat split; constructor.
Defined.

Lemma searchAllPlayers_only_empty_witness :
  @nil dict = [] /\ In "rankedScore" Utils.allPassSortPriority.
Proof.
  assert (H : searchAllPlayers pow_approx strptime_digits 0 "rankedScore" no_pass_data
                true false false = Ret [])
    by (vm_compute; reflexivity).
  exact (searchAllPlayers_only_empty _ _ _ _ _ _ _ _ H).
Defined.

(** ** The stages after the record loops are not reached *)

Lemma valid_passes_all chartId cs ps players :
  Forall (pass_of chartId) ps ->
  valid_passes chartId (mkData cs ps players) = Ret ps.
Proof.
  intros H. unfold valid_passes. cbn [passes].
  rewrite (mapM_pure _ (fun _ => true)).
  - cbn [bind]. f_equal. clear H.
    induction ps as [|P ps IH]; cbn; [reflexivity|]. f_equal. exact IH.
  - intros P HP. rewrite Forall_forall in H.
    destruct (H P HP) as (l & Hl & He). rewrite Hl; cbn [bind]. rewrite He.
    reflexivity.
Qed.

Section Unreached.

Variable pow : Q -> Q -> Q.
Variable strptime : string -> option Z.
Variables today epoch2022 : Z.

(** With a pass on a known chart [searchByChart] ends in the exception
    of the first record: that of a field, or that of [updateParams]. *)
Lemma searchByChart_first_record chartId data getDates chart first rest :
  charts_get (charts data) chartId = Ret (Some chart) ->
  truthy chart = true ->
  valid_passes chartId data = Ret (first :: rest) ->
  searchByChart pow strptime today chartId data getDates =
  match chart_fields pow strptime today chart first with
  | Ret _ => Raise incorrect_chartId
  | Raise e => Raise e
  end.
Proof.
  intros Hc Ht Hv. unfold searchByChart.
  rewrite Hc; cbn [bind]. rewrite Ht; cbn [negb]. rewrite Hv; cbn [bind chart_records].
  rewrite chart_record_raises.
  destruct (chart_fields _ _ _ _ _); reflexivity.
Qed.

Lemma searchByChart_returns chartId data getDates l :
  searchByChart pow strptime today chartId data getDates = Ret l -> l = [].
Proof.
  unfold searchByChart. intros H.
  destruct (charts_get (charts data) chartId) as [[chart|]|e]; cbn [bind] in H;
    [| | discriminate].
  2:{ injection H as <-. reflexivity. }
  destruct (truthy chart) eqn:Ht; cbn [negb] in H.
  2:{ injection H as <-. reflexivity. }
  destruct (valid_passes chartId data) as [[|first rest]|e]; cbn [bind] in H;
    [| | discriminate].
  - injection H as <-. reflexivity.
  - pose proof (chart_records_raises pow strptime today chart first rest [] []) as Hr.
    destruct (chart_records pow strptime today chart (first :: rest) [] []);
      discriminate.
Qed.

(** C3 (the code departs from the claim).  The dedup of either search is
    not reached with a record in hand.  For a player with a pass on a
    known chart, and so for every player with several passes on one chart,
    [searchByPlayer] raises; what it returns for any other player counts
    no pass and lists no score.  For a chart with a pass, and so for every
    chart with several passes of one player, [searchByChart] raises; what
    it returns for any other chart is the empty list. *)
Theorem dedup_never_reached :
  (forall player data TwvKOnly showCharts pp P cid chart,
     player_passes player data = Ret pp ->
     In P pp ->
     getitem P "levelId" = Ret cid ->
     charts_get (charts data) cid = Ret (Some chart) ->
     raises (searchByPlayer pow strptime epoch2022 player data TwvKOnly showCharts)
     = true)
  /\ (forall player data TwvKOnly showCharts d,
        searchByPlayer pow strptime epoch2022 player data TwvKOnly showCharts = Ret d ->
        dict_get d "totalPasses" = Some (VInt 0) /\ dict_get d "allScores" = None)
  /\ (forall chartId data getDates chart first rest,
        charts_get (charts data) chartId = Ret (Some chart) ->
        truthy chart = true ->
        valid_passes chartId data = Ret (first :: rest) ->
        raises (searchByChart pow strptime today chartId data getDates) = true)
  /\ (forall chartId data getDates l,
        searchByChart pow strptime today chartId data getDates = Ret l -> l = []).
Proof.
  split; [|split; [|split]].
  - intros player data TwvKOnly showCharts pp P cid chart Hpp Hin Hl Hc.
    unfold searchByPlayer. rewrite Hpp; cbn [bind].
    match goal with
    | |- raises (bind ?c _) = true =>
        assert (Hr : raises c = true)
          by exact (player_records_raises pow strptime epoch2022 player data pp _ P
                      Hin Hl Hc);
        destruct c; [discriminate | reflexivity]
    end.
  - intros player data TwvKOnly showCharts d H.
    rewrite searchByPlayer_collapse in H.
    apply bind_ret in H as (pp & _ & H).
    apply bind_ret in H as (st & _ & H).
    apply bind_ret in H as (name & _ & H).
    apply bind_ret in H as (pid & _ & H).
    apply bind_ret in H as (country & _ & H).
    injection H as <-. split; reflexivity.
  - intros chartId data getDates chart first rest Hc Ht Hv.
    rewrite (@searchByChart_first_record chartId data getDates chart first rest Hc Ht Hv).
    destruct (chart_fields _ _ _ _ _); reflexivity.
  - intros chartId data getDates l H. exact (searchByChart_returns _ _ _ H).
Qed.

(** C5 (the code departs from the claim).  For a known chart and a
    non-empty list of passes of that chart, in whatever order the passes
    come, [searchByChart] ends in the exception of the record of the pass
    that comes first: the [ValueError] of [updateParams] for ["chartId"]
    when the fields of that record evaluate.  No pass is marked and no
    leaderboard is returned, in the dated view as in the deduplicated one;
    whatever list [searchByChart] returns carries the world's-first flag
    on no entry. *)
Theorem world_first_never_marked
    (chartId chart : pyval) (cs : list (pyval * pyval))
    (first : pyval) (rest players : list pyval) (getDates : bool) :
  charts_get cs chartId = Ret (Some chart) ->
  truthy chart = true ->
  Forall (pass_of chartId) (first :: rest) ->
  (forall P ps,
     Permutation (P :: ps) (first :: rest) ->
     searchByChart pow strptime today chartId (mkData cs (P :: ps) players) getDates =
     match chart_fields pow strptime today chart P with
     | Ret _ => Raise incorrect_chartId
     | Raise e => Raise e
     end)
  /\ (forall data l,
        searchByChart pow strptime today chartId data getDates = Ret l ->
        filter flagged l = []).
Proof.
  intros Hc Ht Hall. split.
  - intros P ps Hp.
    assert (Hps : Forall (pass_of chartId) (P :: ps)).
    { rewrite Forall_forall in *. intros x Hx. apply Hall.
      eapply Permutation_in; eassumption. }
    exact (@searchByChart_first_record chartId (mkData cs (P :: ps) players) getDates
             chart P ps Hc Ht (valid_passes_all cs players Hps)).
  - intros data l H. rewrite (searchByChart_returns _ _ _ H). reflexivity.
Qed.

End Unreached.

Lemma dedup_never_reached_witness :
  raises (searchByPlayer pow_approx strptime_digits 0 sample_player tie_data false true)
  = true
  /\ raises (searchByChart pow_approx strptime_digits 0 (VInt 63) tie_data false) = true.
Proof.
  destruct (dedup_never_reached pow_approx strptime_digits 0 0) as (H1 & _ & H3 & _).
  assert (Hpp : player_passes sample_player tie_data = Ret (passes tie_data))
    by (vm_compute; reflexivity).
  assert (Hc : charts_get (charts tie_data) (VInt 63) = Ret (Some sample_chart))
    by (vm_compute; reflexivity).
  assert (Hv : valid_passes (VInt 63) tie_data = Ret (passes tie_data))
    by (vm_compute; reflexivity).
  split.
  - exact (H1 sample_player tie_data false true _ (tie_pass 2 "2023-05-01T10:00:00.000Z")
              (VInt 63) sample_chart Hpp (or_intror (or_introl eq_refl)) eq_refl Hc).
  - exact (H3 (VInt 63) tie_data false sample_chart _ _ Hc eq_refl Hv).
Defined.

Lemma world_first_never_marked_witness :
  searchByChart pow_approx strptime_digits 0 (VInt 63) tie_data true
  = Raise incorrect_chartId
  /\ searchByChart pow_approx strptime_digits 0 (VInt 63)
       (mkData (charts tie_data) (rev (passes tie_data)) (players tie_data)) false
     = Raise incorrect_chartId.
Proof.
  assert (Hc : charts_get (charts tie_data) (VInt 63) = Ret (Some sample_chart))
    by (vm_compute; reflexivity).
  assert (Hall : Forall (pass_of (VInt 63)) (passes tie_data)).
  { repeat constructor; exists (VInt 63); split; vm_compute; reflexivity. }
  assert (H1 : exists inp,
             chart_fields pow_approx strptime_digits 0 sample_chart
               (tie_pass 1 "2023-05-02T10:00:00.000Z") = Ret inp)
    by (eexists; vm_compute; reflexivity).
  assert (H2 : exists inp,
             chart_fields pow_approx strptime_digits 0 sample_chart
               (tie_pass 2 "2023-05-01T10:00:00.000Z") = Ret inp)
    by (eexists; vm_compute; reflexivity).
  destruct H1 as (inp1 & E1). destruct H2 as (inp2 & E2).
  split.
  - pose proof (proj1 (@world_first_never_marked pow_approx strptime_digits 0 (VInt 63)
                         sample_chart (charts tie_data) _ _ (players tie_data) true
                         Hc eq_refl Hall) _ _ (Permutation_refl _)) as H.
    rewrite E1 in H. exact H.
  - pose proof (proj1 (@world_first_never_marked pow_approx strptime_digits 0 (VInt 63)
                         sample_chart (charts tie_data) _ _ (players tie_data) false
                         Hc eq_refl Hall) _ _ (perm_swap _ _ _)) as H.
    rewrite E2 in H. exact H.
Defined.

(** ** searchAllClears *)

Lemma player_clears_returns data TwvKOnly player allClears : forall Clears Clears',
  player_clears data TwvKOnly player allClears Clears = Ret Clears' ->
  Clears' = Clears.
Proof.
  induction allClears as [|clear rest IH]; intros Clears Clears' H;
    cbn [player_clears] in H.
  - congruence.
  - apply bind_ret in H as (chart & Hc & H).
    apply bind_ret in Hc as (cid & Hcid & _).
    apply bind_ret in H as (c & _ & H).
    destruct (c && is_not_none chart); [|exact (IH _ _ H)].
    exfalso.
    apply bind_ret in H as (name & _ & H).
    change (ResultObj.updateParams ResultObj.init [("player", name)])
      with (ResultObj.mk (dict_update ResultObj.schema [("player", name)]), Ret tt)
      in H.
    cbn [bind] in H.
    destruct clear as [| | | | | | |inp]; try discriminate.
    simpl in Hcid. destruct (dict_get inp "chartId") as [v|] eqn:Hg; [|discriminate].
    unfold ResultObj.updateParams in H. cbn [ResultObj.params] in H.
    pose proof (updateParams_params_spec
                  (dict_update ResultObj.schema [("player", name)]) inp) as S.
    destruct (updateParams_params _ inp) as [p r].
    destruct S as (S & _ & _).
    assert (Hr : raises r = true).
    { apply S. exists "chartId". split.
      - clear -Hg. induction inp as [|[k0 v0] inp IH]; simpl in *; [discriminate|].
        destruct (String.eqb_spec k0 "chartId") as [->|]; auto.
      - cbn. intuition discriminate. }
    destruct r; [discriminate | discriminate].
Qed.

Lemma all_clears_returns data TwvKOnly leaderboard : forall Clears Clears',
  all_clears data TwvKOnly leaderboard Clears = Ret Clears' -> Clears' = Clears.
Proof.
  induction leaderboard as [|player rest IH]; intros Clears Clears' H;
    cbn [all_clears] in H.
  - congruence.
  - apply bind_ret in H as (allClears & _ & H).
    apply bind_ret in H as (C1 & HC1 & H).
    apply player_clears_returns in HC1. subst C1. exact (IH _ _ H).
Qed.

(** X20. [searchAllClears] returns nothing but the empty list: a clear whose
    chart is known (and which is 12K when only those are asked for) makes
    [updateParams] raise for the key ["chartId"], which the record lacks. *)
Theorem searchAllClears_only_empty
    (sortBy : string) (data : DataScraper) (leaderboard : list pyval)
    (TwvKOnly reverse : bool) (l : list dict) :
  searchAllClears sortBy data leaderboard TwvKOnly reverse = Ret l ->
  l = [] /\ In sortBy Utils.allClearSortPriority.
Proof.
  unfold searchAllClears. intros H.
  apply bind_ret in H as (Clears & HC & H).
  apply all_clears_returns in HC. subst Clears.
  apply bind_ret in H as (priority & Hp & H).
  cbn in H. split.
  - destruct reverse; injection H as <-; reflexivity.
  - clear H. revert priority Hp.
    induction Utils.allClearSortPriority as [|y ys IH]; intros priority Hp;
      cbn [list_remove] in Hp; [discriminate|].
    destruct (String.eqb_spec y sortBy) as [->|Hne]; [left; reflexivity|].
    apply bind_ret in Hp as (r & Hr & _). right. exact (IH _ Hr).
Qed.

Lemma searchAllClears_only_empty_witness :
  @nil dict = [] /\ In "score" Utils.allClearSortPriority.
Proof.
  assert (H : searchAllClears "score" no_pass_data
                [sample_board_entry (VStr "")] false false = Ret [])
    by (vm_compute; reflexivity).
  exact (searchAllClears_only_empty _ _ _ _ _ H).
Defined.

(** A clear of a known chart: the search raises the [ValueError] of
    [updateParams]. *)
Example searchAllClears_raises :
  searchAllClears "score" no_pass_data
    [sample_board_entry (VList [sample_clear])] false false
  = Raise incorrect_chartId.
Proof. vm_compute. reflexivity. Qed.

(** ** The top difficulties *)

Lemma rank_pair pgu num r : pguSort pgu = Some r -> rank (pgu, num) = r.
Proof. unfold rank. cbn [fst]. intros ->. reflexivity. Qed.

(** X21. One pass never lowers a top difficulty, whatever the pass and the
    chart hold, and whichever statement of the block raises. *)
Theorem track_tops_monotone (chart Pass : pyval) (topDiff top12kDiff : diff) :
  diff_le topDiff (fst (track_tops chart Pass topDiff top12kDiff))
  /\ diff_le top12kDiff (snd (track_tops chart Pass topDiff top12kDiff)).
Proof.
  assert (Rf : forall d, diff_le d d) by (intros d; right; lia).
  unfold track_tops.
  destruct (getitem Pass "isDeleted") as [deleted|e]; [|split; apply Rf].
  destruct (truthy deleted); [split; apply Rf|].
  destruct (getitem chart "pguDiff") as [[| | | |[|c rest]| | |]|e];
    try (split; apply Rf).
  destruct (int_of_str rest) as [num|]; [|split; apply Rf].
  destruct (pguSort (str_of_ascii c)) as [r|] eqn:Hr; [|split; apply Rf].
  set (pgu := str_of_ascii c) in *.
  pose proof (@rank_pair pgu num r Hr) as Rp.
  set (t1 := if (rank topDiff <? r)%Z then (pgu, num) else topDiff).
  assert (H1 : diff_le topDiff t1).
  { subst t1. destruct (Z.ltb_spec (rank topDiff) r); [|apply Rf].
    left. rewrite Rp. lia. }
  set (t2 := if (rank t1 =? r)%Z && (snd t1 <? num)%Z then (fst t1, num) else t1).
  assert (H2 : diff_le topDiff t2).
  { subst t2. destruct ((rank t1 =? r)%Z && (snd t1 <? num)%Z) eqn:E; [|exact H1].
    apply andb_prop in E as [E1 E2].
    assert (Hrk : rank (fst t1, num) = rank t1) by reflexivity.
    destruct H1 as [H1|[H1 H1']]; [left; rewrite Hrk; exact H1|].
    right. rewrite Hrk. cbn [snd]. lia. }
  destruct (rank top12kDiff <? r)%Z eqn:E12.
  - destruct (getitem Pass "is12K") as [k|e]; cbn [bind fst snd];
      [|split; [exact H1 | apply Rf]].
    set (u1 := if truthy k then (pgu, num) else top12kDiff).
    assert (Hu1 : diff_le top12kDiff u1).
    { subst u1. destruct (truthy k); [|apply Rf]. left. rewrite Rp. lia. }
    fold t1. fold t2.
    destruct ((rank u1 =? r)%Z && (snd u1 <? num)%Z) eqn:E.
    + cbn [bind]. split; [exact H2|]. cbn [snd].
      destruct (truthy k) eqn:Ek'; [|exact Hu1].
      apply andb_prop in E as [E1 E2].
      assert (Hrk : rank (fst u1, num) = rank u1) by reflexivity.
      destruct Hu1 as [Hu1|[Hu1 Hu1']]; [left; rewrite Hrk; exact Hu1|].
      right. rewrite Hrk. cbn [snd]. lia.
    + split; [exact H2 | exact Hu1].
  - cbn [bind]. fold t1. fold t2.
    destruct ((rank top12kDiff =? r)%Z && (snd top12kDiff <? num)%Z) eqn:E.
    + destruct (getitem Pass "is12K") as [k|e]; cbn [bind fst snd];
        [|split; [exact H2 | apply Rf]].
      split; [exact H2|].
      destruct (truthy k); [|apply Rf].
      apply andb_prop in E as [E1 E2]. right.
      split; [reflexivity|]. cbn [snd]. lia.
    + split; [exact H2 | apply Rf].
Qed.

(** The two updates of one top difficulty, [b] telling whether the pass
    counts for it. *)
Lemma top_update (top d : diff) (b : bool) (r : Z) :
  pguSort (fst d) = Some r ->
  let t1 := if (rank top <? r)%Z && b then d else top in
  let t2 := if (rank t1 =? r)%Z && (snd t1 <? snd d)%Z && b
            then (fst t1, snd d) else t1 in
  (b = true -> diff_lt top d -> rank t2 = rank d /\ snd t2 = snd d)
  /\ (b = true -> ~ diff_lt top d -> t2 = top)
  /\ (b = false -> t2 = top).
Proof.
  intros Hr t1 t2. destruct d as [pgu num]. cbn [fst snd] in *.
  pose proof (@rank_pair pgu num r Hr) as Rp.
  unfold diff_lt. rewrite Rp. cbn [snd].
  subst t2 t1. destruct b; rewrite ?andb_true_r, ?andb_false_r.
  2:{ repeat split; intros; try discriminate; reflexivity. }
  split; [|split; [|discriminate]]; intros _ H.
  - destruct (Z.ltb_spec (rank top) r) as [L|L].
    + rewrite Rp, Z.eqb_refl, Z.ltb_irrefl. cbn [andb]. rewrite Rp. auto.
    + destruct H as [H|[H1 H2]]; [lia|].
      rewrite H1, Z.eqb_refl. cbn [andb].
      destruct (Z.ltb_spec (snd top) num); [|lia].
      split; [|reflexivity]. unfold rank. cbn [fst]. fold (rank top). exact H1.
  - destruct (Z.ltb_spec (rank top) r) as [L|L]; [exfalso; apply H; left; exact L|].
    destruct (Z.eqb_spec (rank top) r) as [E|E]; [|reflexivity].
    destruct (Z.ltb_spec (snd top) num) as [L'|L']; [|reflexivity].
    exfalso. apply H. right. split; assumption.
Qed.

(** X22. For a pass that is not deleted and a chart whose difficulty [d] is
    spelled, each top difficulty becomes the greater of itself and [d] by
    tier, then number; [top12kDiff] moves only for a 12K pass. *)
Theorem track_tops_max
    (chart Pass deleted k : pyval) (topDiff top12kDiff d : diff) :
  getitem Pass "isDeleted" = Ret deleted -> truthy deleted = false ->
  getitem Pass "is12K" = Ret k ->
  spelled chart d ->
  let t := fst (track_tops chart Pass topDiff top12kDiff) in
  let t12 := snd (track_tops chart Pass topDiff top12kDiff) in
  (diff_lt topDiff d -> rank t = rank d /\ snd t = snd d)
  /\ (~ diff_lt topDiff d -> t = topDiff)
  /\ (truthy k = true -> diff_lt top12kDiff d ->
      rank t12 = rank d /\ snd t12 = snd d)
  /\ (truthy k = true -> ~ diff_lt top12kDiff d -> t12 = top12kDiff)
  /\ (truthy k = false -> t12 = top12kDiff).
Proof.
  intros Hdel Hnd Hk (c & rest & Hp & Hc & Hn & Hs).
  destruct (pguSort (fst d)) as [r|] eqn:Hr; [clear Hs|contradiction].
  assert (E : track_tops chart Pass topDiff top12kDiff =
              (let t1 := if (rank topDiff <? r)%Z && true then d else topDiff in
               if (rank t1 =? r)%Z && (snd t1 <? snd d)%Z && true
               then (fst t1, snd d) else t1,
               let t1 := if (rank top12kDiff <? r)%Z && truthy k then d else top12kDiff in
               if (rank t1 =? r)%Z && (snd t1 <? snd d)%Z && truthy k
               then (fst t1, snd d) else t1)).
  { unfold track_tops. rewrite Hdel, Hnd, Hp, Hn, <- Hc, Hr, Hk.
    destruct d as [pgu num]. cbn [fst snd bind].
    rewrite !andb_true_r.
    destruct (rank top12kDiff <? r)%Z; cbn [bind andb];
      destruct (truthy k); cbn [fst snd andb];
      rewrite ?andb_true_r, ?andb_false_r;
      repeat match goal with
             | |- context [match (if ?b then _ else _) with Ret _ => _ | Raise _ => _ end] =>
                 destruct b; cbn [bind]
             end; reflexivity. }
  destruct (@top_update topDiff d true r Hr) as (A1 & A2 & _).
  destruct (@top_update top12kDiff d (truthy k) r Hr) as (B1 & B2 & B3).
  intros t t12. subst t t12. rewrite E. cbn [fst snd].
  split; [intros H; apply A1; [reflexivity | exact H]|].
  split; [intros H; apply A2; [reflexivity | exact H]|].
  split; [exact B1|]. split; [exact B2 | exact B3].
Qed.

Lemma track_tops_max_witness :
  let t := fst (track_tops sample_chart (sample_pass ref_judgements) ("P", 1%Z) ("P", 1%Z)) in
  let t12 := snd (track_tops sample_chart (sample_pass ref_judgements) ("P", 1%Z) ("P", 1%Z)) in
  (diff_lt ("P", 1%Z) ("U", 7%Z) -> rank t = rank ("U", 7%Z) /\ snd t = snd ("U", 7%Z))
  /\ (~ diff_lt ("P", 1%Z) ("U", 7%Z) -> t = ("P", 1%Z))
  /\ (truthy (VBool false) = true -> diff_lt ("P", 1%Z) ("U", 7%Z) ->
      rank t12 = rank ("U", 7%Z) /\ snd t12 = snd ("U", 7%Z))
  /\ (truthy (VBool false) = true -> ~ diff_lt ("P", 1%Z) ("U", 7%Z) ->
      t12 = ("P", 1%Z))
  /\ (truthy (VBool false) = false -> t12 = ("P", 1%Z)).
Proof.
  assert (Hs : spelled sample_chart ("U", 7%Z)).
  { exists "U"%char, "7". repeat split; try reflexivity. discriminate. }
  exact (@track_tops_max sample_chart (sample_pass ref_judgements) (VBool false)
           (VBool false) ("P", 1%Z) ("P", 1%Z) ("U", 7%Z)
           eq_refl eq_refl eq_refl Hs).
Defined.

(** ** [sorted] keeps the elements *)

Lemma insert_perm {A} (kx : pyval * A) l : forall r,
  insert kx l = Ret r -> Permutation r (kx :: l).
Proof.
  induction l as [|ky l IH]; cbn [insert]; intros r H.
  - injection H as <-. reflexivity.
  - apply bind_ret in H as (c & _ & H). destruct c.
    + apply bind_ret in H as (r' & Hr' & H). injection H as <-.
      rewrite (IH _ Hr'). apply perm_swap.
    + injection H as <-. reflexivity.
Qed.

Lemma sort_keyed_perm {A} (l : list (pyval * A)) : forall r,
  sort_keyed l = Ret r -> Permutation r l.
Proof.
  induction l as [|kx l IH]; cbn [sort_keyed]; intros r H.
  - injection H as <-. reflexivity.
  - apply bind_ret in H as (s & Hs & H).
    rewrite (insert_perm _ _ H). constructor. exact (IH _ Hs).
Qed.

Lemma map_snd_combine {A B} (ks : list A) : forall l : list B,
  List.length ks = List.length l -> map snd (combine ks l) = l.
Proof.
  induction ks as [|k ks IH]; intros [|x l] H; simpl in *; try discriminate;
    [reflexivity|]. f_equal. apply IH. lia.
Qed.

Lemma sorted_perm {A} (key : A -> res pyval) (l r : list A) :
  sorted key l = Ret r -> Permutation r l.
Proof.
  unfold sorted. intros H.
  apply bind_ret in H as (ks & Hks & H).
  apply bind_ret in H as (s & Hs & H). injection H as <-.
  apply mapM_Forall2 in Hks. apply Forall2_length in Hks.
  rewrite (sort_keyed_perm _ Hs). rewrite map_snd_combine by lia. reflexivity.
Qed.

Lemma list_remove_spec x l :
  (~ In x l -> list_remove x l = Raise (ValueError "list.remove(x): x not in list"))
  /\ (forall r, list_remove x l = Ret r -> Permutation (x :: r) l).
Proof.
  induction l as [|y l [IH1 IH2]]; cbn [list_remove].
  - split; [reflexivity | discriminate].
  - destruct (String.eqb_spec y x) as [->|Hne]; split.
    + intros H. exfalso. apply H. left; reflexivity.
    + intros r [= <-]. reflexivity.
    + intros H. rewrite IH1; [reflexivity|]. intros Hin. apply H. right; exact Hin.
    + intros r H. apply bind_ret in H as (r' & Hr' & H). injection H as <-.
      rewrite perm_swap. constructor. exact (IH2 _ Hr').
Qed.

(** X23. The sort at the end of [searchAllPlayers].  A sort field outside the
    priority list raises [ValueError], whatever the leaderboard; when the
    sort returns, the result holds exactly the entries of the leaderboard,
    the criteria are the priority list with the sort field moved to the
    front, and the opposite [reverse] gives the reversed list. *)
Theorem sort_leaderboard_outcome (sortBy : string) (reverse : bool) (lb : list dict) :
  (~ In sortBy Utils.allPassSortPriority ->
   sort_leaderboard sortBy reverse lb
   = Raise (ValueError "list.remove(x): x not in list"))
  /\ (forall r,
        sort_leaderboard sortBy reverse lb = Ret r ->
        Permutation r lb
        /\ (exists priority,
              list_remove sortBy Utils.allPassSortPriority = Ret priority
              /\ Permutation (sortBy :: priority) Utils.allPassSortPriority)
        /\ sort_leaderboard sortBy (negb reverse) lb = Ret (rev r)).
Proof.
  destruct (list_remove_spec sortBy Utils.allPassSortPriority) as [R1 R2].
  unfold sort_leaderboard. split.
  - intros Hn. rewrite (R1 Hn). reflexivity.
  - intros r H.
    destruct (list_remove sortBy Utils.allPassSortPriority) as [priority|e] eqn:Hp;
      [|discriminate].
    cbn [bind] in H |- *.
    destruct (sorted (sort_key (sortBy :: priority)) lb) as [s|e] eqn:Hs;
      [|discriminate].
    cbn [bind] in H |- *. injection H as <-.
    pose proof (sorted_perm _ _ Hs) as P.
    split; [|split].
    + destruct reverse; [rewrite <- Permutation_rev|]; exact P.
    + exists priority. split; [reflexivity | apply R2; reflexivity].
    + destruct reverse; cbn [negb]; [rewrite rev_involutive|]; reflexivity.
Qed.

Lemma sort_leaderboard_outcome_witness :
  let lb := [sample_entry 2; sample_entry 1] in
  exists r,
    sort_leaderboard "avgXacc" false lb = Ret r
    /\ Permutation r lb
    /\ (exists priority,
          list_remove "avgXacc" Utils.allPassSortPriority = Ret priority
          /\ Permutation ("avgXacc" :: priority) Utils.allPassSortPriority)
    /\ sort_leaderboard "avgXacc" (negb false) lb = Ret (rev r).
Proof.
  intros lb.
  assert (H : sort_leaderboard "avgXacc" false lb = Ret lb) by (vm_compute; reflexivity).
  exists lb. split; [exact H|].
  exact (proj2 (sort_leaderboard_outcome "avgXacc" false lb) lb H).
Defined.
